(** * volpro: the task dispatch and report engine of [volpro.py]

    A shallow embedding of [src/volpro.py].  Python text ([str]) is a list of
    code points, [bytes] a list of bytes, the [tasks] dictionary an
    insertion-ordered association list, the file system a finite map from
    paths to file contents, with the paths written as [os.path] and
    [pathlib] write them on a POSIX system, where two paths that are
    written differently are two files.  Python functions are programs of a resumption
    monad whose nodes are the atomic actions of a thread; exceptions are the
    [Raise] results of those programs, and [try ... except] is [try_except].
    The thread pool runs its workers under an arbitrary interleaving given
    by a schedule. *)

From Stdlib Require Import NArith ZArith Lia.
From Stdlib.Strings Require Import Byte.
From stdpp Require Import gmap list strings.

Local Open Scope N_scope.

(** ** Exceptions and results *)

(** The exception classes the program can meet.  All but
    [KeyboardInterrupt] derive from Python's [Exception]; [OSError]
    stands for the error a call of the operating system fails with. *)
Inductive exn : Type :=
  | TimeoutExpired
  | OSError
  | FileNotFoundError
  | UnicodeDecodeError
  | UnicodeEncodeError
  | IndexError
  | ValueError
  | OverflowError
  | KeyboardInterrupt.

Definition is_Exception (e : exn) : bool :=
  match e with
  | KeyboardInterrupt => false
  | _ => true
  end.

Inductive result (A : Type) : Type :=
  | Ok (a : A)
  | Raise (e : exn).
Arguments Ok {A} a.
Arguments Raise {A} e.

Definition result_map {A B} (f : A → B) (r : result A) : result B :=
  match r with
  | Ok a => Ok (f a)
  | Raise e => Raise e
  end.

Definition is_Ok {A} (r : result A) : bool :=
  match r with
  | Ok _ => true
  | Raise _ => false
  end.

(** ** Text and bytes *)

(** A Python [str]: the sequence of its code points. *)
Abbreviation pystr := (list N).
(** A Python [bytes] object. *)
Abbreviation bytes := (list Byte.byte).

Module Codec.

(** [errors=] argument of [bytes.decode]. *)
Inductive errors : Type := strict | ignore.

(** What the error handler does with the rest of the decoding. *)
Definition handle (e : errors) (rest : result pystr) : result pystr :=
  match e with
  | strict => Raise UnicodeDecodeError
  | ignore => rest
  end.

(** State of the UTF-8 decoder between two bytes: at a character
    boundary, or inside a sequence with the bits read so far, the number
    of continuation bytes expected after the next one, and the range the
    next byte must lie in. *)
Inductive utf8_state : Type :=
  | Start
  | Cont (cp : N) (more : nat) (lo hi : N).

Inductive lead : Type :=
  | LChar (c : N)
  | LBegin (st : utf8_state)
  | LInvalid.

(** Classification of the first byte of a sequence.  [0xC0], [0xC1] and
    [0xF5..0xFF] start nothing; [0xE0], [0xED], [0xF0] and [0xF4] narrow
    the range of the second byte (no overlong forms, no surrogates,
    nothing above U+10FFFF). *)
Definition utf8_lead (b : N) : lead :=
  if b <? 0x80 then LChar b
  else if b <? 0xC2 then LInvalid
  else if b <? 0xE0 then LBegin (Cont (b - 0xC0) 0 0x80 0xBF)
  else if b =? 0xE0 then LBegin (Cont 0 1 0xA0 0xBF)
  else if b =? 0xED then LBegin (Cont 0xD 1 0x80 0x9F)
  else if b <? 0xF0 then LBegin (Cont (b - 0xE0) 1 0x80 0xBF)
  else if b =? 0xF0 then LBegin (Cont 0 2 0x90 0xBF)
  else if b =? 0xF4 then LBegin (Cont 4 2 0x80 0x8F)
  else if b <? 0xF4 then LBegin (Cont (b - 0xF0) 2 0x80 0xBF)
  else LInvalid.

(** [bytes.decode("UTF-8", errors=e)].  A byte that cannot continue the
    current sequence ends it as an error and is then read again as the
    first byte of a new sequence; input that stops inside a sequence is
    an error too. *)
Fixpoint utf8_from (e : errors) (st : utf8_state) (bs : bytes) : result pystr :=
  match bs with
  | [] =>
      match st with
      | Start => Ok []
      | Cont _ _ _ _ => handle e (Ok [])
      end
  | b :: bs' =>
      let fresh :=
        match utf8_lead (Byte.to_N b) with
        | LChar c => result_map (cons c) (utf8_from e Start bs')
        | LBegin st' => utf8_from e st' bs'
        | LInvalid => handle e (utf8_from e Start bs')
        end in
      match st with
      | Start => fresh
      | Cont cp more lo hi =>
          if (lo <=? Byte.to_N b) && (Byte.to_N b <=? hi) then
            let cp' := cp * 64 + (Byte.to_N b - 0x80) in
            match more with
            | O => result_map (cons cp') (utf8_from e Start bs')
            | S more' => utf8_from e (Cont cp' more' 0x80 0xBF) bs'
            end
          else handle e fresh
      end
  end.

Definition utf8_decode (e : errors) (bs : bytes) : result pystr :=
  utf8_from e Start bs.

Definition byte_of (n : N) : Byte.byte := default Byte.x00 (Byte.of_N n).

(** A Unicode scalar value: a code point that is not a surrogate. *)
Definition scalar (c : N) : bool :=
  (c <? 0xD800) || ((0xDFFF <? c) && (c <? 0x110000)).

Definition utf8_char (c : N) : bytes :=
  if c <? 0x80 then [byte_of c]
  else if c <? 0x800 then
    [byte_of (0xC0 + c / 64); byte_of (0x80 + c mod 64)]
  else if c <? 0x10000 then
    [byte_of (0xE0 + c / 4096); byte_of (0x80 + (c / 64) mod 64);
     byte_of (0x80 + c mod 64)]
  else
    [byte_of (0xF0 + c / 262144); byte_of (0x80 + (c / 4096) mod 64);
     byte_of (0x80 + (c / 64) mod 64); byte_of (0x80 + c mod 64)].

(** [str.encode("utf-8")]: surrogates cannot be encoded. *)
Fixpoint utf8_encode (s : pystr) : result bytes :=
  match s with
  | [] => Ok []
  | c :: s' =>
      if scalar c then result_map (app (utf8_char c)) (utf8_encode s')
      else Raise UnicodeEncodeError
  end.

(** [bytes.decode("ISO-8859-1")]: every byte is its own code point. *)
Definition latin1_decode (bs : bytes) : result pystr :=
  Ok (Byte.to_N <$> bs).

(** Code points of the bytes [0x80..0x9F] in Windows-1252; five bytes
    are unassigned. *)
Definition cp1252_high : list (option N) :=
  [Some 0x20AC; None; Some 0x201A; Some 0x0192; Some 0x201E; Some 0x2026;
   Some 0x2020; Some 0x2021; Some 0x02C6; Some 0x2030; Some 0x0160;
   Some 0x2039; Some 0x0152; None; Some 0x017D; None;
   None; Some 0x2018; Some 0x2019; Some 0x201C; Some 0x201D; Some 0x2022;
   Some 0x2013; Some 0x2014; Some 0x02DC; Some 0x2122; Some 0x0161;
   Some 0x203A; Some 0x0153; None; Some 0x017E; Some 0x0178].

Definition cp1252_char (b : N) : option N :=
  if (0x80 <=? b) && (b <? 0xA0)
  then mjoin (cp1252_high !! N.to_nat (b - 0x80))
  else Some b.

(** [bytes.decode("cp1252", errors=e)]. *)
Fixpoint cp1252_decode (e : errors) (bs : bytes) : result pystr :=
  match bs with
  | [] => Ok []
  | b :: bs' =>
      match cp1252_char (Byte.to_N b) with
      | Some c => result_map (cons c) (cp1252_decode e bs')
      | None => handle e (cp1252_decode e bs')
      end
  end.

End Codec.

(** A string literal of the source: the text its UTF-8 bytes spell. *)
Definition py (s : string) : pystr :=
  match Codec.utf8_decode Codec.strict (String.list_byte_of_string s) with
  | Ok t => t
  | Raise _ => []
  end.

(** ** Operations of [str] and [list] used by the program *)

Module Str.

(** [s.split(sep)] for a separator of one character, as every separator
    of the program is: the pieces between the occurrences of [sep],
    never an empty list. *)
Fixpoint split (sep : N) (s : pystr) : list pystr :=
  match s with
  | [] => [[]]
  | c :: s' =>
      if c =? sep then [] :: split sep s'
      else
        match split sep s' with
        | [] => [[c]]
        | piece :: pieces => (c :: piece) :: pieces
        end
  end.

Fixpoint startswith (prefix s : pystr) : bool :=
  match prefix, s with
  | [], _ => true
  | _ :: _, [] => false
  | p :: prefix', c :: s' => (p =? c) && startswith prefix' s'
  end.

(** [sub in s]. *)
Fixpoint contains (sub s : pystr) : bool :=
  startswith sub s ||
  match s with
  | [] => false
  | _ :: s' => contains sub s'
  end.

(** [str.isspace] on one character. *)
Definition isspace (c : N) : bool :=
  ((0x09 <=? c) && (c <=? 0x0D)) || ((0x1C <=? c) && (c <=? 0x20))
  || (c =? 0x85) || (c =? 0xA0) || (c =? 0x1680)
  || ((0x2000 <=? c) && (c <=? 0x200A))
  || (c =? 0x2028) || (c =? 0x2029) || (c =? 0x202F) || (c =? 0x205F)
  || (c =? 0x3000).

Fixpoint lstrip (s : pystr) : pystr :=
  match s with
  | c :: s' => if isspace c then lstrip s' else s
  | [] => []
  end.

Definition rstrip (s : pystr) : pystr := reverse (lstrip (reverse s)).

(** [s.strip()]. *)
Definition strip (s : pystr) : pystr := rstrip (lstrip s).

(** [sep.join(parts)]. *)
Fixpoint join (sep : pystr) (parts : list pystr) : pystr :=
  match parts with
  | [] => []
  | [p] => p
  | p :: parts' => p ++ sep ++ join sep parts'
  end.

(** Reading in text mode: ["\r\n"] and a lone ["\r"] become ["\n"]. *)
Fixpoint universal_newlines (s : pystr) : pystr :=
  match s with
  | 13 :: s' =>
      match s' with
      | 10 :: _ => universal_newlines s'
      | _ => 10 :: universal_newlines s'
      end
  | c :: s' => c :: universal_newlines s'
  | [] => []
  end.

(** The lines of a text, each with its ["\n"] when it has one. *)
Fixpoint lines (s : pystr) : list pystr :=
  match s with
  | [] => []
  | c :: s' =>
      if c =? 10 then [c] :: lines s'
      else
        match lines s' with
        | [] => [[c]]
        | l :: ls => (c :: l) :: ls
        end
  end.

End Str.

Module PyList.

(** [l[i]]. *)
Definition get {A} (l : list A) (i : nat) : result A :=
  match l !! i with
  | Some x => Ok x
  | None => Raise IndexError
  end.

(** [l.index(x)]: the first position of [x]. *)
Fixpoint index (x : pystr) (l : list pystr) : result nat :=
  match l with
  | [] => Raise ValueError
  | y :: l' => if bool_decide (y = x) then Ok O else result_map S (index x l')
  end.

End PyList.

(** ** The [tasks] dictionary *)

(** A [dict] keeps its keys in insertion order; assigning to a key that is
    present replaces the value where it stands. *)
Module Dict.

Definition t (V : Type) : Type := list (pystr * V).

Fixpoint set {V} (k : pystr) (v : V) (d : t V) : t V :=
  match d with
  | [] => [(k, v)]
  | (k', v') :: d' =>
      if bool_decide (k' = k) then (k, v) :: d' else (k', v') :: set k v d'
  end.

Definition keys {V} (d : t V) : list pystr := fst <$> d.
Definition items {V} (d : t V) : list (pystr * V) := d.

End Dict.

(** ** Paths *)

Module Path.

(** [os.path.dirname]: what stands before the last ["/"], without
    trailing slashes unless it is the root. *)
Fixpoint dirname_rev (r : pystr) : pystr :=
  match r with
  | [] => []
  | c :: r' => if c =? 47 then r else dirname_rev r'
  end.

Fixpoint drop_slashes (r : pystr) : pystr :=
  match r with
  | c :: r' => if c =? 47 then drop_slashes r' else r
  | [] => []
  end.

Definition dirname (p : pystr) : pystr :=
  let head := dirname_rev (reverse p) in
  match drop_slashes head with
  | [] => reverse head
  | stripped => reverse stripped
  end.

(** The parts [pathlib] keeps of a path: the pieces between the slashes
    that are neither empty nor ["."]. *)
Definition parts (p : pystr) : list pystr :=
  filter (λ piece, piece ≠ [] ∧ piece ≠ [46]) (Str.split 47 p).

(** The root of a path: ["/"], and ["//"] for a path that starts with
    exactly two slashes. *)
Definition root (p : pystr) : pystr :=
  if Str.startswith [47; 47] p && negb (Str.startswith [47; 47; 47] p)
  then [47; 47]
  else if Str.startswith [47] p then [47]
  else [].

(** [str] of the path with a root and parts; the path without either is
    the current directory. *)
Definition render (root : pystr) (parts : list pystr) : pystr :=
  match root, parts with
  | [], [] => [46]
  | _, _ => root ++ Str.join [47] parts
  end.

(** [str(Path(p))]. *)
Definition path (p : pystr) : pystr := render (root p) (parts p).

(** [str(Path(base) / child)]: the parts of [child] follow those of
    [base], and a [child] with a root replaces [base]. *)
Definition div (base child : pystr) : pystr :=
  if Str.startswith [47] child then path child
  else render (root base) (parts base ++ parts child).

End Path.

(** ** The world of a run *)

Inductive level : Type := INFO | WARNING | ERROR.

(** The records the program logs, one constructor for each logging call,
    with the values its message is formatted from. *)
Inductive log_event : Type :=
  | TaskNoOutput (task_name : pystr)
  | TaskTimedOut (task_name : pystr) (timeout : Z)
  | TaskFailed (task_name : pystr) (e : exn)
  | ReportStarted
  | SectionFailed (task_name : pystr) (e : exn)
  | ReportWritten (summary_file : pystr)
  | ReportFailed (e : exn)
  | DumpStarted
  | DumpDone
  | DumpFailed (e : exn)
  | ProfileMissing
  | ProfileSelected (profile : pystr)
  | ProfileFailed (e : exn)
  | ConfigFailed (e : exn)
  | TasksBuilt (total_tasks : nat)
  | TasksDone
  | Elapsed
  | ReportCreating
  | ReportDone
  | Interrupted
  | FatalError (e : exn).

(** [ProgressManager]: the counter, and the count and description of its
    progress bar. *)
Record ProgressManager : Type := {
  total : nat;
  completed_tasks : nat;
  bar_n : nat;
  bar_desc : pystr;
  bar_closed : bool
}.

(** What the external tool does with a command line. *)
Inductive behaviour : Type :=
  | Runs (seconds : Z) (stdout : bytes)
  | CannotStart.

(** [os.linesep]. *)
Inductive newline : Type := LF | CRLF.

Definition linesep (n : newline) : pystr :=
  match n with
  | LF => [10]
  | CRLF => [13; 10]
  end.

(** Writing in text mode: every ["\n"] becomes [os.linesep]. *)
Definition translate_newlines (n : newline) (s : pystr) : pystr :=
  s ≫= λ c, if c =? 10 then linesep n else [c].

(** The surroundings of a run, which the program does not change: what
    the tool does, the line separator, the longest time limit the
    platform can wait for, the paths [stat] fails on for another reason
    than a missing file, the paths that can be opened for writing, the
    writes that fail once the file is open, with the bytes they leave,
    and the failure of [mkdir]. *)
Record Env : Type := {
  tool : list pystr → behaviour;
  os_linesep : newline;
  timeout_max : Z;
  stat_error : pystr → bool;
  writable : pystr → bool;
  write_error : pystr → bytes → option bytes;
  mkdir_error : option exn
}.

(** The state threads share: the files, the analyzer's
    [progress_manager] attribute, the log, the text printed, and the
    command lines given to [subprocess.run] so far. *)
Record St : Type := {
  files : gmap pystr bytes;
  progress_manager : option ProgressManager;
  log : list (level * log_event);
  printed : list pystr;
  invoked : list (list pystr)
}.

Definition set_files (f : gmap pystr bytes → gmap pystr bytes) (s : St) : St :=
  {| files := f (files s); progress_manager := progress_manager s;
     log := log s; printed := printed s; invoked := invoked s |}.

Definition set_progress_manager
    (f : option ProgressManager → option ProgressManager) (s : St) : St :=
  {| files := files s; progress_manager := f (progress_manager s);
     log := log s; printed := printed s; invoked := invoked s |}.

Definition add_log (r : level * log_event) (s : St) : St :=
  {| files := files s; progress_manager := progress_manager s;
     log := log s ++ [r]; printed := printed s; invoked := invoked s |}.

Definition add_printed (t : pystr) (s : St) : St :=
  {| files := files s; progress_manager := progress_manager s;
     log := log s; printed := printed s ++ [t]; invoked := invoked s |}.

Definition add_invoked (c : list pystr) (s : St) : St :=
  {| files := files s; progress_manager := progress_manager s;
     log := log s; printed := printed s; invoked := invoked s ++ [c] |}.

(** The state a process starts in. *)
Definition boot (fs : gmap pystr bytes) : St :=
  {| files := fs; progress_manager := None; log := []; printed := [];
     invoked := [] |}.

(** ** Programs *)

(** A thread is a tree of atomic actions on the shared state; between two
    of them other threads may run. *)
Inductive prog (A : Type) : Type :=
  | Ret (a : A)
  | Atomic {X : Type} (act : St → X * St) (k : X → prog A).
Arguments Ret {A} a.
Arguments Atomic {A X} act k.

Fixpoint bind {A B} (m : prog A) (f : A → prog B) : prog B :=
  match m with
  | Ret a => f a
  | Atomic act k => Atomic act (λ x, bind (k x) f)
  end.

(** A thread running alone. *)
Fixpoint run {A} (p : prog A) (s : St) : A * St :=
  match p with
  | Ret a => (a, s)
  | Atomic act k => let '(x, s') := act s in run (k x) s'
  end.

(** One atomic action of a thread. *)
Definition step {A} (p : prog A) (s : St) : prog A * St :=
  match p with
  | Ret a => (Ret a, s)
  | Atomic act k => let '(x, s') := act s in (k x, s')
  end.

(** Python code: a program that returns or raises. *)
Definition M (A : Type) : Type := prog (result A).

Definition raise {A} (e : exn) : M A := Ret (Raise e).
Definition lift {A} (r : result A) : M A := Ret r.
Definition atomic {A} (act : St → result A * St) : M A := Atomic act Ret.

#[global] Instance result_ret : MRet result := λ A a, Ok a.
#[global] Instance result_bind : MBind result := λ A B f r,
  match r with
  | Ok a => f a
  | Raise e => Raise e
  end.

#[global] Instance M_ret : MRet M := λ A a, Ret (Ok a).
#[global] Instance M_bind : MBind M := λ A B f m,
  bind m (λ r, match r with
               | Ok a => f a
               | Raise e => Ret (Raise e)
               end).

(** [try: body except ...: handler]; a handler that does not match an
    exception raises it again. *)
Definition try_except {A} (body : M A) (handler : exn → M A) : M A :=
  bind body (λ r, match r with
                  | Ok a => Ret (Ok a)
                  | Raise e => handler e
                  end).

(** [except Exception as e: handler e]. *)
Definition except_Exception {A} (handler : exn → M A) (e : exn) : M A :=
  if is_Exception e then handler e else raise e.

(** A list comprehension whose element expression may raise. *)
Fixpoint comprehension {A B} (f : A → result B) (l : list A) : result (list B) :=
  match l with
  | [] => Ok []
  | x :: l' => y ← f x; ys ← comprehension f l'; Ok (y :: ys)
  end.

(** A loop body that appends to a local list: what it has appended stays
    when it raises. *)
Definition LM (A : Type) : Type := list pystr → prog (result A * list pystr).

#[global] Instance LM_ret : MRet LM := λ A a markdown, Ret (Ok a, markdown).
#[global] Instance LM_bind : MBind LM := λ A B f m markdown,
  bind (m markdown) (λ '(r, markdown'),
    match r with
    | Ok a => f a markdown'
    | Raise e => Ret (Raise e, markdown')
    end).

Definition lm_lift {A} (m : M A) : LM A :=
  λ markdown, bind m (λ r, Ret (r, markdown)).

Definition lm_append (x : pystr) : LM unit :=
  λ markdown, Ret (Ok (), markdown ++ [x]).

Definition lm_try_except {A} (body : LM A) (handler : exn → LM A) : LM A :=
  λ markdown, bind (body markdown) (λ '(r, markdown'),
    match r with
    | Ok a => Ret (Ok a, markdown')
    | Raise e => handler e markdown'
    end).

Definition lm_except_Exception {A} (handler : exn → LM A) (e : exn) : LM A :=
  if is_Exception e then handler e else lm_lift (raise e).

Fixpoint lm_for {A} (l : list A) (body : A → LM unit) : LM unit :=
  match l with
  | [] => mret ()
  | x :: l' => body x;; lm_for l' body
  end.

(** The list the loop leaves behind, from an empty one. *)
Definition lm_run (m : LM unit) : M (list pystr) :=
  bind (m []) (λ '(r, markdown),
    match r with
    | Ok _ => Ret (Ok markdown)
    | Raise e => Ret (Raise e)
    end).

(** Early [return] from a function. *)
Inductive flow (A : Type) : Type :=
  | Continue (a : A)
  | Return.
Arguments Continue {A} a.
Arguments Return {A}.

(** ** The thread pool *)

(** The workers of a [ThreadPoolExecutor] under a schedule: each entry
    lets one worker take its next atomic action; when the schedule is
    used up, [wait] lets every worker finish.  Every interleaving of the
    workers is the run of some schedule. *)
Fixpoint pool {A} (sched : list nat) (threads : list (prog A)) (s : St) : St :=
  match sched with
  | [] => foldl (λ s p, (run p s).2) s threads
  | i :: sched' =>
      match threads !! i with
      | Some p =>
          let '(p', s') := step p s in
          pool sched' (<[i := p']> threads) s'
      | None => pool sched' threads s
      end
  end.

(** ** [ProgressManager] *)

Definition nl : pystr := [10].

Definition ProgressManager_init (total_tasks : nat) : ProgressManager :=
  {| total := total_tasks; completed_tasks := 0; bar_n := 0;
     bar_desc := py "🚀 正在分析内存"; bar_closed := false |}.

(** [ProgressManager.update], the body run under the lock. *)
Definition ProgressManager_update (task_name : pystr) (pm : ProgressManager)
    : ProgressManager :=
  {| total := total pm; completed_tasks := S (completed_tasks pm);
     bar_n := S (bar_n pm); bar_desc := py "🚀 " ++ task_name;
     bar_closed := bar_closed pm |}.

Definition ProgressManager_close (pm : ProgressManager) : ProgressManager :=
  {| total := total pm; completed_tasks := completed_tasks pm;
     bar_n := bar_n pm; bar_desc := bar_desc pm; bar_closed := true |}.

(** ** [VolatilityAnalyzer] *)

Record VolatilityAnalyzer : Type := {
  volatility_path : pystr;
  timeout : Z
}.

Section Program.

Context (env : Env).

(** *** Actions on the world *)

(** [subprocess.run(command, stdout=PIPE, timeout=...)], giving the
    bytes of standard output.  A time limit the platform cannot wait for
    is an [OverflowError] of the first wait. *)
Definition subprocess_run (command : list pystr) (limit : option Z) : M bytes :=
  atomic (λ s,
    (match tool env command with
     | CannotStart => Raise OSError
     | Runs seconds stdout =>
         match limit with
         | Some t =>
             if (timeout_max env <? t)%Z then Raise OverflowError
             else if (t <? seconds)%Z then Raise TimeoutExpired
             else Ok stdout
         | None => Ok stdout
         end
     end, add_invoked command s)).

(** [path.exists()]: a missing file is [False], any other failure of
    [stat] is raised. *)
Definition path_exists (path : pystr) : M bool :=
  atomic (λ s,
    (if stat_error env path then Raise OSError
     else Ok (bool_decide (is_Some (files s !! path))), s)).

(** [path.write_text(data, encoding='utf-8')]: the file is opened, which
    empties it, and then [data] is encoded and written; a write that
    fails leaves what it has written. *)
Definition write_text (path data : pystr) : M unit :=
  atomic (λ s,
    if writable env path then
      match Codec.utf8_encode (translate_newlines (os_linesep env) data) with
      | Ok b =>
          match write_error env path b with
          | None => (Ok (), set_files <[path := b]> s)
          | Some partial => (Raise OSError, set_files <[path := partial]> s)
          end
      | Raise e => (Raise e, set_files <[path := []]> s)
      end
    else (Raise OSError, s)).

Definition read_file (s : St) (path : pystr) : result pystr :=
  match files s !! path with
  | None => Raise FileNotFoundError
  | Some b => result_map Str.universal_newlines (Codec.utf8_decode Codec.strict b)
  end.

(** [path.read_text(encoding='utf-8')]. *)
Definition read_text (path : pystr) : M pystr :=
  atomic (λ s, (read_file s path, s)).

(** [open(path, 'r', encoding='utf-8')] and [f.readlines()]. *)
Definition readlines (path : pystr) : M (list pystr) :=
  atomic (λ s, (result_map Str.lines (read_file s path), s)).

(** [path.mkdir(exist_ok=True)]. *)
Definition mkdir (path : pystr) : M unit :=
  atomic (λ s,
    (match mkdir_error env with
     | Some e => Raise e
     | None => Ok ()
     end, s)).

Definition logger (lvl : level) (ev : log_event) : M unit :=
  atomic (λ s, (Ok (), add_log (lvl, ev) s)).

Definition print (t : pystr) : M unit :=
  atomic (λ s, (Ok (), add_printed t s)).

(** Reading the attribute [self.progress_manager]. *)
Definition self_progress_manager : M (option ProgressManager) :=
  atomic (λ s, (Ok (progress_manager s), s)).

Definition set_self_progress_manager (pm : ProgressManager) : M unit :=
  atomic (λ s, (Ok (), set_progress_manager (λ _, Some pm) s)).

(** [self.progress_manager.update(task_name)]. *)
Definition progress_update (task_name : pystr) : M unit :=
  atomic (λ s,
    (Ok (), set_progress_manager (fmap (ProgressManager_update task_name)) s)).

Definition progress_close : M unit :=
  atomic (λ s, (Ok (), set_progress_manager (fmap ProgressManager_close) s)).

(** [if self.progress_manager: self.progress_manager.update(label)]. *)
Definition notify (label : pystr) : M unit :=
  pm ← self_progress_manager;
  if bool_decide (is_Some pm) then progress_update label else mret ().

(** *** [get_remaining_tasks] *)

Fixpoint remaining (output_path : pystr) (names : list pystr) : M (list pystr) :=
  match names with
  | [] => mret []
  | task_name :: names' =>
      present ← path_exists (Path.div output_path (task_name ++ py ".txt"));
      rest ← remaining output_path names';
      mret (if negb present then task_name :: rest else rest)
  end.

Definition get_remaining_tasks {V} (output_path : pystr) (tasks : Dict.t V)
    : M (list pystr) :=
  remaining output_path (Dict.keys tasks).

(** *** [run_command] *)

Definition run_command (self : VolatilityAnalyzer) (command : list pystr)
    (task_name output_path : pystr) (tasks : Dict.t (list pystr)) : M unit :=
  try_except
    (result ← subprocess_run command (Some (timeout self));
     output ← try_except
                (lift (Codec.utf8_decode Codec.ignore result))
                (λ e, match e with
                      | UnicodeDecodeError => lift (Codec.latin1_decode result)
                      | _ => raise e
                      end);
     if bool_decide (output ≠ []) then
       let output_file := Path.div output_path (task_name ++ py ".txt") in
       write_text output_file output;;
       notify task_name
     else
       logger WARNING (TaskNoOutput task_name);;
       notify (task_name ++ py " (无输出)"))
    (λ e, match e with
          | TimeoutExpired =>
              logger ERROR (TaskTimedOut task_name (timeout self));;
              notify (task_name ++ py " (超时)")
          | _ =>
              except_Exception (λ e,
                logger ERROR (TaskFailed task_name e);;
                notify (task_name ++ py " (错误)")) e
          end).

(** *** [generate_markdown] *)

(** The help text of a task, as the loop of [generate_markdown] looks
    it up. *)
Definition help_text_of (task_name : pystr)
    (tasklist tasklist_help task_filescanlist task_filescanlist_help : list pystr)
    : result pystr :=
  if Str.contains (py "filescan") task_name then
    after ← PyList.get (Str.split 40 task_name) 1;
    scan_type ← PyList.get (Str.split 41 after) 0;
    index ← PyList.index scan_type task_filescanlist;
    PyList.get task_filescanlist_help index
  else
    index ← PyList.index task_name tasklist;
    PyList.get tasklist_help index.

(** The body of the loop over [tasks.keys()]. *)
Definition markdown_section (output_path : pystr)
    (tasklist tasklist_help task_filescanlist task_filescanlist_help : list pystr)
    (task_name : pystr) : LM unit :=
  lm_try_except
    (help_text ← lm_lift (lift (help_text_of task_name tasklist tasklist_help
                                  task_filescanlist task_filescanlist_help));
     lm_append (py "# " ++ task_name ++ nl ++ py "## " ++ help_text);;
     let task_file := Path.div output_path (task_name ++ py ".txt") in
     present ← lm_lift (path_exists task_file);
     if (present : bool) then
       content ← lm_lift (read_text task_file);
       lm_append (py "```" ++ nl ++ content ++ nl ++ py "```" ++ nl)
     else
       lm_append (py "*暂无数据*" ++ nl))
    (lm_except_Exception (λ e, lm_lift (logger ERROR (SectionFailed task_name e)))).

Definition generate_markdown (tasks : Dict.t (list pystr)) (output_path : pystr)
    (tasklist tasklist_help task_filescanlist task_filescanlist_help : list pystr)
    : M unit :=
  try_except
    (logger INFO ReportStarted;;
     markdown ← lm_run (lm_for (Dict.keys tasks)
                          (markdown_section output_path tasklist tasklist_help
                             task_filescanlist task_filescanlist_help));
     let summary_file := Path.div output_path (py "summary.md") in
     write_text summary_file (Str.join nl markdown);;
     logger INFO (ReportWritten summary_file))
    (except_Exception (λ e, logger ERROR (ReportFailed e))).

(** *** [analyze_memory_dump] *)

(** Truth value of an [Optional[str]]. *)
Definition truthy (o : option pystr) : bool :=
  match o with
  | Some (_ :: _) => true
  | _ => false
  end.

(** [f"{o}"]. *)
Definition format (o : option pystr) : pystr :=
  match o with
  | Some t => t
  | None => py "None"
  end.

(** The loop over the lines of the [imageinfo] output: the profile of
    the first line that has the marker, if a line has it. *)
Fixpoint suggested_profile (lines : list pystr) : result (option pystr) :=
  match lines with
  | [] => Ok None
  | line :: lines' =>
      if Str.contains (py "Suggested Profile(s)") line then
        field ← PyList.get (Str.split 58 line) 1;
        first ← PyList.get (Str.split 44 (Str.strip field)) 0;
        Ok (Some (Str.strip first))
      else suggested_profile lines'
  end.

Definition detect_profile (self : VolatilityAnalyzer) (memorydump_path : pystr)
    (profile : option pystr) : M (flow (option pystr)) :=
  logger INFO ProfileMissing;;
  try_except
    (let command := [volatility_path self; py "-f"; memorydump_path; py "imageinfo"] in
     result ← subprocess_run command None;
     output ← lift (Codec.cp1252_decode Codec.ignore result);
     found ← lift (suggested_profile (Str.split 10 output));
     match found with
     | Some p => logger INFO (ProfileSelected p);; mret (Continue (Some p))
     | None => mret (Continue profile)
     end)
    (except_Exception (λ e, logger ERROR (ProfileFailed e);; mret Return)).

(** The block that gets the profile: [if not profile: ...]. *)
Definition get_profile (self : VolatilityAnalyzer) (memorydump_path : pystr)
    (profile : option pystr) : M (flow (option pystr)) :=
  if negb (truthy profile) then detect_profile self memorydump_path profile
  else mret (Continue profile).

Definition dump_files (self : VolatilityAnalyzer) (memorydump_path : pystr)
    (profile : option pystr) (dumpfiles_location : option pystr) : M unit :=
  logger INFO DumpStarted;;
  let command := [volatility_path self; py "-f"; memorydump_path;
                  py "--profile=" ++ format profile; py "dumpfiles";
                  py "-Q"; format dumpfiles_location; py "-D"; py "./"] in
  try_except
    (result ← subprocess_run command None;
     output ← lift (Codec.cp1252_decode Codec.ignore result);
     print output;;
     logger INFO DumpDone)
    (except_Exception (λ e, logger ERROR (DumpFailed e))).

(** The two comprehensions over the lines of [tasklist.cfg]. *)
Definition parse_config (config_lines : list pystr)
    : result (list pystr * list pystr) :=
  tasklist ← comprehension (λ line, PyList.get (Str.split 45 line) 0) config_lines;
  tasklist_help ← comprehension (λ line, PyList.get (Str.split 45 line) 1)
                    config_lines;
  Ok (tasklist, tasklist_help).

Definition read_config : M (flow (list pystr * list pystr)) :=
  try_except
    (config_lines ← readlines (py "tasklist.cfg");
     parsed ← lift (parse_config config_lines);
     mret (Continue parsed))
    (except_Exception (λ e, logger ERROR (ConfigFailed e);; mret Return)).

Definition task_filescanlist : list pystr :=
  [py "Desktop"; py "Downloads"; py ".zip"; py "flag"; py "evtx"].
Definition task_filescanlist_help : list pystr :=
  [py "桌面"; py "下载"; py "压缩包"; py "flag"; py "日志"].

(** The two loops that fill [tasks]. *)
Definition build_tasks (memorydump_path : pystr) (profile : option pystr)
    (tasklist : list pystr) : Dict.t (list pystr) :=
  let tasks :=
    foldl (λ tasks task,
             Dict.set task
               [py "--profile=" ++ format profile; py "-f"; memorydump_path; task]
               tasks)
          [] tasklist in
  foldl (λ tasks task_filescan,
           Dict.set (py "filescan(" ++ task_filescan ++ py ")")
             [py "--profile=" ++ format profile; py "-f"; memorydump_path;
              py "filescan"; py "|"; py "findstr"; task_filescan]
             tasks)
        tasks task_filescanlist.

(** The [ThreadPoolExecutor] block: one [run_command] for every item of
    [tasks], and [wait]. *)
Definition execute_tasks (sched : list nat) (self : VolatilityAnalyzer)
    (output_path : pystr) (tasks : Dict.t (list pystr)) : M unit :=
  let futures :=
    (λ '(task_name, command),
       run_command self ([volatility_path self] ++ command) task_name
         output_path tasks) <$> Dict.items tasks in
  atomic (λ s, (Ok (), pool sched futures s)).

Definition analyze_memory_dump (sched : list nat) (self : VolatilityAnalyzer)
    (memorydump_path : pystr) (profile : option pystr) (dumpfiles : bool)
    (dumpfiles_location : option pystr) : M unit :=
  let output_path := Path.div (Path.dirname memorydump_path) (py "output") in
  mkdir output_path;;
  if dumpfiles && truthy profile && truthy dumpfiles_location then
    dump_files self memorydump_path profile dumpfiles_location
  else
    detected ← get_profile self memorydump_path profile;
    match detected with
    | Return => mret ()
    | Continue profile =>
        config ← read_config;
        match config with
        | Return => mret ()
        | Continue (tasklist, tasklist_help) =>
            let total_tasks := (length tasklist + length task_filescanlist)%nat in
            logger INFO (TasksBuilt total_tasks);;
            let tasks := build_tasks memorydump_path profile tasklist in
            set_self_progress_manager (ProgressManager_init total_tasks);;
            execute_tasks sched self output_path tasks;;
            pm ← self_progress_manager;
            (if bool_decide (is_Some pm) then progress_close else mret ());;
            logger INFO TasksDone;;
            logger INFO Elapsed;;
            logger INFO ReportCreating;;
            generate_markdown tasks output_path tasklist tasklist_help
              task_filescanlist task_filescanlist_help;;
            logger INFO ReportDone
        end
    end.

(** *** [main] *)

(** The parsed command line. *)
Record Args : Type := {
  arg_memorydump_path : pystr;
  arg_profile : option pystr;
  arg_dumpfiles : bool;
  arg_dumpfiles_location : option pystr;
  arg_timeout : Z;
  arg_volatility_path : pystr
}.

(** [main], giving the exit status of the process. *)
Definition main (sched : list nat) (args : Args) : prog Z :=
  let analyzer := {| volatility_path := arg_volatility_path args;
                     timeout := arg_timeout args |} in
  bind
    (try_except
       (analyze_memory_dump sched analyzer (arg_memorydump_path args)
          (arg_profile args) (arg_dumpfiles args) (arg_dumpfiles_location args);;
        mret 0%Z)
       (λ e, match e with
             | KeyboardInterrupt => logger INFO Interrupted;; mret 0%Z
             | _ => except_Exception (λ e,
                      logger ERROR (FatalError e);; mret 1%Z) e
             end))
    (λ r, Ret (match r with
               | Ok status => status
               | Raise _ => 1%Z
               end)).

End Program.

(** ** Notions the properties are stated with *)

(** The file [output_path / f"{task_name}.txt"]. *)
Definition task_file (output_path task_name : pystr) : pystr :=
  Path.div output_path (task_name ++ py ".txt").

(** What the decoder has read so far can only end in a scalar value. *)
Fixpoint cont_ok (more : nat) (cp lo hi : N) : Prop :=
  ∀ b, lo ≤ b → b ≤ hi →
    match more with
    | O => Codec.scalar (cp * 64 + (b - 0x80)) = true
    | S more' => cont_ok more' (cp * 64 + (b - 0x80)) 0x80 0xBF
    end.

Definition state_ok (st : Codec.utf8_state) : Prop :=
  match st with
  | Codec.Start => True
  | Codec.Cont cp more lo hi => cont_ok more cp lo hi
  end.

(** The outcome of a dispatched task, in the words of the specification:
    a time-out, a failure to execute, no text, or text that is saved. *)
Inductive outcome : Type :=
  | Success (text : pystr)
  | EmptyOutput
  | Timeout
  | ExecutionError (e : exn).

(** The bytes [write_text] stores for a text. *)
Definition stored (env : Env) (text : pystr) : bytes :=
  match Codec.utf8_encode (translate_newlines (os_linesep env) text) with
  | Ok b => b
  | Raise _ => []
  end.

Definition task_outcome (env : Env) (self : VolatilityAnalyzer)
    (command : list pystr) (output_file : pystr) : outcome :=
  match tool env command with
  | CannotStart => ExecutionError OSError
  | Runs seconds stdout =>
      if (timeout_max env <? timeout self)%Z then ExecutionError OverflowError
      else if (timeout self <? seconds)%Z then Timeout
      else
        match Codec.utf8_decode Codec.ignore stdout with
        | Raise e => ExecutionError e
        | Ok [] => EmptyOutput
        | Ok text =>
            if writable env output_file then
              match write_error env output_file (stored env text) with
              | None => Success text
              | Some _ => ExecutionError OSError
              end
            else ExecutionError OSError
        end
  end.

(** What a write of [b] to [path] leaves there once the file is open. *)
Definition leaves (env : Env) (path : pystr) (b : bytes) : bytes :=
  match write_error env path b with
  | Some partial => partial
  | None => b
  end.

(** The bytes a task leaves in its file, when it gets to open it: it has
    text to save and the file can be opened. *)
Definition task_write (env : Env) (self : VolatilityAnalyzer)
    (command : list pystr) (output_file : pystr) : option bytes :=
  match tool env command with
  | CannotStart => None
  | Runs seconds stdout =>
      if (timeout_max env <? timeout self)%Z then None
      else if (timeout self <? seconds)%Z then None
      else
        match Codec.utf8_decode Codec.ignore stdout with
        | Ok (c :: t) =>
            if writable env output_file
            then Some (leaves env output_file (stored env (c :: t)))
            else None
        | _ => None
        end
  end.

(** The label a task is reported to the progress manager with. *)
Definition label_of (task_name : pystr) (o : outcome) : pystr :=
  match o with
  | Success _ => task_name
  | EmptyOutput => task_name ++ py " (无输出)"
  | Timeout => task_name ++ py " (超时)"
  | ExecutionError _ => task_name ++ py " (错误)"
  end.

(** The files a task leaves. *)
Definition task_files (env : Env) (self : VolatilityAnalyzer)
    (command : list pystr) (output_file : pystr) (fs : gmap pystr bytes)
    : gmap pystr bytes :=
  match task_write env self command output_file with
  | Some b => <[output_file := b]> fs
  | None => fs
  end.

(** The state one call of [run_command] leaves behind. *)
Definition settled (env : Env) (self : VolatilityAnalyzer) (command : list pystr)
    (task_name output_path : pystr) (s : St) : St :=
  let o := task_outcome env self command (task_file output_path task_name) in
  let s1 := set_files (task_files env self command (task_file output_path task_name))
              (add_invoked command s) in
  set_progress_manager (fmap (ProgressManager_update (label_of task_name o)))
    match o with
    | Success text => s1
    | EmptyOutput => add_log (WARNING, TaskNoOutput task_name) s1
    | Timeout => add_log (ERROR, TaskTimedOut task_name (timeout self)) s1
    | ExecutionError e => add_log (ERROR, TaskFailed task_name e) s1
    end.

(** [tracks I μ n p]: along every path of the thread [p], the atomic
    actions keep the invariant [I] of the shared state and add [n] to the
    measure [μ] in all, whatever the state they meet. *)
Inductive tracks {A : Type} (I : St → Prop) (μ : St → nat) : nat → prog A → Prop :=
  | tracks_Ret (a : A) : tracks I μ 0 (Ret a)
  | tracks_Atomic {X : Type} (act : St → X * St) (k : X → prog A) (m n all : nat) :
      all = (m + n)%nat →
      (∀ s, I s → I (act s).2) →
      (∀ s, I s → μ (act s).2 = (μ s + m)%nat) →
      (∀ s, I s → tracks I μ n (k (act s).1)) →
      tracks I μ all (Atomic act k).

(** The counter of the progress manager. *)
Definition counter (s : St) : nat :=
  from_option completed_tasks 0%nat (progress_manager s).

(** The analyzer has a progress manager. *)
Definition has_progress_manager (s : St) : Prop := is_Some (progress_manager s).

(** The text a file holds, as [read_text] gives it. *)
Definition text_of (b : bytes) : pystr :=
  match Codec.utf8_decode Codec.strict b with
  | Ok t => Str.universal_newlines t
  | Raise _ => []
  end.

(** The section of a task in the report: the heading with the help text,
    and the text of its file in a fence or the placeholder. *)
Definition report_section (fs : gmap pystr bytes)
    (output_path task_name help_text : pystr) : list pystr :=
  [py "# " ++ task_name ++ nl ++ py "## " ++ help_text;
   match fs !! task_file output_path task_name with
   | Some b => py "```" ++ nl ++ text_of b ++ nl ++ py "```" ++ nl
   | None => py "*暂无数据*" ++ nl
   end].

(** What one turn of the loop of [generate_markdown] appends, and the
    exception it logs if it meets one. *)
Definition section_entries (env : Env) (fs : gmap pystr bytes) (output_path : pystr)
    (tasklist tasklist_help filescanlist filescanlist_help : list pystr)
    (task_name : pystr) : list pystr * option exn :=
  match help_text_of task_name tasklist tasklist_help filescanlist filescanlist_help with
  | Raise e => ([], Some e)
  | Ok help_text =>
      if stat_error env (task_file output_path task_name) then
        ([py "# " ++ task_name ++ nl ++ py "## " ++ help_text], Some OSError)
      else
        match fs !! task_file output_path task_name with
        | None => (report_section fs output_path task_name help_text, None)
        | Some b =>
            match Codec.utf8_decode Codec.strict b with
            | Ok _ => (report_section fs output_path task_name help_text, None)
            | Raise e => ([py "# " ++ task_name ++ nl ++ py "## " ++ help_text], Some e)
            end
        end
  end.

Definition log_failure (task_name : pystr) (failure : option exn) (s : St) : St :=
  match failure with
  | Some e => add_log (ERROR, SectionFailed task_name e) s
  | None => s
  end.

(** The files [write_text] leaves. *)
Definition write_files (env : Env) (path data : pystr) (fs : gmap pystr bytes)
    : gmap pystr bytes :=
  if writable env path then
    match Codec.utf8_encode (translate_newlines (os_linesep env) data) with
    | Ok b => <[path := leaves env path b]> fs
    | Raise _ => <[path := []]> fs
    end
  else fs.

(** The keys of a dictionary filled from a list: each key where it comes
    first. *)
Fixpoint first_occurrences (l : list pystr) : list pystr :=
  match l with
  | [] => []
  | x :: l' => x :: filter (λ y, y ≠ x) (first_occurrences l')
  end.

(** The name of the filter task of a term. *)
Definition filescan_name (term : pystr) : pystr := py "filescan(" ++ term ++ py ")".

(** The report as the specification describes it: the loop of
    [generate_markdown] leaves one section for every key of [tasks], in
    the order of the keys, each with the help text the task resolves to. *)
Definition one_section_per_task (env : Env) (s : St) (output_path : pystr)
    (tasks : Dict.t (list pystr)) (tasklist tasklist_help : list pystr) : Prop :=
  ∃ helps : list pystr,
    Forall2 (λ name help_text,
               help_text_of name tasklist tasklist_help
                 task_filescanlist task_filescanlist_help = Ok help_text)
            (Dict.keys tasks) helps
    ∧ (run (lm_run (lm_for (Dict.keys tasks)
                      (markdown_section env output_path tasklist tasklist_help
                         task_filescanlist task_filescanlist_help))) s).1
      = Ok (mjoin (zip_with (report_section (files s) output_path)
                     (Dict.keys tasks) helps)).

(** The help text a task resolves to, empty when it does not. *)
Definition resolved (tl th : list pystr) (name : pystr) : pystr :=
  match help_text_of name tl th task_filescanlist task_filescanlist_help with
  | Ok h => h
  | Raise _ => []
  end.


(** How often a command line has been given to [subprocess.run]. *)
Definition invocations (c0 : list pystr) (s : St) : nat :=
  length (filter (λ c, c = c0) (invoked s)).

(** What [readlines] and the two comprehensions make of [tasklist.cfg]. *)
Definition load_config (s : St) : result (list pystr * list pystr) :=
  match read_file s (py "tasklist.cfg") with
  | Ok text => parse_config (Str.lines text)
  | Raise e => Raise e
  end.

(** ** Concrete inputs *)

(** An output directory that holds the result of [pslist]. *)
Definition scenario_files : gmap pystr bytes :=
  {[ py "/data/output/pslist.txt" := String.list_byte_of_string "PID 1 init" ]}.

Definition scenario_env : Env :=
  {| tool := λ _, CannotStart; os_linesep := LF; timeout_max := 2147483; stat_error := λ _, false;
     writable := λ _, true; write_error := λ _ _, None;
     mkdir_error := None |}.

(** C3 as it is stated: a configuration that cannot be loaded makes the
    process exit with a status that is not zero. *)
Definition exits_nonzero_on_bad_config (env : Env) (sched : list nat) (args : Args)
    (s : St) : Prop :=
  is_Ok (load_config s) = false → (run (main env sched args) s).1 ≠ 0%Z.

(** The exit status [main] ends with, from what [mkdir] does. *)
Definition exit_status (env : Env) : Z :=
  match mkdir_error env with
  | Some e => if is_Exception e then 1%Z else 0%Z
  | None => 0%Z
  end.

(** The run of the specification's scenario: two configured tasks, a
    profile given on the command line. *)
Definition scenario_args : Args :=
  {| arg_memorydump_path := py "/data/mem.img";
     arg_profile := Some (py "Win10x64_19041");
     arg_dumpfiles := false; arg_dumpfiles_location := None;
     arg_timeout := 120; arg_volatility_path := py "vol.exe" |}.

(** A configuration whose second line has no separator. *)
Definition malformed_config : gmap pystr bytes :=
  {[ py "tasklist.cfg" := String.list_byte_of_string "pslist-Process list
netscan
" ]}.

(** The configuration of the scenario. *)
Definition scenario_config : bytes :=
  String.list_byte_of_string "pslist-Process list
netscan-Network scan
".

(** The tool of the scenario: [pslist] prints a line, [netscan] runs for
    longer than the time limit, the file scans print nothing, and
    [imageinfo] suggests no profile. *)
Definition scenario_tool (command : list pystr) : behaviour :=
  if bool_decide (py "pslist" ∈ command) then
    Runs 3 (String.list_byte_of_string "PID 1 init")
  else if bool_decide (py "netscan" ∈ command) then Runs 500 []
  else if bool_decide (py "imageinfo" ∈ command) then
    Runs 9 (String.list_byte_of_string "Determining profile based on KDBG search...
No suggestion
")
  else Runs 1 [].

Definition scenario : Env :=
  {| tool := scenario_tool; os_linesep := LF; timeout_max := 2147483; stat_error := λ _, false;
     writable := λ _, true; write_error := λ _ _, None;
     mkdir_error := None |}.

(** The files before the first run. *)
Definition first_files : gmap pystr bytes :=
  {[ py "tasklist.cfg" := scenario_config ]}.

(** The command line of the task [pslist] in the scenario. *)
Definition pslist_command (profile : pystr) : list pystr :=
  [py "vol.exe"; py "--profile=" ++ profile; py "-f"; py "/data/mem.img";
   py "pslist"].

(** The scenario without a profile on the command line. *)
Definition no_profile_args : Args :=
  {| arg_memorydump_path := py "/data/mem.img"; arg_profile := None;
     arg_dumpfiles := false; arg_dumpfiles_location := None;
     arg_timeout := 120; arg_volatility_path := py "vol.exe" |}.

(** C6 as it is stated: output that is not valid UTF-8 still makes the
    task a success, with some text saved in its file. *)
Definition invalid_utf8_succeeds (env : Env) (self : VolatilityAnalyzer)
    (command : list pystr) (task_name output_path : pystr) (s : St) : Prop :=
  ∀ seconds stdout,
    tool env command = Runs seconds stdout →
    (seconds ≤ timeout self)%Z →
    is_Ok (Codec.utf8_decode Codec.strict stdout) = false →
    ∃ text,
      text ≠ []
      ∧ files (run (run_command env self command task_name output_path []) s).2
        !! task_file output_path task_name = Some (stored env text).

(** A tool whose output is the one byte [0xFF], and one whose output has
    that byte between two letters. *)
Definition garbled : Env :=
  {| tool := λ _, Runs 1 [Byte.xff]; os_linesep := LF; timeout_max := 2147483; stat_error := λ _, false;
     writable := λ _, true; write_error := λ _ _, None;
     mkdir_error := None |}.

Definition partly_garbled : Env :=
  {| tool := λ _, Runs 1 [Byte.x61; Byte.xff; Byte.x62]; os_linesep := LF;
     timeout_max := 2147483; stat_error := λ _, false; writable := λ _, true;
     write_error := λ _ _, None; mkdir_error := None |}.

Definition two_minutes : VolatilityAnalyzer :=
  {| volatility_path := py "vol.exe"; timeout := 120 |}.

(** An output directory in which the file of [pslist] stops in the middle
    of a character. *)
Definition torn_files : gmap pystr bytes :=
  {[ py "/data/output/pslist.txt" := [Byte.x50; Byte.x49; Byte.x44; Byte.xe4; Byte.xbd] ]}.

(** [stable Q p]: no atomic action the thread [p] takes undoes [Q]. *)
Inductive stable {A : Type} (Q : St → Prop) : prog A → Prop :=
  | stable_Ret (a : A) : stable Q (Ret a)
  | stable_Atomic {X : Type} (act : St → X * St) (k : X → prog A) :
      (∀ s, Q s → Q (act s).2) →
      (∀ s, stable Q (k (act s).1)) →
      stable Q (Atomic act k).

(** [ensures Q p]: along every path, some atomic action of the thread [p]
    brings [Q] about, whatever the state it meets. *)
Inductive ensures {A : Type} (Q : St → Prop) : prog A → Prop :=
  | ensures_now {X : Type} (act : St → X * St) (k : X → prog A) :
      (∀ s, Q (act s).2) →
      ensures Q (Atomic act k)
  | ensures_later {X : Type} (act : St → X * St) (k : X → prog A) :
      (∀ s, ensures Q (k (act s).1)) →
      ensures Q (Atomic act k).

(** The file at [path] is [content], or is absent. *)
Definition holds (path : pystr) (content : option bytes) (s : St) : Prop :=
  files s !! path = content.

(** The progress manager is in place and open, made for [all] tasks, and
    its bar has counted what its counter has. *)
Definition progress_in_step (all : nat) (s : St) : Prop :=
  ∃ pm, progress_manager s = Some pm ∧ total pm = all
        ∧ bar_n pm = completed_tasks pm ∧ bar_closed pm = false.

(** The command line of the profile detection. *)
Definition imageinfo_command (self : VolatilityAnalyzer) (memorydump_path : pystr)
    : list pystr :=
  [volatility_path self; py "-f"; memorydump_path; py "imageinfo"].

(** A tool whose [imageinfo] suggests two profiles. *)
Definition suggesting : Env :=
  {| tool := λ _, Runs 9 (String.list_byte_of_string "Determining profile
          Suggested Profile(s) : Win7SP1x64, Win7SP0x64
                     AS Layer1 : WindowsAMD64PagedMemory (Kernel AS)
");
     os_linesep := LF; timeout_max := 2147483; stat_error := λ _, false;
     writable := λ _, true; write_error := λ _ _, None; mkdir_error := None |}.

(** A tool whose [imageinfo] names the suggestions without a colon. *)
Definition unseparated : Env :=
  {| tool := λ _, Runs 9 (String.list_byte_of_string "Determining profile
Suggested Profile(s) Win7SP1x64
");
     os_linesep := LF; timeout_max := 2147483; stat_error := λ _, false;
     writable := λ _, true; write_error := λ _ _, None; mkdir_error := None |}.

(** The command of a configured task, and of the filter task of a term,
    before the path of the tool is put in front. *)
Definition plain_command (memorydump_path : pystr) (profile : option pystr)
    (task : pystr) : list pystr :=
  [py "--profile=" ++ format profile; py "-f"; memorydump_path; task].

Definition filescan_command (memorydump_path : pystr) (profile : option pystr)
    (task_filescan : pystr) : list pystr :=
  [py "--profile=" ++ format profile; py "-f"; memorydump_path;
   py "filescan"; py "|"; py "findstr"; task_filescan].

(** C9 as it is stated: for every mapping, [get_remaining_tasks] returns
    the names whose file does not exist. *)
Definition returns_absent_names {V} (env : Env) (output_path : pystr)
    (tasks : Dict.t V) (s : St) : Prop :=
  ∃ names : list pystr,
    (run (get_remaining_tasks env output_path tasks) s).1 = Ok names
    ∧ ∀ task_name, task_name ∈ names ↔
        task_name ∈ Dict.keys tasks
        ∧ files s !! task_file output_path task_name = None.

(** A file system that takes no name of more than 255 characters, and a
    task name of 300. *)
Definition name_limit : Env :=
  {| tool := λ _, CannotStart; os_linesep := LF; timeout_max := 2147483;
     stat_error := λ path,
       bool_decide (Exists (λ piece, (255 < length piece)%nat) (Str.split 47 path));
     writable := λ _, true; write_error := λ _ _, None; mkdir_error := None |}.

Definition long_name : pystr := replicate 300 97.



(** A configuration of three lines, the second with three ['-']. *)
Definition three_lines_text : string :=
  "pslist-Process list
netscan-Network-scan-of sockets
cmdline-Command line
".

Definition three_lines : bytes := String.list_byte_of_string three_lines_text.

(** * Properties *)

(** ** Literals *)

Example py_ascii : py "ab(" = [97; 98; 40].
Proof. reflexivity. Qed.

Example py_cjk : py "暂无数据" = [0x6682; 0x65E0; 0x6570; 0x636E].
Proof. reflexivity. Qed.

Example py_emoji : py "🚀" = [0x1F680].
Proof. reflexivity. Qed.

(** ** Paths *)

Example div_joins :
  Path.div (Path.dirname (py "/data/mem.img")) (py "output") = py "/data/output".
Proof. reflexivity. Qed.

Example div_collapses :
  Path.div (py "/data/output") (py "./pslist.txt") = py "/data/output/pslist.txt"
  ∧ Path.div (py "/data//output/") (py "a//b.txt") = py "/data/output/a/b.txt"
  ∧ Path.div (py "/data/output") (py "../x.txt") = py "/data/output/../x.txt".
Proof. by vm_compute. Qed.

Example div_roots :
  Path.div (py "/data/output") (py "/tmp/x.txt") = py "/tmp/x.txt"
  ∧ Path.div (py "/data/output") (py "//tmp/x.txt") = py "//tmp/x.txt"
  ∧ Path.div (py "/data/output") (py "///tmp/x.txt") = py "/tmp/x.txt"
  ∧ Path.div [] (py "output") = py "output"
  ∧ Path.div (py ".") [] = py ".".
Proof. by vm_compute. Qed.

(** ** Running programs *)

Lemma run_bind {A B} (m : prog A) (f : A → prog B) (s : St) :
  run (bind m f) s = let '(a, s') := run m s in run (f a) s'.
Proof.
  revert s. induction m as [a | X act k IH]; intros s; simpl; [done |].
  destruct (act s) as [x s']. apply IH.
Qed.

Lemma run_mbind {A B} (m : M A) (f : A → M B) (s : St) :
  run (m ≫= f) s =
  match run m s with
  | (Ok a, s') => run (f a) s'
  | (Raise e, s') => (Raise e, s')
  end.
Proof.
  unfold mbind, M_bind. rewrite run_bind.
  destruct (run m s) as [[a | e] s']; done.
Qed.

Lemma run_try_except {A} (body : M A) (handler : exn → M A) (s : St) :
  run (try_except body handler) s =
  match run body s with
  | (Ok a, s') => (Ok a, s')
  | (Raise e, s') => run (handler e) s'
  end.
Proof.
  unfold try_except. rewrite run_bind.
  destruct (run body s) as [[a | e] s']; done.
Qed.

(** ** The Completion Oracle *)

Section Oracle.

Context (env : Env) (output_path : pystr).

Lemma remaining_run (names : list pystr) (s : St) :
  Forall (λ task_name, stat_error env (task_file output_path task_name) = false)
    names →
  run (remaining env output_path names) s =
  (Ok (filter (λ task_name, files s !! task_file output_path task_name = None)
         names), s).
Proof.
  induction 1 as [| task_name names Hstat _ IH]; [done |].
  cbn [remaining]. rewrite run_mbind. cbn [path_exists atomic run].
  fold (task_file output_path task_name). rewrite Hstat.
  rewrite run_mbind, IH. cbn [mret M_ret run].
  rewrite filter_cons.
  destruct (files s !! task_file output_path task_name) as [b |] eqn:E.
  - rewrite bool_decide_true by eauto. rewrite decide_False by done. done.
  - rewrite bool_decide_false by (intros [? ?]; done).
    rewrite decide_True by done. done.
Qed.

(** A name whose file [exists] cannot examine makes the comprehension
    raise. *)
Lemma remaining_raises (names : list pystr) (s : St) :
  Exists (λ task_name, stat_error env (task_file output_path task_name) = true)
    names →
  run (remaining env output_path names) s = (Raise OSError, s).
Proof.
  induction names as [| task_name names IH]; intros Hex;
    [by apply Exists_nil in Hex |].
  cbn [remaining]. rewrite run_mbind. cbn [path_exists atomic run].
  fold (task_file output_path task_name).
  destruct (stat_error env (task_file output_path task_name)) eqn:Hstat; [done |].
  apply Exists_cons in Hex as [Hex | Hex]; [congruence |].
  by rewrite run_mbind, (IH Hex).
Qed.

(** What the comprehension gives depends on the files of the tasks
    alone. *)
Lemma remaining_ext (names : list pystr) (s s' : St) :
  (∀ task_name,
     files s' !! task_file output_path task_name
     = files s !! task_file output_path task_name) →
  (run (remaining env output_path names) s').1
  = (run (remaining env output_path names) s).1.
Proof.
  intros Hfiles.
  destruct (decide (Exists (λ task_name,
              stat_error env (task_file output_path task_name) = true) names))
    as [Hex | Hall].
  - by rewrite !remaining_raises.
  - assert (Hok : Forall (λ task_name,
              stat_error env (task_file output_path task_name) = false) names).
    { apply Forall_forall. intros name Hin.
      destruct (stat_error env (task_file output_path name)) eqn:E; [| done].
      destruct Hall. apply Exists_exists. by exists name. }
    rewrite !remaining_run by done. cbn [fst]. f_equal.
    apply list_filter_iff. intros name. by rewrite Hfiles.
Qed.

(** C9, amended.  When [exists] can examine the file of every key,
    [get_remaining_tasks] returns, without changing anything, the keys of
    [tasks] whose file [output_path/<name>.txt] does not exist, in the
    order of the dictionary: a name is returned exactly when it is a key
    and its file is absent, and the result is a sublist of the keys. *)
Theorem get_remaining_tasks_correct {V} (tasks : Dict.t V) (s : St) :
  Forall (λ task_name, stat_error env (task_file output_path task_name) = false)
    (Dict.keys tasks) →
  ∃ names : list pystr,
    run (get_remaining_tasks env output_path tasks) s = (Ok names, s)
    ∧ names = filter (λ task_name,
                        files s !! task_file output_path task_name = None)
                     (Dict.keys tasks)
    ∧ (∀ task_name, task_name ∈ names ↔
         task_name ∈ Dict.keys tasks
         ∧ files s !! task_file output_path task_name = None)
    ∧ sublist names (Dict.keys tasks).
Proof.
  intros Hstat.
  eexists. split; [by apply remaining_run |]. split; [done |]. split.
  - intros task_name. rewrite list_elem_of_filter. tauto.
  - apply sublist_filter.
Qed.

End Oracle.

Lemma get_remaining_tasks_correct_witness :
  ∃ names : list pystr,
    run (get_remaining_tasks scenario (py "/data/output")
           (build_tasks (py "/data/mem.img") (Some (py "Win10x64_19041"))
              [py "pslist"; py "netscan"]))
      (boot scenario_files) = (Ok names, boot scenario_files)
    ∧ names = filter (λ task_name,
                        files (boot scenario_files)
                        !! task_file (py "/data/output") task_name = None)
                     (Dict.keys
                        (build_tasks (py "/data/mem.img") (Some (py "Win10x64_19041"))
                           [py "pslist"; py "netscan"]))
    ∧ (∀ task_name, task_name ∈ names ↔
         task_name
         ∈ Dict.keys (build_tasks (py "/data/mem.img") (Some (py "Win10x64_19041"))
                        [py "pslist"; py "netscan"])
         ∧ files (boot scenario_files)
           !! task_file (py "/data/output") task_name = None)
    ∧ sublist names
        (Dict.keys (build_tasks (py "/data/mem.img") (Some (py "Win10x64_19041"))
                      [py "pslist"; py "netscan"])).
Proof.
  apply (get_remaining_tasks_correct scenario (py "/data/output")
           (build_tasks (py "/data/mem.img") (Some (py "Win10x64_19041"))
              [py "pslist"; py "netscan"])
           (boot scenario_files)).
  apply Forall_forall. intros task_name _. reflexivity.
Defined.

(** C9 as it is stated fails: [exists] raises for a name the file system
    does not take, and so does [get_remaining_tasks], which then returns
    no list. *)
Lemma long_name_is_not_examined :
  run (get_remaining_tasks name_limit (py "/data/output")
         [(py "pslist", [py "pslist"]); (long_name, [py "pslist"])])
    (boot ∅)
  = (Raise OSError, boot ∅)
  ∧ ¬ returns_absent_names name_limit (py "/data/output")
        [(py "pslist", [py "pslist"]); (long_name, [py "pslist"])] (boot ∅).
Proof.
  assert (Hrun : run (get_remaining_tasks name_limit (py "/data/output")
                        [(py "pslist", [py "pslist"]); (long_name, [py "pslist"])])
                   (boot ∅) = (Raise OSError, boot ∅)) by (by vm_compute).
  split; [done |]. intros (names & Hnames & _). by rewrite Hrun in Hnames.
Qed.

(** ** The configuration lines *)

Lemma split_without (sep : N) (s : pystr) :
  sep ∉ s → Str.split sep s = [s].
Proof.
  induction s as [| c s IH]; [done |].
  intros H. apply not_elem_of_cons in H as [Hc Hs]. simpl.
  rewrite (proj2 (N.eqb_neq c sep)) by done. by rewrite IH.
Qed.

Lemma split_at_first (sep : N) (a rest : pystr) :
  sep ∉ a → Str.split sep (a ++ sep :: rest) = a :: Str.split sep rest.
Proof.
  induction a as [| c a IH]; intros H; simpl.
  - by rewrite N.eqb_refl.
  - apply not_elem_of_cons in H as [Hc Ha].
    rewrite (proj2 (N.eqb_neq c sep)) by done. by rewrite IH.
Qed.

(** ** The decoders *)

Lemma scalar_true (c : N) :
  Codec.scalar c = true ↔ c < 0xD800 ∨ (0xDFFF < c ∧ c < 0x110000).
Proof.
  unfold Codec.scalar.
  rewrite orb_true_iff, andb_true_iff, !N.ltb_lt. done.
Qed.

Lemma utf8_lead_ok (b : N) :
  b < 256 →
  match Codec.utf8_lead b with
  | Codec.LChar c => Codec.scalar c = true
  | Codec.LBegin st => state_ok st
  | Codec.LInvalid => True
  end.
Proof.
  intros Hb. unfold Codec.utf8_lead.
  repeat match goal with
         | |- context [if ?c then _ else _] => destruct c eqn:?
         end;
    repeat match goal with
           | H : (_ <? _) = true |- _ => apply N.ltb_lt in H
           | H : (_ <? _) = false |- _ => apply N.ltb_ge in H
           | H : (_ =? _) = true |- _ => apply N.eqb_eq in H
           | H : (_ =? _) = false |- _ => apply N.eqb_neq in H
           end;
    cbn [state_ok cont_ok]; try done; intros; rewrite scalar_true; lia.
Qed.

Lemma result_map_Ok {A B} (f : A → B) (r : result A) (y : B) :
  result_map f r = Ok y → ∃ x, r = Ok x ∧ y = f x.
Proof. destruct r; simpl; [| done]. intros [= <-]. eauto. Qed.

Lemma utf8_from_scalar (e : Codec.errors) (bs : bytes) :
  ∀ st t, state_ok st → Codec.utf8_from e st bs = Ok t →
    Forall (λ c, Codec.scalar c = true) t.
Proof.
  induction bs as [| b bs IH]; intros st t Hst; simpl.
  - destruct st; [by intros [= <-] |]. destruct e; simpl; [done | by intros [= <-]].
  - assert (Hlead := utf8_lead_ok (Byte.to_N b)).
    specialize (Hlead ltac:(pose proof (Byte.to_N_bounded b); lia)).
    assert (Hfresh : ∀ t',
      match Codec.utf8_lead (Byte.to_N b) with
      | Codec.LChar c => result_map (cons c) (Codec.utf8_from e Codec.Start bs)
      | Codec.LBegin st' => Codec.utf8_from e st' bs
      | Codec.LInvalid => Codec.handle e (Codec.utf8_from e Codec.Start bs)
      end = Ok t' → Forall (λ c, Codec.scalar c = true) t').
    { intros t'. destruct (Codec.utf8_lead (Byte.to_N b)) as [c | st' |].
      - intros (x & Hx & ->)%result_map_Ok. constructor; [done |].
        by apply (IH Codec.Start).
      - by apply IH.
      - destruct e; simpl; [done |]. by apply (IH Codec.Start). }
    destruct st as [| cp more lo hi]; [apply Hfresh |].
    destruct (_ && _) eqn:Hrange.
    + apply andb_true_iff in Hrange as [Hlo%N.leb_le Hhi%N.leb_le].
      destruct more as [| more]; cbn [state_ok cont_ok] in Hst;
        pose proof (Hst _ Hlo Hhi) as Hnext.
      * intros (x & Hx & ->)%result_map_Ok. constructor; [done |].
        by apply (IH Codec.Start).
      * by apply IH.
    + destruct e; simpl; [done |]. apply Hfresh.
Qed.

Lemma utf8_decode_scalar (e : Codec.errors) (bs : bytes) (t : pystr) :
  Codec.utf8_decode e bs = Ok t → Forall (λ c, Codec.scalar c = true) t.
Proof. by apply utf8_from_scalar. Qed.

Lemma utf8_from_ignore_total (bs : bytes) :
  ∀ st, ∃ t, Codec.utf8_from Codec.ignore st bs = Ok t.
Proof.
  induction bs as [| b bs IH]; intros st; simpl.
  - destruct st; eauto.
  - assert (Hfresh : ∃ t,
      match Codec.utf8_lead (Byte.to_N b) with
      | Codec.LChar c =>
          result_map (cons c) (Codec.utf8_from Codec.ignore Codec.Start bs)
      | Codec.LBegin st' => Codec.utf8_from Codec.ignore st' bs
      | Codec.LInvalid => Codec.utf8_from Codec.ignore Codec.Start bs
      end = Ok t).
    { destruct (Codec.utf8_lead (Byte.to_N b)) as [c | st' |]; [| apply IH..].
      destruct (IH Codec.Start) as [t ->]. simpl. eauto. }
    destruct st as [| cp more lo hi]; [done |].
    destruct (_ && _); [| done]. destruct more; [| apply IH].
    destruct (IH Codec.Start) as [t ->]. simpl. eauto.
Qed.

(** With [errors="ignore"] the UTF-8 decoder returns for every input. *)
Lemma utf8_decode_ignore_total (bs : bytes) :
  ∃ t, Codec.utf8_decode Codec.ignore bs = Ok t.
Proof. apply utf8_from_ignore_total. Qed.

Lemma utf8_encode_scalar (t : pystr) :
  Forall (λ c, Codec.scalar c = true) t → ∃ b, Codec.utf8_encode t = Ok b.
Proof.
  induction 1 as [| c t Hc _ [b IH]]; simpl; [eauto |].
  rewrite Hc, IH. simpl. eauto.
Qed.

Lemma translate_newlines_scalar (n : newline) (t : pystr) :
  Forall (λ c, Codec.scalar c = true) t →
  Forall (λ c, Codec.scalar c = true) (translate_newlines n t).
Proof.
  unfold translate_newlines. induction 1 as [| c t Hc _ IH]; [constructor |].
  rewrite bind_cons. apply Forall_app. split; [| done].
  destruct (c =? 10); [| by constructor]. destruct n; repeat constructor.
Qed.

(** ** One task *)

Arguments py : simpl never.
Arguments Path.div : simpl never.

Lemma set_progress_manager_id (f : option ProgressManager → option ProgressManager)
    (s : St) :
  f (progress_manager s) = progress_manager s → set_progress_manager f s = s.
Proof. destruct s. unfold set_progress_manager. simpl. by intros ->. Qed.

Lemma notify_run (label : pystr) (s : St) :
  run (notify label) s =
  (Ok (), set_progress_manager (fmap (ProgressManager_update label)) s).
Proof.
  unfold notify. rewrite run_mbind. simpl.
  destruct (progress_manager s) as [pm |] eqn:E.
  - rewrite bool_decide_true by eauto. done.
  - rewrite bool_decide_false by (by intros [? ?]). simpl.
    by rewrite set_progress_manager_id by (by rewrite E).
Qed.

Lemma stored_encodes (env : Env) (bs : bytes) (text : pystr) :
  Codec.utf8_decode Codec.ignore bs = Ok text →
  Codec.utf8_encode (translate_newlines (os_linesep env) text) = Ok (stored env text).
Proof.
  intros Hdec. unfold stored.
  destruct (utf8_encode_scalar (translate_newlines (os_linesep env) text)) as [b ->];
    [| done].
  apply translate_newlines_scalar. by eapply utf8_decode_scalar.
Qed.

(** [run_command] never raises, and leaves the state [settled] describes. *)
Lemma run_command_settles (env : Env) (self : VolatilityAnalyzer)
    (command : list pystr) (task_name output_path : pystr)
    (tasks : Dict.t (list pystr)) (s : St) :
  run (run_command env self command task_name output_path tasks) s =
  (Ok (), settled env self command task_name output_path s).
Proof.
  unfold run_command, settled, task_files, task_write, task_outcome, leaves.
  rewrite run_try_except, run_mbind. cbn [subprocess_run atomic run].
  destruct (tool env command) as [seconds stdout |].
  - destruct (timeout_max env <? timeout self)%Z.
    { cbn [except_Exception is_Exception]. rewrite run_mbind.
      cbn [logger atomic run]. by rewrite notify_run. }
    destruct (timeout self <? seconds)%Z.
    + rewrite run_mbind. cbn [logger atomic run]. by rewrite notify_run.
    + destruct (utf8_decode_ignore_total stdout) as [text Hdec].
      rewrite run_mbind, run_try_except, Hdec. cbn [lift run].
      fold (task_file output_path task_name).
      destruct text as [| c text].
      * rewrite bool_decide_false by (by intros []).
        rewrite run_mbind. cbn [logger atomic run label_of]. by rewrite notify_run.
      * rewrite bool_decide_true by done.
        rewrite run_mbind. cbn [write_text atomic run].
        destruct (writable env (task_file output_path task_name)).
        -- rewrite (stored_encodes env stdout) by done.
           destruct (write_error env _ _).
           ++ cbn [except_Exception is_Exception]. rewrite run_mbind.
              cbn [logger atomic run]. by rewrite notify_run.
           ++ by rewrite notify_run.
        -- cbn [except_Exception is_Exception]. rewrite run_mbind.
           cbn [logger atomic run]. by rewrite notify_run.
  - cbn [except_Exception is_Exception]. rewrite run_mbind.
    cbn [logger atomic run]. by rewrite notify_run.
Qed.

(** ** Threads under a schedule *)

Section Tracking.

Context {A : Type} (I : St → Prop) (μ : St → nat).

Local Open Scope nat_scope.

Lemma tracks_run (n : nat) (p : prog A) :
  tracks I μ n p → ∀ s, I s → I (run p s).2 ∧ μ (run p s).2 = μ s + n.
Proof.
  induction 1 as [a | X act k m n all -> HI Hμ _ IH]; intros s Hs; simpl.
  - split; [done | lia].
  - specialize (HI s Hs). specialize (Hμ s Hs). specialize (IH s Hs).
    destruct (act s) as [x s']. simpl in *.
    destruct (IH s' HI) as [? ->]. split; [done | lia].
Qed.

Lemma tracks_step (n : nat) (p : prog A) (s : St) :
  tracks I μ n p → I s →
  ∃ m n', n = m + n' ∧ I (step p s).2 ∧ μ (step p s).2 = μ s + m
          ∧ tracks I μ n' (step p s).1.
Proof.
  intros [a | X act k m n' all -> HI Hμ Hk] Hs; simpl.
  - exists 0, 0. split_and!; [done | done | lia | constructor].
  - specialize (HI s Hs). specialize (Hμ s Hs). specialize (Hk s Hs).
    destruct (act s) as [x s']. exists m, n'. done.
Qed.

Lemma sum_list_insert (ns : list nat) (i n n' : nat) :
  ns !! i = Some n → sum_list (<[i := n']> ns) + n = sum_list ns + n'.
Proof.
  revert i. induction ns as [| x ns IH]; intros [| i]; simpl; try done.
  - intros [= ->]. lia.
  - intros H. specialize (IH _ H). lia.
Qed.

Lemma wait_tracks (ns : list nat) (ps : list (prog A)) :
  Forall2 (tracks I μ) ns ps → ∀ s, I s →
  I (foldl (λ s p, (run p s).2) s ps)
  ∧ μ (foldl (λ s p, (run p s).2) s ps) = μ s + sum_list ns.
Proof.
  induction 1 as [| n p ns ps Hp _ IH]; intros s Hs; simpl.
  - split; [done | lia].
  - destruct (tracks_run n p Hp s Hs) as [HI Hμ].
    destruct (IH _ HI) as [? ->]. split; [done | lia].
Qed.

(** Under every schedule the pool keeps the invariant and adds up what
    its threads add. *)
Lemma pool_tracks (sched : list nat) :
  ∀ (ns : list nat) (ps : list (prog A)) (s : St),
    Forall2 (tracks I μ) ns ps → I s →
    I (pool sched ps s) ∧ μ (pool sched ps s) = μ s + sum_list ns.
Proof.
  induction sched as [| i sched IH]; intros ns ps s Hps Hs; simpl.
  - by apply wait_tracks.
  - destruct (ps !! i) as [p |] eqn:Hp; [| by apply IH].
    destruct (Forall2_lookup_r _ _ _ _ _ Hps Hp) as (n & Hn & Hnp).
    destruct (tracks_step n p s Hnp Hs) as (m & n' & -> & HI & Hμ & Hp').
    destruct (step p s) as [p' s']. simpl in *.
    destruct (IH (<[i := n']> ns) (<[i := p']> ps) s') as [? ->];
      [by apply Forall2_insert | done |].
    split; [done |]. pose proof (sum_list_insert ns i (m + n') n' Hn). lia.
Qed.

End Tracking.

(** ** Dispatched tasks under a schedule *)

(** One traversal of [run_command] serves every measure: the call to the
    tool adds [inv command], the notification adds [ν], and nothing else
    counts. *)
Section Dispatch.

Local Open Scope nat_scope.

Context (I : St → Prop) (μ : St → nat) (inv : list pystr → nat) (ν : nat).
Context (Hinv : ∀ c s, I s → I (add_invoked c s) ∧ μ (add_invoked c s) = μ s + inv c).
Context (Hfiles : ∀ f s, I s → I (set_files f s) ∧ μ (set_files f s) = μ s).
Context (Hlog : ∀ r s, I s → I (add_log r s) ∧ μ (add_log r s) = μ s).
Context (Hupd : ∀ label s, I s →
  I (set_progress_manager (fmap (ProgressManager_update label)) s)
  ∧ μ (set_progress_manager (fmap (ProgressManager_update label)) s) = μ s + ν).
Context (Hnone : ∀ s, I s → progress_manager s = None → ν = 0).

Lemma notify_tracks {A} (label : pystr) (k : result unit → prog A) :
  tracks I μ 0 (k (Ok ())) →
  tracks I μ ν (bind (notify label) k).
Proof using Hupd Hnone.
  intros Hk. unfold notify. cbn.
  eapply (tracks_Atomic _ _ _ _ 0 ν); [done | done | intros; simpl; lia |].
  intros s Hs. simpl. case_bool_decide as Hpm.
  - eapply (tracks_Atomic _ _ _ _ ν 0); [lia | | | ]; intros s' Hs'; simpl.
    + by apply Hupd.
    + by apply Hupd.
    + apply Hk.
  - simpl. rewrite (Hnone s Hs); [apply Hk |].
    destruct (progress_manager s); [| done]. destruct Hpm. eauto.
Qed.

Lemma report_tracks {A} lvl ev label (k : result unit → prog A) :
  tracks I μ 0 (k (Ok ())) →
  tracks I μ ν (bind (logger lvl ev ≫= λ _, notify label) k).
Proof using Hlog Hupd Hnone.
  intros Hk. unfold mbind, M_bind. cbn [logger atomic bind].
  eapply (tracks_Atomic _ _ _ _ 0 ν); [done | | | ]; intros s Hs; cbn [fst snd].
  - by apply Hlog.
  - rewrite (proj2 (Hlog _ s Hs)). lia.
  - cbn [bind]. by apply notify_tracks.
Qed.

Lemma notify_end (label : pystr) : tracks I μ ν (notify label).
Proof using Hupd Hnone.
  unfold notify. cbn.
  eapply (tracks_Atomic _ _ _ _ 0 ν); [done | done | intros; simpl; lia |].
  intros s Hs. simpl. case_bool_decide as Hpm.
  - eapply (tracks_Atomic _ _ _ _ ν 0); [lia | | | ]; intros s' Hs'; simpl.
    + by apply Hupd.
    + by apply Hupd.
    + constructor.
  - simpl. rewrite (Hnone s Hs); [constructor |].
    destruct (progress_manager s); [| done]. destruct Hpm. eauto.
Qed.

Lemma report_end lvl ev label :
  tracks I μ ν (logger lvl ev ≫= λ _, notify label).
Proof using Hlog Hupd Hnone.
  unfold mbind, M_bind. cbn [logger atomic bind].
  eapply (tracks_Atomic _ _ _ _ 0 ν); [done | | | ]; intros s Hs; cbn [fst snd].
  - by apply Hlog.
  - rewrite (proj2 (Hlog _ s Hs)). lia.
  - apply notify_end.
Qed.

Lemma run_command_tracks env self command task_name output_path tasks :
  tracks I μ (inv command + ν) (run_command env self command task_name output_path tasks).
Proof using All.
  unfold run_command, try_except.
  cbn [mbind M_bind bind subprocess_run atomic].
  eapply (tracks_Atomic _ _ _ _ (inv command) ν); [done | | | ]; intros s Hs; cbn [fst snd].
  - by apply Hinv.
  - by apply Hinv.
  - destruct (tool env command) as [seconds stdout |].
    + destruct (timeout_max env <? timeout self)%Z;
        [cbn [bind except_Exception is_Exception]; apply report_end |].
      destruct (timeout self <? seconds)%Z.
      * cbn [bind]. apply report_end.
      * destruct (utf8_decode_ignore_total stdout) as [text Hdec].
        rewrite Hdec. cbn [bind lift].
        unfold mbind, M_bind. cbn [bind].
        case_bool_decide.
        -- cbn [write_text atomic bind].
           eapply (tracks_Atomic _ _ _ _ 0 ν); [done | | | ]; intros s' Hs'.
           ++ destruct (writable env _); [| done].
              destruct (Codec.utf8_encode _); [| by apply Hfiles].
              destruct (write_error env _ _); by apply Hfiles.
           ++ destruct (writable env _); [| simpl; lia].
              destruct (Codec.utf8_encode _);
                [destruct (write_error env _ _) |];
                simpl; rewrite (proj2 (Hfiles _ s' Hs')); lia.
           ++ destruct (writable env _).
              ** rewrite (stored_encodes env stdout text Hdec).
                 destruct (write_error env _ _).
                 --- cbn [fst bind except_Exception is_Exception]. apply report_end.
                 --- cbn [fst bind]. apply notify_tracks. constructor.
              ** cbn [fst bind except_Exception is_Exception]. apply report_end.
        -- apply report_tracks. constructor.
    + cbn [bind except_Exception is_Exception]. apply report_end.
Qed.
End Dispatch.

Section Progress.

Local Open Scope nat_scope.

Lemma run_command_notifies (env : Env) (self : VolatilityAnalyzer)
    (command : list pystr) (task_name output_path : pystr)
    (tasks : Dict.t (list pystr)) :
  tracks has_progress_manager counter 1
    (run_command env self command task_name output_path tasks).
Proof.
  apply (run_command_tracks has_progress_manager counter (λ _, 0) 1); try done.
  - intros label s [pm Hpm]. unfold has_progress_manager, counter. simpl.
    rewrite Hpm. simpl. split; [eauto | lia].
  - intros s [pm Hpm] Hnone. congruence.
Qed.

Lemma sum_list_ones {A} (l : list A) : sum_list ((λ _, 1) <$> l) = length l.
Proof.
  induction l as [| x l IH]; [done |].
  change (S (sum_list ((λ _, 1) <$> l)) = S (length l)). by rewrite IH.
Qed.

(** C7.  With a progress manager in place, a task notifies it exactly
    once whatever its outcome: the counter goes up by one and the label is
    the task name, with a marker in parentheses for an empty output, a
    time-out or an error.  Under every schedule of the pool the counter
    has gone up, when all tasks have settled, by the number of tasks
    submitted. *)
Theorem every_task_notifies_once (env : Env) (sched : list nat)
    (self : VolatilityAnalyzer) (output_path : pystr)
    (tasks : Dict.t (list pystr)) (s : St) (pm : ProgressManager) :
  let s0 := set_progress_manager (λ _, Some pm) s in
  (∀ command task_name,
     progress_manager
       (run (run_command env self command task_name output_path tasks) s0).2
     = Some (ProgressManager_update
               (label_of task_name
                  (task_outcome env self command (task_file output_path task_name)))
               pm))
  ∧ ∃ pm',
      progress_manager (run (execute_tasks env sched self output_path tasks) s0).2
      = Some pm'
      ∧ completed_tasks pm' = completed_tasks pm + length tasks.
Proof.
  intros s0. split.
  - intros command task_name. rewrite run_command_settles. unfold settled.
    by destruct (task_outcome _ _ _ _).
  - unfold execute_tasks. cbn [atomic run snd].
    set (futures := _ <$> Dict.items tasks).
    destruct (pool_tracks has_progress_manager counter sched
                ((λ _, 1) <$> Dict.items tasks) futures s0) as [[pm' Hpm'] Hcount].
    + subst futures. apply Forall2_fmap, Forall_Forall2_diag, Forall_forall.
      intros [task_name command] _. apply run_command_notifies.
    + by eexists.
    + exists pm'. split; [done |].
      unfold counter in Hcount. rewrite Hpm', sum_list_ones in Hcount.
      simpl in Hcount. by rewrite Hcount.
Qed.

End Progress.

(** ** The report *)

Lemma get_raises {A} (l : list A) (i : nat) (e : exn) :
  PyList.get l i = Raise e → is_Exception e = true.
Proof. unfold PyList.get. destruct (l !! i); [done |]. by intros [= <-]. Qed.

Lemma index_raises (x : pystr) (l : list pystr) (e : exn) :
  PyList.index x l = Raise e → is_Exception e = true.
Proof.
  induction l as [| y l IH]; simpl; [by intros [= <-] |].
  case_bool_decide; [done |]. destruct (PyList.index x l); [done |].
  simpl. intros [= <-]. by apply IH.
Qed.

Lemma help_text_of_raises task_name tl th fl fh (e : exn) :
  help_text_of task_name tl th fl fh = Raise e → is_Exception e = true.
Proof.
  unfold help_text_of, mbind, result_bind.
  destruct (Str.contains _ _).
  - destruct (PyList.get _ 1) eqn:E1; [| intros [= <-]; by eapply get_raises].
    destruct (PyList.get _ 0) eqn:E2; [| intros [= <-]; by eapply get_raises].
    destruct (PyList.index _ _) eqn:E3; [| intros [= <-]; by eapply index_raises].
    apply get_raises.
  - destruct (PyList.index _ _) eqn:E3; [| intros [= <-]; by eapply index_raises].
    apply get_raises.
Qed.

Lemma utf8_from_raises (e : Codec.errors) (bs : bytes) :
  ∀ st x, Codec.utf8_from e st bs = Raise x → x = UnicodeDecodeError.
Proof.
  assert (Hmap : ∀ (f : pystr → pystr) r x,
    (∀ x, r = Raise x → x = UnicodeDecodeError) →
    result_map f r = Raise x → x = UnicodeDecodeError).
  { intros f [t | y] x H; simpl; [done |]. intros [= <-]. by apply H. }
  assert (Hhandle : ∀ r x,
    (∀ x, r = Raise x → x = UnicodeDecodeError) →
    Codec.handle e r = Raise x → x = UnicodeDecodeError).
  { intros r x H. destruct e; simpl; [by intros [= <-] | apply H]. }
  induction bs as [| b bs IH]; intros st x; simpl.
  - destruct st; [done |]. by apply Hhandle.
  - assert (Hfresh : ∀ x,
      match Codec.utf8_lead (Byte.to_N b) with
      | Codec.LChar c => result_map (cons c) (Codec.utf8_from e Codec.Start bs)
      | Codec.LBegin st' => Codec.utf8_from e st' bs
      | Codec.LInvalid => Codec.handle e (Codec.utf8_from e Codec.Start bs)
      end = Raise x → x = UnicodeDecodeError).
    { intros y. destruct (Codec.utf8_lead _).
      - apply Hmap, IH. - apply IH. - apply Hhandle, IH. }
    destruct st as [| cp more lo hi]; [apply Hfresh |].
    destruct (_ && _).
    + destruct more; [apply Hmap, IH | apply IH].
    + by apply Hhandle.
Qed.

Lemma read_file_raises (s : St) (path : pystr) (e : exn) :
  read_file s path = Raise e → is_Exception e = true.
Proof.
  unfold read_file. destruct (files s !! path); [| by intros [= <-]].
  destruct (Codec.utf8_decode _ _) eqn:E; simpl; [done |].
  intros [= <-]. by rewrite (utf8_from_raises _ _ _ _ E).
Qed.

Lemma run_lm_bind {A B} (m : LM A) (f : A → LM B) md s :
  run ((m ≫= f) md) s =
  match run (m md) s with
  | ((Ok a, md'), s') => run (f a md') s'
  | ((Raise e, md'), s') => ((Raise e, md'), s')
  end.
Proof.
  unfold mbind, LM_bind. rewrite run_bind.
  destruct (run (m md) s) as [[[a | e] md'] s']; done.
Qed.

Lemma run_lm_lift {A} (m : M A) md s :
  run (lm_lift m md) s = let '(r, s') := run m s in ((r, md), s').
Proof. unfold lm_lift. rewrite run_bind. by destruct (run m s). Qed.

Lemma run_lm_try_except {A} (body : LM A) handler md s :
  run (lm_try_except body handler md) s =
  match run (body md) s with
  | ((Ok a, md'), s') => ((Ok a, md'), s')
  | ((Raise e, md'), s') => run (handler e md') s'
  end.
Proof.
  unfold lm_try_except. rewrite run_bind.
  destruct (run (body md) s) as [[[a | e] md'] s']; done.
Qed.

Lemma markdown_section_run env output_path tl th fl fh task_name md s :
  run (markdown_section env output_path tl th fl fh task_name md) s =
  ((Ok (), md ++ (section_entries env (files s) output_path tl th fl fh task_name).1),
   log_failure task_name
     (section_entries env (files s) output_path tl th fl fh task_name).2 s).
Proof.
  unfold markdown_section, section_entries.
  rewrite run_lm_try_except, run_lm_bind, run_lm_lift. cbn [lift run].
  destruct (help_text_of _ _ _ _ _) as [help_text | e] eqn:Hhelp.
  - rewrite run_lm_bind. cbn [lm_append run].
    rewrite run_lm_bind, run_lm_lift. cbn [path_exists atomic run].
    fold (task_file output_path task_name). unfold report_section, text_of.
    destruct (stat_error env (task_file output_path task_name)).
    { cbn [lm_except_Exception is_Exception]. rewrite run_lm_lift.
      cbn [logger atomic run fst snd log_failure]. done. }
    destruct (files s !! task_file output_path task_name) as [b |] eqn:Hfile.
    + rewrite bool_decide_true by eauto.
      rewrite run_lm_bind, run_lm_lift. cbn [read_text atomic run].
      unfold read_file. rewrite Hfile.
      destruct (Codec.utf8_decode Codec.strict b) as [t | e] eqn:Hdec; cbn [result_map].
      * cbn [lm_append run fst snd log_failure]. by rewrite <- !app_assoc.
      * rewrite (utf8_from_raises _ _ _ _ Hdec).
        cbn [lm_except_Exception is_Exception]. rewrite run_lm_lift.
        cbn [logger atomic run fst snd log_failure]. done.
    + rewrite bool_decide_false by (by intros [? ?]).
      cbn [lm_append run fst snd log_failure]. by rewrite <- !app_assoc.
  - unfold lm_except_Exception. rewrite (help_text_of_raises _ _ _ _ _ _ Hhelp).
    rewrite run_lm_lift. cbn [logger atomic run fst snd log_failure].
    by rewrite app_nil_r.
Qed.

Lemma files_log_failure (task_name : pystr) (failure : option exn) (s : St) :
  files (log_failure task_name failure s) = files s.
Proof. by destruct failure. Qed.

Lemma lm_for_sections_run env output_path tl th fl fh (names : list pystr) :
  ∀ md s,
    run (lm_for names (markdown_section env output_path tl th fl fh) md) s =
    ((Ok (),
      md ++ (names ≫= λ name,
               (section_entries env (files s) output_path tl th fl fh name).1)),
     foldl (λ st name,
              log_failure name
                (section_entries env (files s) output_path tl th fl fh name).2 st)
           s names).
Proof.
  induction names as [| name names IH]; intros md s; cbn [lm_for foldl].
  - cbn. by rewrite app_nil_r.
  - rewrite run_lm_bind, markdown_section_run, IH, files_log_failure.
    by rewrite bind_cons, app_assoc.
Qed.

Lemma files_foldl_log_failure (f : pystr → option exn) (names : list pystr) :
  ∀ s, files (foldl (λ st name, log_failure name (f name) st) s names) = files s.
Proof.
  induction names as [| name names IH]; intros s; simpl; [done |].
  by rewrite IH, files_log_failure.
Qed.

Lemma utf8_encode_raises (t : pystr) (e : exn) :
  Codec.utf8_encode t = Raise e → is_Exception e = true.
Proof.
  induction t as [| c t IH]; simpl; [done |].
  destruct (Codec.scalar c); [| by intros [= <-]].
  destruct (Codec.utf8_encode t); simpl; [done |]. intros [= <-]. by apply IH.
Qed.

Lemma write_text_run (env : Env) (path data : pystr) (s : St) :
  files (run (write_text env path data) s).2 = write_files env path data (files s)
  ∧ (∀ e, (run (write_text env path data) s).1 = Raise e → is_Exception e = true)
  ∧ progress_manager (run (write_text env path data) s).2 = progress_manager s
  ∧ invoked (run (write_text env path data) s).2 = invoked s.
Proof.
  unfold write_files, leaves. cbn [write_text atomic run].
  destruct (writable env path); [| split_and!; try done; by intros e [= <-]].
  destruct (Codec.utf8_encode _) as [b | e'] eqn:E.
  - destruct (write_error env path b); split_and!; try done. by intros e [= <-].
  - split_and!; try done. intros e [= <-]. by eapply utf8_encode_raises.
Qed.

Lemma run_lm_run (m : LM unit) (s : St) :
  run (lm_run m) s =
  match run (m []) s with
  | ((Ok _, md), s') => (Ok md, s')
  | ((Raise e, _), s') => (Raise e, s')
  end.
Proof.
  unfold lm_run. rewrite run_bind.
  destruct (run (m []) s) as [[[a | e] md] s']; done.
Qed.

Lemma projections_foldl_log_failure (f : pystr → option exn) (names : list pystr) :
  ∀ s,
    progress_manager (foldl (λ st name, log_failure name (f name) st) s names)
    = progress_manager s
    ∧ invoked (foldl (λ st name, log_failure name (f name) st) s names) = invoked s.
Proof.
  induction names as [| name names IH]; intros s; simpl; [done |].
  destruct (IH (log_failure name (f name) s)) as [-> ->]. by destruct (f name).
Qed.

Lemma generate_markdown_run (env : Env) (tasks : Dict.t (list pystr))
    (output_path : pystr) (tl th fl fh : list pystr) (s : St) :
  ∃ s' : St,
    run (generate_markdown env tasks output_path tl th fl fh) s = (Ok (), s')
    ∧ files s' =
        write_files env (Path.div output_path (py "summary.md"))
          (Str.join nl
             (Dict.keys tasks ≫= λ name,
                (section_entries env (files s) output_path tl th fl fh name).1))
          (files s)
    ∧ progress_manager s' = progress_manager s
    ∧ invoked s' = invoked s.
Proof.
  unfold generate_markdown.
  rewrite run_try_except, run_mbind. cbn [logger atomic run].
  rewrite run_mbind, run_lm_run, lm_for_sections_run. cbn [app files add_log].
  set (s2 := foldl _ _ _). rewrite run_mbind.
  assert (Hfiles : files s2 = files s).
  { subst s2. by rewrite files_foldl_log_failure. }
  destruct (projections_foldl_log_failure
              (λ name, (section_entries env (files s) output_path tl th fl fh name).2)
              (Dict.keys tasks) (add_log (INFO, ReportStarted) s)) as [Hpm Hinv].
  fold s2 in Hpm, Hinv. cbn in Hpm, Hinv.
  set (text := Str.join nl _).
  destruct (write_text_run env (Path.div output_path (py "summary.md")) text s2)
    as (Hw & Hexn & Hwpm & Hwinv).
  destruct (run (write_text env _ text) s2) as [[[] | e] s3]; cbn [fst snd] in *.
  - cbn [logger atomic run]. eexists. split; [done |]. cbn.
    by rewrite Hw, Hfiles, Hwpm, Hwinv.
  - unfold except_Exception. rewrite (Hexn e eq_refl). cbn [logger atomic run].
    eexists. split; [done |]. cbn. by rewrite Hw, Hfiles, Hwpm, Hwinv.
Qed.

(** ** The order of the tasks *)

Lemma keys_set {V} (k : pystr) (v : V) (d : Dict.t V) :
  Dict.keys (Dict.set k v d) =
  if decide (k ∈ Dict.keys d) then Dict.keys d else Dict.keys d ++ [k].
Proof.
  unfold Dict.keys. induction d as [| [k' v'] d IH]; cbn [Dict.set fmap list_fmap fst].
  - rewrite decide_False; [done | apply not_elem_of_nil].
  - case_bool_decide as Hk; cbn [fmap list_fmap fst].
    + subst k'. rewrite decide_True; [done | left].
    + rewrite IH. destruct (decide (k ∈ d.*1)) as [Hin | Hin].
      * rewrite decide_True; [done | by right].
      * rewrite decide_False; [done |].
        rewrite elem_of_cons. intros [-> | ?]; done.
Qed.

Lemma filter_first_occurrences_step (x : pystr) (seen l : list pystr) :
  filter (λ k, k ∉ seen ++ [x]) l = filter (λ k, k ∉ seen) (filter (λ y, y ≠ x) l).
Proof.
  rewrite list_filter_filter. apply list_filter_iff. intros k.
  rewrite elem_of_app, list_elem_of_singleton. tauto.
Qed.

Lemma filter_seen (x : pystr) (seen l : list pystr) :
  x ∈ seen →
  filter (λ k, k ∉ seen) (filter (λ y, y ≠ x) l) = filter (λ k, k ∉ seen) l.
Proof.
  intros Hx. rewrite list_filter_filter. apply list_filter_iff. intros k.
  split; [tauto |]. intros Hk. split; [done |]. by intros ->.
Qed.

Lemma keys_foldl_set {A V} (key : A → pystr) (val : A → V) (l : list A) :
  ∀ d : Dict.t V,
    Dict.keys (foldl (λ d x, Dict.set (key x) (val x) d) d l) =
    Dict.keys d ++ filter (λ k, k ∉ Dict.keys d) (first_occurrences (key <$> l)).
Proof.
  induction l as [| x l IH]; intros d; simpl.
  - by rewrite app_nil_r.
  - rewrite IH, keys_set. destruct (decide (key x ∈ Dict.keys d)) as [Hin | Hin].
    + rewrite filter_cons, decide_False by (by intros ?). by rewrite filter_seen.
    + rewrite filter_cons, decide_True by done.
      rewrite <- app_assoc. simpl. by rewrite filter_first_occurrences_step.
Qed.

Lemma elem_of_first_occurrences (x : pystr) (l : list pystr) :
  x ∈ first_occurrences l → x ∈ l.
Proof.
  induction l as [| y l IH]; simpl; [done |].
  rewrite !elem_of_cons, list_elem_of_filter. intros [-> | [_ Hx]]; [by left |].
  right. by apply IH.
Qed.

Lemma filter_all {A} (P : A → Prop) `{∀ x, Decision (P x)} (l : list A) :
  Forall P l → filter P l = l.
Proof.
  induction 1 as [| x l Hx _ IH]; [done |].
  by rewrite filter_cons, decide_True, IH.
Qed.

Lemma filescan_names_contain :
  Forall (λ name, Str.contains (py "filescan") name = true)
    (filescan_name <$> task_filescanlist).
Proof. repeat constructor. Qed.

Lemma filescan_names_distinct :
  first_occurrences (filescan_name <$> task_filescanlist)
  = filescan_name <$> task_filescanlist.
Proof. by vm_compute. Qed.

Lemma keys_build_tasks (memorydump_path : pystr) (profile : option pystr)
    (tasklist : list pystr) :
  (∀ name, name ∈ tasklist → Str.contains (py "filescan") name = false) →
  Dict.keys (build_tasks memorydump_path profile tasklist)
  = first_occurrences tasklist ++ (filescan_name <$> task_filescanlist).
Proof.
  intros Hcat. unfold build_tasks.
  rewrite (keys_foldl_set filescan_name), (keys_foldl_set id).
  cbn [Dict.keys fmap list_fmap app]. rewrite list_fmap_id.
  rewrite (filter_all (λ k, k ∉ [])) by (apply Forall_forall; intros; apply not_elem_of_nil).
  f_equal. rewrite filescan_names_distinct. apply filter_all.
  eapply Forall_impl; [apply filescan_names_contain |].
  intros name Hname Hin%elem_of_first_occurrences.
  cbv beta in Hname. by rewrite (Hcat _ Hin) in Hname.
Qed.

Lemma comprehension_length {A B} (f : A → result B) (l : list A) :
  ∀ ys, comprehension f l = Ok ys → length ys = length l.
Proof.
  induction l as [| x l IH]; intros ys; simpl; [by intros [= <-] |].
  unfold mbind, result_bind. destruct (f x); [| done].
  destruct (comprehension f l) as [ys' |]; [| done].
  intros [= <-]. simpl. by rewrite (IH ys').
Qed.

Lemma parse_config_lengths (config_lines tasklist tasklist_help : list pystr) :
  parse_config config_lines = Ok (tasklist, tasklist_help) →
  length tasklist_help = length tasklist.
Proof.
  unfold parse_config, mbind, result_bind.
  destruct (comprehension (λ line, PyList.get (Str.split 45 line) 0) config_lines)
    as [tl |] eqn:E1; [| done].
  destruct (comprehension (λ line, PyList.get (Str.split 45 line) 1) config_lines)
    as [th |] eqn:E2; [| done].
  apply comprehension_length in E1. apply comprehension_length in E2.
  intros ?; simplify_eq. congruence.
Qed.

Lemma index_found (x : pystr) (l : list pystr) :
  x ∈ l → ∃ i, PyList.index x l = Ok i ∧ (i < length l)%nat.
Proof.
  induction l as [| y l IH]; [by intros ?%elem_of_nil |].
  simpl. case_bool_decide as Hy.
  - intros _. exists 0%nat. split; [done | lia].
  - intros [-> | Hin]%elem_of_cons; [done |].
    destruct (IH Hin) as (i & -> & Hi). exists (S i). split; [done | lia].
Qed.

Lemma help_text_of_catalog (name : pystr) (tl th fl fh : list pystr) :
  Str.contains (py "filescan") name = false → name ∈ tl → length th = length tl →
  ∃ h, help_text_of name tl th fl fh = Ok h.
Proof.
  intros Hc Hin Hlen. unfold help_text_of. rewrite Hc.
  destruct (index_found _ _ Hin) as (i & -> & Hi).
  unfold mbind, result_bind, PyList.get.
  destruct (lookup_lt_is_Some_2 th i) as [h ->]; [lia | eauto].
Qed.

Lemma help_text_of_filescan (tl th : list pystr) :
  Forall (λ name, ∃ h, help_text_of name tl th task_filescanlist task_filescanlist_help
                       = Ok h)
    (filescan_name <$> task_filescanlist).
Proof. repeat constructor; eexists; vm_compute; reflexivity. Qed.

(** ** The sections of the report *)

Lemma sections_zip {A B} (f : A → B → list pystr) (g : A → B) (l : list A) :
  mjoin (zip_with f l (g <$> l)) = l ≫= λ x, f x (g x).
Proof. induction l as [| x l IH]; [done |]. cbn. by rewrite <- IH. Qed.

Lemma bind_ext_in {A B} (f g : A → list B) (l : list A) :
  Forall (λ x, f x = g x) l → l ≫= f = l ≫= g.
Proof. induction 1 as [| x l Hx _ IH]; [done |]. by rewrite !bind_cons, Hx, IH. Qed.

Lemma length_sections (fs : gmap pystr bytes) (output_path : pystr)
    (names helps : list pystr) :
  length helps = length names →
  length (mjoin (zip_with (report_section fs output_path) names helps))
  = (2 * length names)%nat.
Proof.
  revert helps. induction names as [| name names IH]; intros [| h helps] Hlen;
    simpl in *; try done.
  rewrite (IH helps) by lia. lia.
Qed.

Section Report.

Context (env : Env) (memorydump_path : pystr) (profile : option pystr).
Context (config_lines tasklist tasklist_help : list pystr).
Context (output_path : pystr) (s : St).

Let tasks := build_tasks memorydump_path profile tasklist.

Context (Hconfig : parse_config config_lines = Ok (tasklist, tasklist_help)).
Context (Hcatalog : ∀ name, name ∈ tasklist →
                      Str.contains (py "filescan") name = false).
Context (Hstat : ∀ name, name ∈ Dict.keys tasks →
                   stat_error env (task_file output_path name) = false).
Context (Hread : ∀ name b, name ∈ Dict.keys tasks →
                   files s !! task_file output_path name = Some b →
                   is_Ok (Codec.utf8_decode Codec.strict b) = true).

Lemma every_task_resolves :
  Forall (λ name, help_text_of name tasklist tasklist_help
                    task_filescanlist task_filescanlist_help
                  = Ok (resolved tasklist tasklist_help name))
    (Dict.keys tasks).
Proof using Hconfig Hcatalog.
  assert (Hall : Forall (λ name, ∃ h, help_text_of name tasklist tasklist_help
                           task_filescanlist task_filescanlist_help = Ok h)
                   (Dict.keys tasks)).
  { subst tasks. rewrite keys_build_tasks by done. apply Forall_app. split.
    - apply Forall_forall. intros name Hin%elem_of_first_occurrences.
      apply help_text_of_catalog; [by apply Hcatalog | done |].
      by eapply parse_config_lengths.
    - apply help_text_of_filescan. }
  eapply Forall_impl; [apply Hall |]. intros name [h Hh]. unfold resolved.
  by rewrite Hh.
Qed.

Lemma every_section_whole :
  Forall (λ name,
            (section_entries env (files s) output_path tasklist tasklist_help
               task_filescanlist task_filescanlist_help name).1
            = report_section (files s) output_path name
                (resolved tasklist tasklist_help name))
    (Dict.keys tasks).
Proof using Hconfig Hcatalog Hstat Hread.
  apply Forall_forall. intros name Hin.
  pose proof (proj1 (Forall_forall _ _) every_task_resolves name Hin) as Hh.
  cbv beta in Hh. unfold section_entries. rewrite Hh, (Hstat name Hin).
  destruct (files s !! task_file output_path name) as [b |] eqn:Hfile; [| done].
  specialize (Hread name b Hin Hfile).
  by destruct (Codec.utf8_decode Codec.strict b).
Qed.

(** X14.  When no task of the configuration has "filescan" in its
    name, [exists] can examine the file of every task and the task files
    that exist are valid UTF-8, the keys of [tasks] are the names of the
    configuration where each comes first, followed by the filter tasks in
    the order of the filter list; the loop leaves one section for every
    task, in that order and whatever the outcome of the task, with the
    text of the file in a fence when the file exists and the placeholder
    when it does not; and the sections joined by newlines are what is
    written to [summary.md]. *)
Theorem report_sections_in_order :
  Dict.keys tasks = first_occurrences tasklist ++ (filescan_name <$> task_filescanlist)
  ∧ one_section_per_task env s output_path tasks tasklist tasklist_help
  ∧ ∃ helps : list pystr,
      length helps = length (Dict.keys tasks)
      ∧ files (run (generate_markdown env tasks output_path tasklist tasklist_help
                      task_filescanlist task_filescanlist_help) s).2
        = write_files env (Path.div output_path (py "summary.md"))
            (Str.join nl (mjoin (zip_with (report_section (files s) output_path)
                                   (Dict.keys tasks) helps)))
            (files s).
Proof using All.
  split; [by apply keys_build_tasks |].
  assert (Hmd : Dict.keys tasks ≫= (λ name,
                  (section_entries env (files s) output_path tasklist tasklist_help
                     task_filescanlist task_filescanlist_help name).1)
                = mjoin (zip_with (report_section (files s) output_path)
                           (Dict.keys tasks)
                           (resolved tasklist tasklist_help <$> Dict.keys tasks))).
  { rewrite sections_zip. apply bind_ext_in, every_section_whole. }
  split.
  - exists (resolved tasklist tasklist_help <$> Dict.keys tasks). split.
    + apply Forall2_fmap_r, Forall_Forall2_diag, every_task_resolves.
    + rewrite run_lm_run, lm_for_sections_run. cbn [fst app]. by rewrite Hmd.
  - exists (resolved tasklist tasklist_help <$> Dict.keys tasks).
    split; [by rewrite length_fmap |].
    destruct (generate_markdown_run env tasks output_path tasklist tasklist_help
                task_filescanlist task_filescanlist_help s) as (s' & Hrun & Hfiles & _).
    rewrite Hrun. cbn [snd]. by rewrite Hfiles, Hmd.
Qed.

End Report.

(** C5 fails on the code.  A task the configuration names "filescan"
    is taken for a filter task: its name is split at ["("], which it does
    not have, and the [IndexError] is caught and logged.  The report has
    the sections of the five filter tasks and none for this task, whose
    help text the lookup by name, which the other configured tasks get,
    would have found. *)
Theorem report_omits_task_named_filescan :
  let tasks := build_tasks (py "mem.img") (Some (py "Win7SP1x64")) [py "filescan"] in
  let r := run (lm_run (lm_for (Dict.keys tasks)
                  (markdown_section scenario (py "output") [py "filescan"]
                     [py "File scan" ++ nl] task_filescanlist
                     task_filescanlist_help)))
             (boot ∅) in
  parse_config [py "filescan-File scan" ++ nl]
  = Ok ([py "filescan"], [py "File scan" ++ nl])
  ∧ Dict.keys tasks = py "filescan" :: (filescan_name <$> task_filescanlist)
  ∧ help_text_of (py "filescan") [py "filescan"] [py "File scan" ++ nl]
      task_filescanlist task_filescanlist_help = Raise IndexError
  ∧ (index ← PyList.index (py "filescan") [py "filescan"];
     PyList.get [py "File scan" ++ nl] index) = Ok (py "File scan" ++ nl)
  ∧ log r.2 = [(ERROR, SectionFailed (py "filescan") IndexError)]
  ∧ r.1 = Ok (mjoin (zip_with (report_section ∅ (py "output"))
                       (filescan_name <$> task_filescanlist)
                       task_filescanlist_help))
  ∧ ¬ one_section_per_task scenario (boot ∅) (py "output") tasks
        [py "filescan"] [py "File scan" ++ nl].
Proof.
  intros tasks r.
  split; [by vm_compute |]. split; [by vm_compute |]. split; [by vm_compute |].
  split; [by vm_compute |]. split; [by vm_compute |]. split; [by vm_compute |].
  intros (helps & Hres & Hmd). apply Forall2_length in Hres.
  assert (Hlen : result_map length r.1 = Ok 10%nat) by (by vm_compute).
  subst r tasks. rewrite Hmd in Hlen. cbn [result_map] in Hlen.
  rewrite length_sections in Hlen by done.
  vm_compute in Hlen. discriminate.
Qed.

Lemma report_sections_in_order_witness :
  let tasks := build_tasks (py "/data/mem.img") (Some (py "Win10x64_19041"))
                 [py "pslist"; py "netscan"] in
  Dict.keys tasks
  = first_occurrences [py "pslist"; py "netscan"]
    ++ (filescan_name <$> task_filescanlist)
  ∧ one_section_per_task scenario_env (boot scenario_files) (py "/data/output") tasks
      [py "pslist"; py "netscan"] [py "Process list" ++ nl; py "Network scan" ++ nl]
  ∧ ∃ helps : list pystr,
      length helps = length (Dict.keys tasks)
      ∧ files (run (generate_markdown scenario_env tasks (py "/data/output")
                      [py "pslist"; py "netscan"]
                      [py "Process list" ++ nl; py "Network scan" ++ nl]
                      task_filescanlist task_filescanlist_help)
                 (boot scenario_files)).2
        = write_files scenario_env (Path.div (py "/data/output") (py "summary.md"))
            (Str.join nl (mjoin (zip_with
               (report_section (files (boot scenario_files)) (py "/data/output"))
               (Dict.keys tasks) helps)))
            (files (boot scenario_files)).
Proof.
  apply (report_sections_in_order scenario_env (py "/data/mem.img")
           (Some (py "Win10x64_19041"))
           [py "pslist-Process list" ++ nl; py "netscan-Network scan" ++ nl]
           [py "pslist"; py "netscan"]
           [py "Process list" ++ nl; py "Network scan" ++ nl]
           (py "/data/output") (boot scenario_files)).
  - vm_compute. reflexivity.
  - intros name Hin. apply list_elem_of_In in Hin. simpl in Hin.
    destruct Hin as [<- | [<- | []]]; vm_compute; reflexivity.
  - intros name Hin. reflexivity.
  - intros name b Hin Hfile. apply list_elem_of_In in Hin.
    vm_compute in Hin.
    repeat (destruct Hin as [<- | Hin];
            [vm_compute in Hfile; try discriminate Hfile;
             injection Hfile as <-; vm_compute; reflexivity |]).
    destruct Hin.
Defined.

(** ** Which commands are run *)

Section Invocations.

Local Open Scope nat_scope.

Context (c0 : list pystr).

Lemma invocations_add_invoked (c : list pystr) (s : St) :
  invocations c0 (add_invoked c s)
  = invocations c0 s + (if decide (c = c0) then 1 else 0).
Proof.
  unfold invocations. cbn [invoked add_invoked].
  rewrite filter_app, length_app, filter_cons, filter_nil.
  by destruct (decide (c = c0)).
Qed.

Lemma invocations_elem_of (s : St) : 0 < invocations c0 s → c0 ∈ invoked s.
Proof.
  unfold invocations. intros Hpos.
  destruct (filter (λ c, c = c0) (invoked s)) as [| c l] eqn:E; simpl in Hpos; [lia |].
  assert (Hc : c ∈ filter (λ c, c = c0) (invoked s)) by (rewrite E; left).
  apply list_elem_of_filter in Hc as [-> ?]. done.
Qed.

Lemma run_command_invokes (env : Env) (self : VolatilityAnalyzer)
    (command : list pystr) (task_name output_path : pystr)
    (tasks : Dict.t (list pystr)) :
  tracks (λ _, True) (invocations c0) (if decide (command = c0) then 1 else 0)
    (run_command env self command task_name output_path tasks).
Proof.
  pose proof (run_command_tracks (λ _, True) (invocations c0)
                (λ c, if decide (c = c0) then 1 else 0) 0) as H.
  simpl in H. rewrite <- (Nat.add_0_r (if decide (command = c0) then 1 else 0)).
  apply H; try done.
  intros c s _. split; [done | apply invocations_add_invoked].
Qed.

Lemma sum_list_positive (ns : list nat) (n : nat) :
  n ∈ ns → 0 < n → 0 < sum_list ns.
Proof. induction 1; simpl; lia. Qed.

End Invocations.

(** Every item of [tasks] is run, whatever the files and the schedule. *)
Lemma execute_tasks_invokes (env : Env) (sched : list nat)
    (self : VolatilityAnalyzer) (output_path : pystr)
    (tasks : Dict.t (list pystr)) (s : St) (task_name : pystr) (command : list pystr) :
  (task_name, command) ∈ Dict.items tasks →
  [volatility_path self] ++ command
  ∈ invoked (run (execute_tasks env sched self output_path tasks) s).2.
Proof.
  intros Hin. apply invocations_elem_of.
  unfold execute_tasks. cbn [atomic run snd].
  set (futures := _ <$> Dict.items tasks).
  set (c0 := [volatility_path self] ++ command).
  destruct (pool_tracks (λ _, True) (invocations c0) sched
              ((λ '(_, c), if decide ([volatility_path self] ++ c = c0) then 1 else 0)%nat
                 <$> Dict.items tasks) futures s) as [_ ->]; [| done |].
  - subst futures. apply Forall2_fmap, Forall_Forall2_diag, Forall_forall.
    intros [name c] _. apply run_command_invokes.
  - assert (0 < sum_list ((λ '(_, c),
               if decide ([volatility_path self] ++ c = c0) then 1 else 0)
               <$> Dict.items tasks))%nat; [| lia].
    apply (sum_list_positive _ 1%nat); [| lia].
    apply list_elem_of_fmap. exists (task_name, command). split; [| done].
    subst c0. by rewrite decide_True.
Qed.

(** ** The run as a whole *)

Lemma comprehension_raises {A B} (f : A → result B) (l : list A) (e : exn) :
  (∀ x e, f x = Raise e → is_Exception e = true) →
  comprehension f l = Raise e → is_Exception e = true.
Proof.
  intros Hf. induction l as [| x l IH]; simpl; [done |].
  unfold mbind, result_bind. destruct (f x) eqn:Hx; [| intros [= <-]; by eapply Hf].
  destruct (comprehension f l); [done |]. intros [= <-]. by apply IH.
Qed.

Lemma parse_config_raises (config_lines : list pystr) (e : exn) :
  parse_config config_lines = Raise e → is_Exception e = true.
Proof.
  assert (Hget : ∀ i (x : pystr) e',
    PyList.get (Str.split 45 x) i = Raise e' → is_Exception e' = true).
  { intros i x e'. apply get_raises. }
  unfold parse_config, mbind, result_bind.
  destruct (comprehension (λ line, PyList.get (Str.split 45 line) 0) config_lines)
    eqn:E1.
  - destruct (comprehension (λ line, PyList.get (Str.split 45 line) 1) config_lines)
      eqn:E2; [done |].
    intros [= <-]. apply (comprehension_raises _ _ _ (Hget 1%nat) E2).
  - intros [= <-]. apply (comprehension_raises _ _ _ (Hget 0%nat) E1).
Qed.

Lemma load_config_raises (s : St) (e : exn) :
  load_config s = Raise e → is_Exception e = true.
Proof.
  unfold load_config.
  destruct (read_file s _) eqn:E.
  - apply parse_config_raises.
  - intros [= <-]. by eapply read_file_raises.
Qed.

Lemma read_config_run (s : St) :
  run read_config s =
  match load_config s with
  | Ok parsed => (Ok (Continue parsed), s)
  | Raise e => (Ok Return, add_log (ERROR, ConfigFailed e) s)
  end.
Proof.
  unfold read_config, load_config.
  rewrite run_try_except, run_mbind. cbn [readlines atomic run].
  destruct (read_file s (py "tasklist.cfg")) as [text | e] eqn:Hread;
    cbn [result_map].
  - rewrite run_mbind. cbn [lift run].
    destruct (parse_config (Str.lines text)) as [parsed | e] eqn:Hparse.
    + by cbn [mret M_ret run].
    + unfold except_Exception. rewrite (parse_config_raises _ _ Hparse).
      rewrite run_mbind. by cbn [logger atomic run mret M_ret].
  - unfold except_Exception. rewrite (read_file_raises _ _ _ Hread).
    rewrite run_mbind. by cbn [logger atomic run mret M_ret].
Qed.

Lemma cp1252_decode_raises (e : Codec.errors) (bs : bytes) (x : exn) :
  Codec.cp1252_decode e bs = Raise x → is_Exception x = true.
Proof.
  revert x. induction bs as [| b bs IH]; intros x; simpl; [done |].
  destruct (Codec.cp1252_char _).
  - destruct (Codec.cp1252_decode e bs); simpl; [done |]. intros [= <-]. by apply IH.
  - destruct e; simpl; [by intros [= <-] | apply IH].
Qed.

Lemma suggested_profile_raises (lines : list pystr) (e : exn) :
  suggested_profile lines = Raise e → is_Exception e = true.
Proof.
  induction lines as [| line lines IH]; simpl; [done |].
  destruct (Str.contains _ line); [| done].
  unfold mbind, result_bind.
  destruct (PyList.get _ 1) eqn:E1; [| intros [= <-]; by eapply get_raises].
  destruct (PyList.get _ 0) eqn:E2; [done | intros [= <-]; by eapply get_raises].
Qed.

Lemma detect_profile_run (env : Env) (self : VolatilityAnalyzer)
    (memorydump_path : pystr) (profile : option pystr) (s : St) :
  ∃ (detected : flow (option pystr)) (s' : St),
    run (detect_profile env self memorydump_path profile) s = (Ok detected, s')
    ∧ files s' = files s.
Proof.
  unfold detect_profile. rewrite run_mbind. cbn [logger atomic run].
  rewrite run_try_except, run_mbind. cbn [subprocess_run atomic run].
  destruct (tool env _) as [seconds stdout |];
    [| cbn [except_Exception is_Exception]; rewrite run_mbind; by eexists _, _].
  rewrite run_mbind. cbn [lift run].
  destruct (Codec.cp1252_decode Codec.ignore stdout) as [output | e] eqn:Hdec.
  - rewrite run_mbind. cbn [lift run].
    destruct (suggested_profile _) as [[p |] | e] eqn:Hp.
    + rewrite run_mbind. by eexists _, _.
    + by eexists _, _.
    + unfold except_Exception. rewrite (suggested_profile_raises _ _ Hp).
      rewrite run_mbind. by eexists _, _.
  - unfold except_Exception. rewrite (cp1252_decode_raises _ _ _ Hdec).
    rewrite run_mbind. by eexists _, _.
Qed.

Lemma dump_files_run (env : Env) (self : VolatilityAnalyzer)
    (memorydump_path : pystr) (profile location : option pystr) (s : St) :
  ∃ s' : St,
    run (dump_files env self memorydump_path profile location) s = (Ok (), s').
Proof.
  unfold dump_files. rewrite run_mbind. cbn [logger atomic run].
  rewrite run_try_except, run_mbind. cbn [subprocess_run atomic run].
  destruct (tool env _) as [seconds stdout |];
    [| cbn [except_Exception is_Exception]; by eexists].
  rewrite run_mbind. cbn [lift run].
  destruct (Codec.cp1252_decode Codec.ignore stdout) as [output | e] eqn:Hdec.
  - rewrite run_mbind. by eexists.
  - unfold except_Exception. rewrite (cp1252_decode_raises _ _ _ Hdec). by eexists.
Qed.

Section Pipeline.

Context (env : Env) (sched : list nat) (self : VolatilityAnalyzer).
Context (memorydump_path : pystr) (profile : option pystr) (dumpfiles : bool).
Context (dumpfiles_location : option pystr).

Let output_path := Path.div (Path.dirname memorydump_path) (py "output").

Lemma mkdir_failure_propagates (s : St) (e : exn) :
  mkdir_error env = Some e →
  run (analyze_memory_dump env sched self memorydump_path profile dumpfiles
         dumpfiles_location) s = (Raise e, s).
Proof.
  intros Hmk. unfold analyze_memory_dump. rewrite run_mbind.
  cbn [mkdir atomic run]. by rewrite Hmk.
Qed.

(** Once the configuration is read, every task is handed to the pool and
    the report is written from the files the pool leaves. *)
Lemma analyze_memory_dump_dispatches (s s1 : St) (detected : option pystr)
    (tasklist tasklist_help : list pystr) :
  mkdir_error env = None →
  dumpfiles && truthy profile && truthy dumpfiles_location = false →
  run (get_profile env self memorydump_path profile) s
  = (Ok (Continue detected), s1) →
  load_config s1 = Ok (tasklist, tasklist_help) →
  let tasks := build_tasks memorydump_path detected tasklist in
  let total_tasks := (length tasklist + length task_filescanlist)%nat in
  let s2 := (run (execute_tasks env sched self output_path tasks)
               (set_progress_manager (λ _, Some (ProgressManager_init total_tasks))
                  (add_log (INFO, TasksBuilt total_tasks) s1))).2 in
  ∃ s' : St,
    run (analyze_memory_dump env sched self memorydump_path profile dumpfiles
           dumpfiles_location) s = (Ok (), s')
    ∧ invoked s' = invoked s2
    ∧ files s' =
        write_files env (Path.div output_path (py "summary.md"))
          (Str.join nl
             (Dict.keys tasks ≫= λ name,
                (section_entries env (files s2) output_path tasklist tasklist_help
                   task_filescanlist task_filescanlist_help name).1))
          (files s2).
Proof.
  intros Hmk Hdump Hdet Hcfg tasks total_tasks s2.
  unfold analyze_memory_dump. rewrite run_mbind. cbn [mkdir atomic run].
  rewrite Hmk, Hdump, run_mbind, Hdet, run_mbind, read_config_run, Hcfg.
  rewrite run_mbind. cbn [logger atomic run].
  rewrite run_mbind. cbn [set_self_progress_manager atomic run].
  fold output_path total_tasks tasks.
  rewrite run_mbind. subst s2. cbn [execute_tasks atomic run snd].
  set (s2 := pool sched _ _).
  rewrite run_mbind. cbn [self_progress_manager atomic run].
  destruct (bool_decide (is_Some (progress_manager s2)));
    rewrite run_mbind; cbn [progress_close mret M_ret atomic run];
    do 3 (rewrite run_mbind; cbn [logger atomic run]);
    rewrite run_mbind;
    match goal with
    | |- context [run (generate_markdown _ _ _ _ _ _ _) ?st] =>
        destruct (generate_markdown_run env tasks output_path tasklist tasklist_help
                    task_filescanlist task_filescanlist_help st)
          as (s4 & -> & Hf4 & _ & Hi4)
    end;
    cbn [logger atomic run]; (eexists; split; [done |]);
    cbn [invoked files add_log set_progress_manager] in *; by rewrite Hi4, Hf4.
Qed.

Lemma analyze_memory_dump_returns (s : St) :
  mkdir_error env = None →
  ∃ s' : St,
    run (analyze_memory_dump env sched self memorydump_path profile dumpfiles
           dumpfiles_location) s = (Ok (), s').
Proof.
  intros Hmk.
  destruct (dumpfiles && truthy profile && truthy dumpfiles_location) eqn:Hdump.
  { unfold analyze_memory_dump. rewrite run_mbind. cbn [mkdir atomic run].
    rewrite Hmk, Hdump. apply dump_files_run. }
  assert (Hdet : ∃ detected s1,
    run (get_profile env self memorydump_path profile) s = (Ok detected, s1)).
  { unfold get_profile. destruct (negb _); [| by eexists _, _].
    destruct (detect_profile_run env self memorydump_path profile s)
      as (d & s1 & -> & _). by eexists _, _. }
  destruct Hdet as ([detected |] & s1 & Hdet).
  - destruct (load_config s1) as [[tasklist tasklist_help] | e] eqn:Hcfg.
    + destruct (analyze_memory_dump_dispatches s s1 detected tasklist tasklist_help
                  Hmk Hdump Hdet Hcfg) as (s' & -> & _). by eexists.
    + unfold analyze_memory_dump. rewrite run_mbind. cbn [mkdir atomic run].
      rewrite Hmk, Hdump, run_mbind, Hdet, run_mbind, read_config_run, Hcfg.
      by eexists.
  - unfold analyze_memory_dump. rewrite run_mbind. cbn [mkdir atomic run].
    rewrite Hmk, Hdump, run_mbind, Hdet. by eexists.
Qed.

End Pipeline.

Lemma main_returns (env : Env) (sched : list nat) (args : Args) (s s' : St) :
  run (analyze_memory_dump env sched
         {| volatility_path := arg_volatility_path args; timeout := arg_timeout args |}
         (arg_memorydump_path args) (arg_profile args) (arg_dumpfiles args)
         (arg_dumpfiles_location args)) s = (Ok (), s') →
  run (main env sched args) s = (0%Z, s').
Proof.
  intros Hrun. unfold main. rewrite run_bind, run_try_except, run_mbind, Hrun. done.
Qed.

Lemma main_exit_status (env : Env) (sched : list nat) (args : Args) (s : St) :
  (run (main env sched args) s).1 = exit_status env.
Proof.
  unfold exit_status. destruct (mkdir_error env) as [e |] eqn:Hmk.
  - unfold main. rewrite run_bind, run_try_except, run_mbind.
    rewrite (mkdir_failure_propagates _ _ _ _ _ _ _ _ e Hmk).
    destruct e; cbn [except_Exception is_Exception]; by rewrite run_mbind.
  - destruct (analyze_memory_dump_returns env sched
                {| volatility_path := arg_volatility_path args;
                   timeout := arg_timeout args |}
                (arg_memorydump_path args) (arg_profile args) (arg_dumpfiles args)
                (arg_dumpfiles_location args) s Hmk) as [s' Hrun].
    by rewrite (main_returns _ _ _ _ _ Hrun).
Qed.

Lemma split_nonempty (sep : N) (s : pystr) : ∃ p ps, Str.split sep s = p :: ps.
Proof.
  induction s as [| c s (p & ps & IH)]; simpl; [by eexists _, _ |].
  destruct (c =? sep); [by eexists _, _ |]. rewrite IH. by eexists _, _.
Qed.

Lemma names_always_parse (config_lines : list pystr) :
  ∃ tasklist,
    comprehension (λ line, PyList.get (Str.split 45 line) 0) config_lines
    = Ok tasklist.
Proof.
  induction config_lines as [| line lines [tl IH]]; simpl; [by eexists |].
  destruct (split_nonempty 45 line) as (p & ps & ->).
  unfold mbind, result_bind. cbn. rewrite IH. by eexists.
Qed.

Lemma help_texts_need_separator (config_lines : list pystr) (line : pystr) :
  line ∈ config_lines → 45 ∉ line →
  comprehension (λ line, PyList.get (Str.split 45 line) 1) config_lines
  = Raise IndexError.
Proof.
  intros Hin Hline. induction config_lines as [| x lines IH];
    [by apply elem_of_nil in Hin |].
  simpl. unfold mbind, result_bind.
  apply elem_of_cons in Hin as [<- | Hin].
  - by rewrite split_without.
  - rewrite (IH Hin). unfold PyList.get. by destruct (Str.split 45 x !! 1%nat).
Qed.

(** A line without the separator makes the configuration fail to load. *)
Lemma parse_config_malformed (config_lines : list pystr) (line : pystr) :
  line ∈ config_lines → 45 ∉ line → parse_config config_lines = Raise IndexError.
Proof.
  intros Hin Hline. unfold parse_config.
  destruct (names_always_parse config_lines) as [tl ->].
  unfold mbind, result_bind. by rewrite (help_texts_need_separator _ line).
Qed.

(** C3, amended.  A configuration line without ['-'] makes the
    configuration fail to load; when the configuration cannot be loaded,
    the run stops there: the error is logged, no command of a task is
    run, nothing is written, and the process exits with status zero.
    The exit status depends on the creation of the output directory
    alone, so the failure of a task never changes it. *)
Theorem config_failure_aborts (env : Env) (sched : list nat) (args : Args)
    (s s1 : St) (detected : option pystr) (e : exn) :
  mkdir_error env = None →
  arg_dumpfiles args && truthy (arg_profile args)
    && truthy (arg_dumpfiles_location args) = false →
  run (get_profile env
         {| volatility_path := arg_volatility_path args; timeout := arg_timeout args |}
         (arg_memorydump_path args) (arg_profile args)) s
  = (Ok (Continue detected), s1) →
  load_config s1 = Raise e →
  (∀ config_lines line,
     line ∈ config_lines → 45 ∉ line → parse_config config_lines = Raise IndexError)
  ∧ run (main env sched args) s = (0%Z, add_log (ERROR, ConfigFailed e) s1)
  ∧ ∀ env' sched' s', (run (main env' sched' args) s').1 = exit_status env'.
Proof.
  intros Hmk Hdump Hdet Hcfg. split; [apply parse_config_malformed |].
  split; [| intros; apply main_exit_status].
  apply main_returns. unfold analyze_memory_dump.
  rewrite run_mbind. cbn [mkdir atomic run].
  by rewrite Hmk, Hdump, run_mbind, Hdet, run_mbind, read_config_run, Hcfg.
Qed.

Lemma config_failure_aborts_witness :
  (∀ config_lines line,
     line ∈ config_lines → 45 ∉ line → parse_config config_lines = Raise IndexError)
  ∧ run (main scenario_env [] scenario_args) (boot malformed_config)
    = (0%Z, add_log (ERROR, ConfigFailed IndexError) (boot malformed_config))
  ∧ ∀ env' sched' s',
      (run (main env' sched' scenario_args) s').1 = exit_status env'.
Proof.
  apply (config_failure_aborts scenario_env [] scenario_args (boot malformed_config)
           (boot malformed_config) (Some (py "Win10x64_19041")) IndexError);
    vm_compute; reflexivity.
Defined.

(** C3 as it is stated fails: with a malformed configuration the process
    exits with status zero. *)
Lemma bad_config_exits_zero :
  load_config (boot malformed_config) = Raise IndexError
  ∧ ¬ exits_nonzero_on_bad_config scenario_env [] scenario_args
        (boot malformed_config).
Proof.
  split; [by vm_compute |]. intros H. apply H; by vm_compute.
Qed.

(** With the files a run can work on, every task is run and the report is
    written. *)
Lemma main_dispatches (env : Env) (sched : list nat) (args : Args)
    (s s1 : St) (detected : option pystr) (tasklist tasklist_help : list pystr)
    (task_name : pystr) (command : list pystr) :
  mkdir_error env = None →
  arg_dumpfiles args && truthy (arg_profile args)
    && truthy (arg_dumpfiles_location args) = false →
  run (get_profile env
         {| volatility_path := arg_volatility_path args; timeout := arg_timeout args |}
         (arg_memorydump_path args) (arg_profile args)) s
  = (Ok (Continue detected), s1) →
  load_config s1 = Ok (tasklist, tasklist_help) →
  (task_name, command)
  ∈ Dict.items (build_tasks (arg_memorydump_path args) detected tasklist) →
  writable env (Path.div (Path.div (Path.dirname (arg_memorydump_path args))
                            (py "output")) (py "summary.md")) = true →
  (run (main env sched args) s).1 = 0%Z
  ∧ [arg_volatility_path args] ++ command ∈ invoked (run (main env sched args) s).2
  ∧ is_Some (files (run (main env sched args) s).2
             !! Path.div (Path.div (Path.dirname (arg_memorydump_path args))
                            (py "output")) (py "summary.md")).
Proof.
  intros Hmk Hdump Hdet Hcfg Hin Hw.
  destruct (analyze_memory_dump_dispatches env sched _ _ _ _ _ s s1 detected
              tasklist tasklist_help Hmk Hdump Hdet Hcfg) as (s' & Hrun & Hinv & Hfiles).
  rewrite (main_returns _ _ _ _ _ Hrun). cbn [fst snd]. split; [done |]. split.
  - rewrite Hinv. by eapply (execute_tasks_invokes env sched
      {| volatility_path := arg_volatility_path args; timeout := arg_timeout args |}).
  - rewrite Hfiles. unfold write_files. rewrite Hw.
    destruct (Codec.utf8_encode _); rewrite lookup_insert_eq; eauto.
Qed.

(** C2 fails on the code.  Without a profile on the command line and
    without the marker in the output of [imageinfo], the run goes on
    under every schedule: the tasks are run with the profile [None] and
    the report is written. *)
Theorem undetected_profile_runs_tasks (sched : list nat) :
  suggested_profile
    (Str.split 10 (py "Determining profile based on KDBG search...
No suggestion
")) = Ok None
  ∧ (run (main scenario sched no_profile_args) (boot first_files)).1 = 0%Z
  ∧ pslist_command (py "None")
    ∈ invoked (run (main scenario sched no_profile_args) (boot first_files)).2
  ∧ is_Some (files (run (main scenario sched no_profile_args) (boot first_files)).2
             !! py "/data/output/summary.md").
Proof.
  split; [by vm_compute |].
  eapply (main_dispatches scenario sched no_profile_args (boot first_files)
            _ None
            [py "pslist"; py "netscan"]
            [py "Process list" ++ nl; py "Network scan" ++ nl] (py "pslist")
            [py "--profile=" ++ py "None"; py "-f"; py "/data/mem.img";
             py "pslist"]); try (vm_compute; reflexivity).
  vm_compute. left.
Qed.

(** ** Output that is not valid UTF-8, and files that are not *)

Lemma utf8_from_strict_ignore (bs : bytes) :
  ∀ st t, Codec.utf8_from Codec.strict st bs = Ok t →
          Codec.utf8_from Codec.ignore st bs = Ok t.
Proof.
  induction bs as [| b bs IH]; intros st t; simpl.
  - by destruct st.
  - assert (Hfresh : ∀ t',
      match Codec.utf8_lead (Byte.to_N b) with
      | Codec.LChar c => result_map (cons c) (Codec.utf8_from Codec.strict Codec.Start bs)
      | Codec.LBegin st' => Codec.utf8_from Codec.strict st' bs
      | Codec.LInvalid => Raise UnicodeDecodeError
      end = Ok t' →
      match Codec.utf8_lead (Byte.to_N b) with
      | Codec.LChar c => result_map (cons c) (Codec.utf8_from Codec.ignore Codec.Start bs)
      | Codec.LBegin st' => Codec.utf8_from Codec.ignore st' bs
      | Codec.LInvalid => Codec.utf8_from Codec.ignore Codec.Start bs
      end = Ok t').
    { intros t'. destruct (Codec.utf8_lead _) as [c | st' |]; [| apply IH | done].
      intros (x & Hx & ->)%result_map_Ok. by rewrite (IH _ _ Hx). }
    destruct st as [| cp more lo hi]; [apply Hfresh |].
    destruct (_ && _); [| done]. destruct more; [| apply IH].
    intros (x & Hx & ->)%result_map_Ok. by rewrite (IH _ _ Hx).
Qed.

(** X15.  The output of a task that ends in time is decoded as UTF-8
    with the bytes that are not valid left out: the decoding returns for
    every output, so the ISO-8859-1 branch is never taken, and it gives
    the text itself when the output is valid UTF-8.  The task returns
    without raising; its outcome is [EmptyOutput] when no text is left,
    [Success] with the text saved when some is left and the file is
    written, and an [ExecutionError] only when the file cannot be opened
    or the write fails. *)
Theorem invalid_bytes_are_dropped (env : Env) (self : VolatilityAnalyzer)
    (command : list pystr) (task_name output_path : pystr)
    (tasks : Dict.t (list pystr)) (s : St) (seconds : Z) (stdout : bytes) :
  tool env command = Runs seconds stdout →
  (timeout self ≤ timeout_max env)%Z →
  (seconds ≤ timeout self)%Z →
  ∃ text : pystr,
    Codec.utf8_decode Codec.ignore stdout = Ok text
    ∧ (∀ t, Codec.utf8_decode Codec.strict stdout = Ok t → text = t)
    ∧ task_outcome env self command (task_file output_path task_name)
      = (if bool_decide (text = []) then EmptyOutput
         else if writable env (task_file output_path task_name) then
           match write_error env (task_file output_path task_name)
                   (stored env text) with
           | None => Success text
           | Some _ => ExecutionError OSError
           end
         else ExecutionError OSError)
    ∧ ∃ s' : St,
        run (run_command env self command task_name output_path tasks) s = (Ok (), s')
        ∧ files s'
          = if bool_decide (text ≠ []) && writable env (task_file output_path task_name)
            then <[task_file output_path task_name
                   := leaves env (task_file output_path task_name) (stored env text)]>
                   (files s)
            else files s.
Proof.
  intros Htool Hmax Htime.
  destruct (utf8_decode_ignore_total stdout) as [text Hdec].
  assert (Ho : task_outcome env self command (task_file output_path task_name)
               = (if bool_decide (text = []) then EmptyOutput
                  else if writable env (task_file output_path task_name) then
                    match write_error env (task_file output_path task_name)
                            (stored env text) with
                    | None => Success text
                    | Some _ => ExecutionError OSError
                    end
                  else ExecutionError OSError)).
  { unfold task_outcome. rewrite Htool, Hdec.
    rewrite !(proj2 (Z.ltb_ge _ _)) by done. by destruct text. }
  exists text. split; [done |]. split.
  - intros t Ht. apply utf8_from_strict_ignore in Ht.
    unfold Codec.utf8_decode in Hdec. congruence.
  - split; [done |]. eexists. split; [apply run_command_settles |].
    assert (Hfiles : files (settled env self command task_name output_path s)
                     = task_files env self command
                         (task_file output_path task_name) (files s)).
    { unfold settled. by destruct (task_outcome _ _ _ _). }
    rewrite Hfiles. unfold task_files, task_write. rewrite Htool, Hdec.
    rewrite !(proj2 (Z.ltb_ge _ _)) by done.
    destruct text as [| c text]; [done |].
    rewrite bool_decide_true by done.
    by destruct (writable env _).
Qed.

Lemma invalid_bytes_are_dropped_witness :
  ∃ text : pystr,
    Codec.utf8_decode Codec.ignore [Byte.x61; Byte.xff; Byte.x62] = Ok text
    ∧ (∀ t, Codec.utf8_decode Codec.strict [Byte.x61; Byte.xff; Byte.x62] = Ok t
            → text = t)
    ∧ task_outcome partly_garbled two_minutes [py "vol.exe"; py "pslist"]
        (task_file (py "output") (py "pslist"))
      = (if bool_decide (text = []) then EmptyOutput
         else if writable partly_garbled (task_file (py "output") (py "pslist")) then
           match write_error partly_garbled (task_file (py "output") (py "pslist"))
                   (stored partly_garbled text) with
           | None => Success text
           | Some _ => ExecutionError OSError
           end
         else ExecutionError OSError)
    ∧ ∃ s' : St,
        run (run_command partly_garbled two_minutes [py "vol.exe"; py "pslist"]
               (py "pslist") (py "output") []) (boot ∅) = (Ok (), s')
        ∧ files s'
          = if bool_decide (text ≠ [])
               && writable partly_garbled (task_file (py "output") (py "pslist"))
            then <[task_file (py "output") (py "pslist")
                   := leaves partly_garbled (task_file (py "output") (py "pslist"))
                        (stored partly_garbled text)]> (files (boot ∅))
            else files (boot ∅).
Proof.
  apply (invalid_bytes_are_dropped partly_garbled two_minutes
           [py "vol.exe"; py "pslist"] (py "pslist") (py "output") [] (boot ∅) 1
           [Byte.x61; Byte.xff; Byte.x62]).
  - reflexivity.
  - vm_compute. discriminate.
  - vm_compute. discriminate.
Defined.

(** C6 fails on the code.  The output of the task is the one byte
    [0xFF], which is not valid UTF-8.  Decoding with [errors="ignore"]
    does not raise, so the ISO-8859-1 branch, which would give the text
    ["ÿ"], is not taken: the text is empty, the task counts as one
    without output, and nothing is saved. *)
Theorem only_invalid_bytes_is_empty_output :
  let s' := (run (run_command garbled two_minutes [py "vol.exe"; py "pslist"]
                    (py "pslist") (py "output") []) (boot ∅)).2 in
  Codec.utf8_decode Codec.strict [Byte.xff] = Raise UnicodeDecodeError
  ∧ Codec.utf8_decode Codec.ignore [Byte.xff] = Ok []
  ∧ Codec.latin1_decode [Byte.xff] = Ok [255]
  ∧ task_outcome garbled two_minutes [py "vol.exe"; py "pslist"]
      (task_file (py "output") (py "pslist")) = EmptyOutput
  ∧ files s' !! task_file (py "output") (py "pslist") = None
  ∧ log s' = [(WARNING, TaskNoOutput (py "pslist"))]
  ∧ ¬ invalid_utf8_succeeds garbled two_minutes [py "vol.exe"; py "pslist"]
        (py "pslist") (py "output") (boot ∅).
Proof.
  intros s'.
  assert (Hnone : files s' !! task_file (py "output") (py "pslist") = None)
    by (subst s'; rewrite run_command_settles; by vm_compute).
  split; [by vm_compute |]. split; [by vm_compute |]. split; [by vm_compute |].
  split; [by vm_compute |]. split; [done |].
  split; [subst s'; rewrite run_command_settles; by vm_compute |].
  intros H.
  destruct (H 1%Z [Byte.xff]) as (text & _ & Hfile);
    [done | by vm_compute | by vm_compute |].
  subst s'. rewrite Hnone in Hfile. discriminate.
Qed.

(** C8 fails on the code.  The file of [pslist] cannot be decoded: the
    error is logged and the loop goes on, but the heading of [pslist] was
    appended before the file was read and stays in the report, followed
    at once by the section of [netscan]. *)
Theorem unreadable_file_leaves_heading :
  let tasks := build_tasks (py "/data/mem.img") (Some (py "Win10x64_19041"))
                 [py "pslist"; py "netscan"] in
  let r := run (lm_run (lm_for (Dict.keys tasks)
                  (markdown_section scenario (py "/data/output")
                     [py "pslist"; py "netscan"]
                     [py "Process list" ++ nl; py "Network scan" ++ nl]
                     task_filescanlist task_filescanlist_help)))
             (boot torn_files) in
  read_file (boot torn_files) (task_file (py "/data/output") (py "pslist"))
  = Raise UnicodeDecodeError
  ∧ log r.2 = [(ERROR, SectionFailed (py "pslist") UnicodeDecodeError)]
  ∧ ∃ rest : list pystr,
      r.1 = Ok ((py "# pslist" ++ nl ++ py "## Process list" ++ nl)
                :: (py "# netscan" ++ nl ++ py "## Network scan" ++ nl)
                :: (py "*暂无数据*" ++ nl)
                :: rest).
Proof.
  split; [by vm_compute |]. split; [by vm_compute |].
  eexists. vm_compute. reflexivity.
Qed.

(** ** What the tasks leave in the output directory *)

Section Stability.

Context {A : Type} (Q : St → Prop).

Lemma stable_step (p : prog A) (s : St) :
  stable Q p → stable Q (step p s).1 ∧ (Q s → Q (step p s).2).
Proof.
  intros [a | X act k Hact Hk]; simpl.
  - split; [constructor | done].
  - specialize (Hact s). specialize (Hk s). by destruct (act s).
Qed.

Lemma stable_run (p : prog A) :
  stable Q p → ∀ s, Q s → Q (run p s).2.
Proof.
  induction 1 as [a | X act k Hact _ IH]; intros s Hs; simpl; [done |].
  specialize (Hact s Hs). specialize (IH s). destruct (act s) as [x s'].
  by apply IH.
Qed.

Lemma ensures_run (p : prog A) :
  ensures Q p → stable Q p → ∀ s, Q (run p s).2.
Proof.
  induction 1 as [X act k Hnow | X act k _ IH]; intros Hstable s.
  - pose proof (stable_step _ s Hstable) as [Hk _]. specialize (Hnow s).
    simpl in *. destruct (act s) as [x s']. by apply stable_run.
  - pose proof (stable_step _ s Hstable) as [Hk _]. specialize (IH s).
    simpl in *. destruct (act s) as [x s']. by apply IH.
Qed.

Lemma ensures_step (p : prog A) (s : St) :
  ensures Q p → Q (step p s).2 ∨ ensures Q (step p s).1.
Proof.
  intros [X act k Hnow | X act k Hlater]; simpl.
  - specialize (Hnow s). destruct (act s). by left.
  - specialize (Hlater s). destruct (act s). by right.
Qed.

Lemma wait_ensures (ps : list (prog A)) :
  Forall (stable Q) ps → ∀ s,
  Q s ∨ (∃ p, p ∈ ps ∧ ensures Q p) →
  Q (foldl (λ s p, (run p s).2) s ps).
Proof.
  induction 1 as [| p ps Hp _ IH]; intros s Hs; simpl.
  - destruct Hs as [Hs | (p & Hin & _)]; [done | by apply elem_of_nil in Hin].
  - apply IH. destruct Hs as [Hs | (p' & Hin & Hens)].
    + left. by apply stable_run.
    + apply elem_of_cons in Hin as [-> | Hin]; [| by eauto].
      left. by apply ensures_run.
Qed.

(** Under every schedule, what one thread ensures and no thread undoes
    holds when the pool is done. *)
Lemma pool_ensures (sched : list nat) :
  ∀ (ps : list (prog A)) (s : St),
    Forall (stable Q) ps →
    Q s ∨ (∃ p, p ∈ ps ∧ ensures Q p) →
    Q (pool sched ps s).
Proof.
  induction sched as [| i sched IH]; intros ps s Hps Hs; simpl.
  - by apply wait_ensures.
  - destruct (ps !! i) as [p |] eqn:Hp; [| by apply IH].
    pose proof (Forall_lookup_1 _ _ _ _ Hps Hp) as Hstable.
    destruct (stable_step p s Hstable) as [Hp' Hkeep].
    pose proof (ensures_step p s) as Hens.
    destruct (step p s) as [p' s']. simpl in *.
    apply IH; [by apply Forall_insert |].
    destruct Hs as [Hs | (q & Hin & Hq)]; [by left; apply Hkeep |].
    apply list_elem_of_lookup in Hin as [j Hj].
    destruct (decide (j = i)) as [-> | Hne].
    + assert (q = p) as -> by congruence.
      destruct (Hens Hq) as [? | Hp'']; [by left |].
      right. exists p'. split; [| done].
      apply list_elem_of_lookup. exists i. apply list_lookup_insert_eq.
      by eapply lookup_lt_Some.
    + right. exists q. split; [| done].
      apply list_elem_of_lookup. exists j. by rewrite list_lookup_insert_ne.
Qed.

End Stability.
Section Persistence.

Context (env : Env) (self : VolatilityAnalyzer) (output_path : pystr).
Context (path : pystr) (content : option bytes).

Lemma notify_stable (label : pystr) : stable (holds path content) (notify label).
Proof.
  unfold notify, mbind, M_bind. cbn [self_progress_manager atomic bind].
  constructor; [done |]. intros s. cbn [fst bind].
  destruct (bool_decide _); cbn [progress_update atomic mret M_ret bind];
    repeat constructor; done.
Qed.

Lemma notify_then_stable {A} (label : pystr) (k : result unit → prog A) :
  stable (holds path content) (k (Ok ())) →
  stable (holds path content) (bind (notify label) k).
Proof.
  intros Hk. unfold notify, mbind, M_bind. cbn [self_progress_manager atomic bind].
  constructor; [done |]. intros s. cbn [fst bind].
  destruct (bool_decide _); cbn [progress_update atomic mret M_ret bind]; [| done].
  constructor; done.
Qed.

Lemma report_stable lvl ev (label : pystr) :
  stable (holds path content) (logger lvl ev ≫= λ _, notify label).
Proof.
  unfold mbind, M_bind. cbn [logger atomic bind].
  constructor; [done |]. intros s. cbn [fst bind]. apply notify_stable.
Qed.

Lemma report_then_stable {A} lvl ev (label : pystr) (k : result unit → prog A) :
  stable (holds path content) (k (Ok ())) →
  stable (holds path content) (bind (logger lvl ev ≫= λ _, notify label) k).
Proof.
  intros Hk. unfold mbind, M_bind. cbn [logger atomic bind].
  constructor; [done |]. intros s. cbn [fst bind]. by apply notify_then_stable.
Qed.

(** A task that has text to save and can open its file leaves there
    what [task_write] says. *)
Lemma task_write_success (command : list pystr) (output_file : pystr)
    (text : pystr) :
  task_outcome env self command output_file = Success text →
  task_write env self command output_file = Some (stored env text).
Proof.
  unfold task_outcome, task_write, leaves.
  destruct (tool env command) as [seconds stdout |]; [| done].
  destruct (timeout_max env <? timeout self)%Z; [done |].
  destruct (timeout self <? seconds)%Z; [done |].
  destruct (Codec.utf8_decode Codec.ignore stdout) as [[| c t] |]; try done.
  destruct (writable env output_file); [| done].
  destruct (write_error env output_file _); [done |]. by intros [= <-].
Qed.

(** A task leaves the file at [path] as it is, unless [path] is its own
    file and it opens it. *)
Lemma run_command_stable (command : list pystr) (task_name : pystr)
    (tasks : Dict.t (list pystr)) :
  (∀ b, task_file output_path task_name = path →
        task_write env self command (task_file output_path task_name) = Some b →
        content = Some b) →
  stable (holds path content)
    (run_command env self command task_name output_path tasks).
Proof.
  intros Hown. unfold run_command, try_except, task_write, leaves in *.
  cbn [mbind M_bind bind subprocess_run atomic].
  constructor; [done |]. intros s. cbn [fst].
  destruct (tool env command) as [seconds stdout |].
  - destruct (timeout_max env <? timeout self)%Z;
      [cbn [bind except_Exception is_Exception]; apply report_stable |].
    destruct (timeout self <? seconds)%Z.
    + cbn [bind]. apply report_stable.
    + destruct (utf8_decode_ignore_total stdout) as [text Hdec].
      rewrite Hdec in *. cbn [bind lift]. unfold mbind, M_bind. cbn [bind].
      fold (task_file output_path task_name) in *.
      case_bool_decide as Htext.
      * cbn [write_text atomic bind]. constructor.
        -- intros s' Hs'. destruct (writable env _); [| done].
           rewrite (stored_encodes env stdout text Hdec). unfold holds in *.
           destruct text as [| c t]; [done |].
           destruct (decide (task_file output_path task_name = path)) as [Heq | Hne].
           ++ specialize (Hown _ Heq eq_refl). rewrite Hown.
              destruct (write_error env _ _); cbn [snd files set_files];
                rewrite Heq; apply lookup_insert_eq.
           ++ destruct (write_error env _ _); cbn [snd files set_files];
                by rewrite lookup_insert_ne.
        -- intros s'. destruct (writable env _).
           ++ rewrite (stored_encodes env stdout text Hdec).
              destruct (write_error env _ _).
              ** cbn [fst bind except_Exception is_Exception]. apply report_stable.
              ** cbn [fst bind]. apply notify_then_stable. constructor.
           ++ cbn [fst bind except_Exception is_Exception]. apply report_stable.
      * apply report_then_stable. constructor.
  - cbn [bind except_Exception is_Exception]. apply report_stable.
Qed.

Lemma run_command_ensures (command : list pystr) (task_name : pystr)
    (tasks : Dict.t (list pystr)) (b : bytes) :
  task_write env self command (task_file output_path task_name) = Some b →
  ensures (holds (task_file output_path task_name) (Some b))
    (run_command env self command task_name output_path tasks).
Proof.
  intros Ho. unfold run_command, try_except, task_write, leaves in *.
  cbn [mbind M_bind bind subprocess_run atomic].
  apply ensures_later. intros s. cbn [fst].
  destruct (tool env command) as [seconds stdout |]; [| done].
  destruct (timeout_max env <? timeout self)%Z; [done |].
  destruct (timeout self <? seconds)%Z; [done |].
  destruct (Codec.utf8_decode Codec.ignore stdout) as [[| c t] |] eqn:Hdec; try done.
  fold (task_file output_path task_name) in *.
  destruct (writable env (task_file output_path task_name)) eqn:Hw; [| done].
  injection Ho as <-.
  cbn [bind lift]. unfold mbind, M_bind. cbn [bind].
  rewrite bool_decide_true by done. cbn [write_text atomic bind].
  apply ensures_now. intros s'. fold (task_file output_path task_name).
  rewrite Hw, (stored_encodes env stdout (c :: t) Hdec).
  unfold holds.
  destruct (write_error env _ _); cbn [snd files set_files]; apply lookup_insert_eq.
Qed.

End Persistence.

(** Under every schedule the pool leaves the file of a task as the task
    leaves it, when no other task has the same file. *)
Lemma execute_tasks_persists (env : Env) (sched : list nat)
    (self : VolatilityAnalyzer) (output_path : pystr)
    (tasks : Dict.t (list pystr)) (s : St)
    (task_name : pystr) (command : list pystr) :
  (task_name, command) ∈ Dict.items tasks →
  (∀ name' command',
     (name', command') ∈ Dict.items tasks →
     task_file output_path name' = task_file output_path task_name →
     (name', command') = (task_name, command)) →
  files (run (execute_tasks env sched self output_path tasks) s).2
  !! task_file output_path task_name
  = match task_write env self ([volatility_path self] ++ command)
            (task_file output_path task_name) with
    | Some b => Some b
    | None => files s !! task_file output_path task_name
    end.
Proof.
  intros Hin Hunique. unfold execute_tasks. cbn [atomic run snd].
  set (content := match task_write _ _ _ _ with Some _ => _ | None => _ end).
  apply (pool_ensures (holds (task_file output_path task_name) content)).
  - apply Forall_fmap, Forall_forall. intros [name' command'] Hin'. cbn.
    apply (run_command_stable env self output_path _ _
             ([volatility_path self] ++ command') name' tasks).
    intros b Hfile Ho.
    specialize (Hunique name' command' Hin' Hfile). injection Hunique as -> ->.
    subst content. by rewrite Ho.
  - subst content.
    destruct (task_write _ _ _ _) as [b |] eqn:Ho; [| by left].
    right. eexists. split.
    + apply list_elem_of_fmap. exists (task_name, command). split; [done | done].
    + cbn. by apply (run_command_ensures env self output_path
                       ([volatility_path self] ++ command) task_name tasks).
Qed.



(** In the scenario, under a schedule that interleaves the workers, the
    output of [pslist] is in its file when the pool is done. *)
Example scenario_pslist_saved :
  files (run (execute_tasks scenario [3; 0; 1; 0; 6; 0]%nat two_minutes
                (py "/data/output")
                (build_tasks (py "/data/mem.img") (Some (py "Win10x64_19041"))
                   [py "pslist"; py "netscan"]))
           (boot first_files)).2
  !! task_file (py "/data/output") (py "pslist")
  = Some (stored scenario (py "PID 1 init")).
Proof. by vm_compute. Qed.

(** ** The second run *)

(** Under every schedule the pool leaves alone a file that is the file of
    no task. *)
Lemma execute_tasks_keeps (env : Env) (sched : list nat)
    (self : VolatilityAnalyzer) (output_path : pystr)
    (tasks : Dict.t (list pystr)) (s : St) (path : pystr) :
  (∀ name command,
     (name, command) ∈ Dict.items tasks → task_file output_path name ≠ path) →
  files (run (execute_tasks env sched self output_path tasks) s).2 !! path
  = files s !! path.
Proof.
  intros Hother. unfold execute_tasks. cbn [atomic run snd].
  apply (pool_ensures (holds path (files s !! path))); [| by left].
  apply Forall_fmap, Forall_forall. intros [name command] Hin. cbn.
  apply (run_command_stable env self output_path _ _
           ([volatility_path self] ++ command) name tasks).
  intros text Hfile. by destruct (Hother name command Hin).
Qed.

(** Whatever the schedule, the first run of the scenario leaves the
    configuration as it was and the output of [pslist] in its file. *)
Lemma first_run_files (sched : list nat) :
  files (run (main scenario sched scenario_args) (boot first_files)).2
  !! py "tasklist.cfg" = Some scenario_config
  ∧ files (run (main scenario sched scenario_args) (boot first_files)).2
    !! task_file (py "/data/output") (py "pslist")
    = Some (stored scenario (py "PID 1 init")).
Proof.
  destruct (analyze_memory_dump_dispatches scenario sched
              {| volatility_path := py "vol.exe"; timeout := 120 |}
              (py "/data/mem.img") (Some (py "Win10x64_19041")) false None
              (boot first_files) (boot first_files) (Some (py "Win10x64_19041"))
              [py "pslist"; py "netscan"]
              [py "Process list" ++ nl; py "Network scan" ++ nl])
    as (s' & Hrun & _ & Hfiles); [reflexivity | reflexivity | reflexivity
                                 | vm_compute; reflexivity |].
  rewrite (main_returns scenario sched scenario_args _ _ Hrun). cbn [snd].
  rewrite Hfiles. unfold write_files. cbn [writable scenario].
  change (Path.div (Path.dirname (py "/data/mem.img")) (py "output"))
    with (py "/data/output").
  set (s0 := set_progress_manager _ _).
  assert (Hs0 : files s0 = first_files) by done.
  split.
  - assert (Hcfg : files (run (execute_tasks scenario sched
                       {| volatility_path := py "vol.exe"; timeout := 120 |}
                       (py "/data/output")
                       (build_tasks (py "/data/mem.img")
                          (Some (py "Win10x64_19041")) [py "pslist"; py "netscan"]))
                     s0).2 !! py "tasklist.cfg" = Some scenario_config).
    { rewrite execute_tasks_keeps; [by rewrite Hs0 |].
      intros name command Hin. apply list_elem_of_In in Hin. vm_compute in Hin.
      repeat (destruct Hin as [Hin | Hin];
              [injection Hin as <- <-; vm_compute; discriminate |]).
      destruct Hin. }
    destruct (Codec.utf8_encode _); (rewrite lookup_insert_ne; [done |]);
      vm_compute; discriminate.
  - assert (Hps : files (run (execute_tasks scenario sched
                       {| volatility_path := py "vol.exe"; timeout := 120 |}
                       (py "/data/output")
                       (build_tasks (py "/data/mem.img")
                          (Some (py "Win10x64_19041")) [py "pslist"; py "netscan"]))
                     s0).2 !! task_file (py "/data/output") (py "pslist")
                  = Some (stored scenario (py "PID 1 init"))).
    { rewrite (execute_tasks_persists scenario sched _ _ _ s0 (py "pslist")
                 [py "--profile=" ++ py "Win10x64_19041"; py "-f";
                  py "/data/mem.img"; py "pslist"]).
      - vm_compute. reflexivity.
      - vm_compute. left.
      - intros name' arguments' Hin Hfile. apply list_elem_of_In in Hin.
        vm_compute in Hin.
        repeat (destruct Hin as [Hin | Hin];
                [injection Hin as <- <-;
                 first [reflexivity | vm_compute in Hfile; discriminate Hfile] |]).
        destruct Hin. }
    destruct (Codec.utf8_encode _); (rewrite lookup_insert_ne; [done |]);
      vm_compute; discriminate.
Qed.

Lemma load_config_files (s s' : St) :
  files s !! py "tasklist.cfg" = files s' !! py "tasklist.cfg" →
  load_config s = load_config s'.
Proof. intros H. unfold load_config, read_file. by rewrite H. Qed.

(** C1 fails on the code.  Whatever the schedules of the two runs of the
    scenario, the first run leaves the output of [pslist] in its file and
    [get_remaining_tasks] would leave [pslist] out, yet the second run
    runs the command of [pslist] again: [analyze_memory_dump] submits
    every item of [tasks] and never calls [get_remaining_tasks]. *)
Theorem second_run_repeats_completed_task (sched1 sched2 : list nat) :
  let tasks := build_tasks (py "/data/mem.img") (Some (py "Win10x64_19041"))
                 [py "pslist"; py "netscan"] in
  let second := boot (files (run (main scenario sched1 scenario_args)
                               (boot first_files)).2) in
  is_Some (files second !! task_file (py "/data/output") (py "pslist"))
  ∧ (∃ names,
       (run (get_remaining_tasks scenario (py "/data/output") tasks) second).1
       = Ok names
       ∧ py "pslist" ∉ names)
  ∧ pslist_command (py "Win10x64_19041")
    ∈ invoked (run (main scenario sched2 scenario_args) second).2.
Proof.
  intros tasks second.
  destruct (first_run_files sched1) as [Hcfg Hps].
  split; [by eexists |]. split.
  - eexists. unfold get_remaining_tasks.
    rewrite remaining_run by (by apply Forall_forall). split; [done |].
    rewrite list_elem_of_filter. intros [Hnone _].
    cbn [files boot second] in Hnone. by rewrite Hps in Hnone.
  - eapply (main_dispatches scenario sched2 scenario_args second second
              (Some (py "Win10x64_19041")) [py "pslist"; py "netscan"]
              [py "Process list" ++ nl; py "Network scan" ++ nl] (py "pslist")
              [py "--profile=" ++ py "Win10x64_19041"; py "-f"; py "/data/mem.img";
               py "pslist"]).
    + reflexivity.
    + reflexivity.
    + reflexivity.
    + rewrite (load_config_files second (boot first_files));
        [by vm_compute | subst second; cbn [files boot]; by rewrite Hcfg].
    + vm_compute. left.
    + reflexivity.
Qed.

(** * Further properties *)

(** ** How often the tasks are run *)

Section Counting.

Local Open Scope nat_scope.

Lemma run_command_one_call (env : Env) (self : VolatilityAnalyzer)
    (command : list pystr) (task_name output_path : pystr)
    (tasks : Dict.t (list pystr)) :
  tracks (λ _, True) (λ s, length (invoked s)) 1
    (run_command env self command task_name output_path tasks).
Proof.
  pose proof (run_command_tracks (λ _, True) (λ s, length (invoked s)) (λ _, 1) 0)
    as H.
  simpl in H. apply H; try done.
  intros c s _. split; [done |]. cbn [invoked add_invoked]. rewrite length_app.
  simpl. lia.
Qed.

Lemma sum_list_indicator {A} (P : A → Prop) `{∀ x, Decision (P x)} (l : list A) :
  sum_list ((λ x, if decide (P x) then 1 else 0) <$> l) = length (filter P l).
Proof.
  induction l as [| x l IH]; [done |].
  rewrite fmap_cons, filter_cons. cbn [sum_list]. rewrite IH.
  by destruct (decide (P x)).
Qed.

(** X1.  Under every schedule the pool gives every item of [tasks] to
    [subprocess.run] exactly once: a command line is run as often as
    there are tasks with that command line, and the number of calls grows
    by the number of tasks. *)
Theorem every_task_runs_once (env : Env) (sched : list nat)
    (self : VolatilityAnalyzer) (output_path : pystr)
    (tasks : Dict.t (list pystr)) (s : St) (c : list pystr) :
  invocations c (run (execute_tasks env sched self output_path tasks) s).2
  = invocations c s
    + length (filter (λ item, [volatility_path self] ++ item.2 = c)
                (Dict.items tasks))
  ∧ length (invoked (run (execute_tasks env sched self output_path tasks) s).2)
    = length (invoked s) + length (Dict.items tasks).
Proof.
  unfold execute_tasks. cbn [atomic run snd].
  set (futures := _ <$> Dict.items tasks). split.
  - destruct (pool_tracks (λ _, True) (invocations c) sched
                ((λ item, if decide ([volatility_path self] ++ item.2 = c)
                          then 1 else 0) <$> Dict.items tasks) futures s)
      as [_ ->]; [| done |].
    + subst futures. apply Forall2_fmap, Forall_Forall2_diag, Forall_forall.
      intros [name arguments] _. apply run_command_invokes.
    + by rewrite (sum_list_indicator
                    (λ item, [volatility_path self] ++ item.2 = c)).
  - destruct (pool_tracks (λ _, True) (λ s, length (invoked s)) sched
                ((λ _, 1) <$> Dict.items tasks) futures s) as [_ ->]; [| done |].
    + subst futures. apply Forall2_fmap, Forall_Forall2_diag, Forall_forall.
      intros [name arguments] _. apply run_command_one_call.
    + by rewrite sum_list_ones.
Qed.

End Counting.

(** ** The names of the tasks *)

Lemma first_occurrences_elem_of (x : pystr) (l : list pystr) :
  x ∈ first_occurrences l ↔ x ∈ l.
Proof.
  split; [apply elem_of_first_occurrences |].
  induction l as [| y l IH]; [done |]. simpl.
  rewrite !elem_of_cons, list_elem_of_filter.
  destruct (decide (x = y)) as [-> | Hne]; [by left |].
  intros [? | Hin]; [done |]. right. split; [done | by apply IH].
Qed.

Lemma first_occurrences_NoDup (l : list pystr) : NoDup (first_occurrences l).
Proof.
  induction l as [| x l IH]; simpl; [constructor |].
  constructor; [| by apply NoDup_filter].
  rewrite list_elem_of_filter. by intros [? _].
Qed.

Lemma first_occurrences_app (l1 l2 : list pystr) :
  first_occurrences (l1 ++ l2)
  = first_occurrences l1 ++ filter (λ k, k ∉ l1) (first_occurrences l2).
Proof.
  induction l1 as [| x l1 IH]; simpl.
  - symmetry. apply filter_all, Forall_forall. intros; apply not_elem_of_nil.
  - f_equal. rewrite IH, filter_app. f_equal.
    rewrite list_filter_filter. apply list_filter_iff. intros k.
    rewrite not_elem_of_cons. tauto.
Qed.

Lemma filter_full {A} (P : A → Prop) `{∀ x, Decision (P x)} (l : list A) :
  length (filter P l) = length l → Forall P l.
Proof.
  induction l as [| x l IH]; [constructor |].
  rewrite filter_cons. pose proof (length_filter P l) as Hle.
  destruct (decide (P x)); simpl; intros Hlen; [| lia].
  constructor; [done |]. apply IH. lia.
Qed.

Lemma length_first_occurrences (l : list pystr) :
  (length (first_occurrences l) ≤ length l)%nat
  ∧ (length (first_occurrences l) = length l ↔ NoDup l).
Proof.
  induction l as [| x l [IHle IHeq]]; simpl.
  - split; [done |]. split; [constructor | done].
  - pose proof (length_filter (λ y, y ≠ x) (first_occurrences l)) as Hle.
    split; [lia |]. rewrite NoDup_cons. split.
    + intros Hlen. assert (Hfull : length (filter (λ y, y ≠ x) (first_occurrences l))
                                 = length (first_occurrences l)) by lia.
      split; [| apply IHeq; lia].
      intros Hin. apply first_occurrences_elem_of in Hin.
      apply filter_full in Hfull.
      by apply (proj1 (Forall_forall _ _) Hfull x Hin).
    + intros [Hx Hl]. apply IHeq in Hl.
      rewrite filter_all; [lia |].
      apply Forall_forall. intros y Hy%elem_of_first_occurrences Hyx.
      subst. by apply Hx.
Qed.

(** The keys of [tasks], whatever the configuration. *)
Lemma keys_build_tasks_all (memorydump_path : pystr) (profile : option pystr)
    (tasklist : list pystr) :
  Dict.keys (build_tasks memorydump_path profile tasklist)
  = first_occurrences (tasklist ++ (filescan_name <$> task_filescanlist)).
Proof.
  unfold build_tasks.
  rewrite (keys_foldl_set filescan_name), (keys_foldl_set id).
  cbn [Dict.keys fmap list_fmap app]. rewrite list_fmap_id.
  rewrite (filter_all (λ k, k ∉ []))
    by (apply Forall_forall; intros; apply not_elem_of_nil).
  rewrite first_occurrences_app. f_equal. apply list_filter_iff. intros k.
  by rewrite first_occurrences_elem_of.
Qed.

(** X2.  The names of the tasks are pairwise distinct; they are the names
    of the configuration and the names of the filter tasks; and there are
    as many tasks as configured names and filter terms together exactly
    when those names are distinct from one another, fewer otherwise. *)
Theorem task_names_are_unique (memorydump_path : pystr) (profile : option pystr)
    (tasklist : list pystr) :
  let tasks := build_tasks memorydump_path profile tasklist in
  NoDup (Dict.keys tasks)
  ∧ (∀ name, name ∈ Dict.keys tasks ↔
       name ∈ tasklist ∨ name ∈ filescan_name <$> task_filescanlist)
  ∧ (length (Dict.keys tasks) ≤ length tasklist + length task_filescanlist)%nat
  ∧ (length (Dict.keys tasks) = (length tasklist + length task_filescanlist)%nat
     ↔ NoDup (tasklist ++ (filescan_name <$> task_filescanlist))).
Proof.
  intros tasks. subst tasks. rewrite keys_build_tasks_all.
  pose proof (length_first_occurrences
                (tasklist ++ (filescan_name <$> task_filescanlist))) as [Hle Heq].
  rewrite length_app, length_fmap in Hle, Heq.
  split; [apply first_occurrences_NoDup |]. split; [| done].
  intros name. by rewrite first_occurrences_elem_of, elem_of_app.
Qed.

(** ** The progress bar *)

Section ProgressBar.

Local Open Scope nat_scope.

Lemma run_command_keeps_progress (all : nat) (env : Env) (self : VolatilityAnalyzer)
    (command : list pystr) (task_name output_path : pystr)
    (tasks : Dict.t (list pystr)) :
  tracks (progress_in_step all) counter 1
    (run_command env self command task_name output_path tasks).
Proof.
  apply (run_command_tracks (progress_in_step all) counter (λ _, 0) 1); try done.
  - intros label s (pm & Hpm & Htotal & Hbar & Hopen).
    unfold progress_in_step, counter. cbn [progress_manager set_progress_manager].
    rewrite Hpm. cbn. split; [| lia].
    eexists. split; [done |]. cbn. by rewrite Hbar.
  - intros s (pm & Hpm & _) Hnone. congruence.
Qed.

Context (env : Env) (sched : list nat) (self : VolatilityAnalyzer).
Context (memorydump_path : pystr) (profile : option pystr) (dumpfiles : bool).
Context (dumpfiles_location : option pystr).

(** When the run gets to the pool, it ends with the progress manager
    closed and its counter at the number of tasks. *)
Lemma analyze_memory_dump_progress (s s1 : St) (detected : option pystr)
    (tasklist tasklist_help : list pystr) :
  mkdir_error env = None →
  dumpfiles && truthy profile && truthy dumpfiles_location = false →
  run (get_profile env self memorydump_path profile) s
  = (Ok (Continue detected), s1) →
  load_config s1 = Ok (tasklist, tasklist_help) →
  ∃ pm : ProgressManager,
    progress_manager
      (run (analyze_memory_dump env sched self memorydump_path profile dumpfiles
              dumpfiles_location) s).2 = Some pm
    ∧ total pm = length tasklist + length task_filescanlist
    ∧ completed_tasks pm
      = length (Dict.items (build_tasks memorydump_path detected tasklist))
    ∧ bar_n pm = completed_tasks pm
    ∧ bar_closed pm = true.
Proof.
  intros Hmk Hdump Hdet Hcfg.
  unfold analyze_memory_dump. rewrite run_mbind. cbn [mkdir atomic run].
  rewrite Hmk, Hdump, run_mbind, Hdet, run_mbind, read_config_run, Hcfg.
  rewrite run_mbind. cbn [logger atomic run].
  rewrite run_mbind. cbn [set_self_progress_manager atomic run].
  set (all := length tasklist + length task_filescanlist).
  set (tasks := build_tasks memorydump_path detected tasklist).
  set (output_path := Path.div (Path.dirname memorydump_path) (py "output")).
  rewrite run_mbind. cbn [execute_tasks atomic run snd].
  set (s0 := set_progress_manager _ _).
  destruct (pool_tracks (progress_in_step all) counter sched
              ((λ _, 1) <$> Dict.items tasks)
              ((λ '(task_name, command),
                  run_command env self ([volatility_path self] ++ command)
                    task_name output_path tasks) <$> Dict.items tasks) s0)
    as [(pm & Hpm & Htotal & Hbar & Hopen) Hcount].
  { apply Forall2_fmap, Forall_Forall2_diag, Forall_forall.
    intros [name command] _. apply run_command_keeps_progress. }
  { eexists. split; [done |]. done. }
  set (s2 := pool sched _ s0) in *.
  unfold counter in Hcount. rewrite Hpm, sum_list_ones in Hcount.
  cbn in Hcount.
  rewrite run_mbind. cbn [self_progress_manager atomic run].
  rewrite bool_decide_true by (rewrite Hpm; eauto).
  rewrite run_mbind. cbn [progress_close atomic run].
  do 3 (rewrite run_mbind; cbn [logger atomic run]).
  rewrite run_mbind.
  match goal with
  | |- context [run (generate_markdown _ _ _ _ _ _ _) ?st] =>
      destruct (generate_markdown_run env tasks output_path tasklist tasklist_help
                  task_filescanlist task_filescanlist_help st)
        as (s4 & -> & _ & Hpm4 & _)
  end.
  cbn [logger atomic run snd progress_manager add_log].
  rewrite Hpm4. cbn [progress_manager add_log set_progress_manager]. rewrite Hpm.
  eexists. split; [done |]. cbn. by rewrite Htotal, Hbar, Hcount.
Qed.

End ProgressBar.

(** X3.  When the run gets to the pool, it ends, under every schedule,
    with the progress manager closed, its bar and its counter both at the
    number of tasks; that number is at most the total the bar was made
    for, and equals it exactly when the configured names and the names of
    the filter tasks are pairwise distinct. *)
Theorem progress_counts_the_tasks (env : Env) (sched : list nat)
    (self : VolatilityAnalyzer) (memorydump_path : pystr)
    (profile : option pystr) (dumpfiles : bool)
    (dumpfiles_location : option pystr) (s s1 : St) (detected : option pystr)
    (tasklist tasklist_help : list pystr) :
  mkdir_error env = None →
  dumpfiles && truthy profile && truthy dumpfiles_location = false →
  run (get_profile env self memorydump_path profile) s
  = (Ok (Continue detected), s1) →
  load_config s1 = Ok (tasklist, tasklist_help) →
  ∃ pm : ProgressManager,
    progress_manager
      (run (analyze_memory_dump env sched self memorydump_path profile dumpfiles
              dumpfiles_location) s).2 = Some pm
    ∧ bar_closed pm = true
    ∧ bar_n pm = completed_tasks pm
    ∧ completed_tasks pm
      = length (Dict.keys (build_tasks memorydump_path detected tasklist))
    ∧ (completed_tasks pm ≤ total pm)%nat
    ∧ (completed_tasks pm = total pm
       ↔ NoDup (tasklist ++ (filescan_name <$> task_filescanlist))).
Proof.
  intros Hmk Hdump Hdet Hcfg.
  destruct (analyze_memory_dump_progress env sched self memorydump_path profile
              dumpfiles dumpfiles_location s s1 detected tasklist tasklist_help
              Hmk Hdump Hdet Hcfg) as (pm & Hpm & Htotal & Hdone & Hbar & Hclosed).
  pose proof (length_first_occurrences
                (tasklist ++ (filescan_name <$> task_filescanlist))) as [Hle Heq].
  rewrite length_app, length_fmap in Hle, Heq.
  assert (Hkeys : length (Dict.items (build_tasks memorydump_path detected tasklist))
                  = length (first_occurrences
                              (tasklist ++ (filescan_name <$> task_filescanlist)))).
  { rewrite <- (keys_build_tasks_all memorydump_path detected tasklist). unfold Dict.keys, Dict.items.
    by rewrite length_fmap. }
  exists pm. split; [done |]. split; [done |]. split; [done |].
  split; [unfold Dict.keys; rewrite length_fmap; exact Hdone |].
  rewrite Hdone, Htotal, Hkeys. by split.
Qed.

Lemma progress_counts_the_tasks_witness :
  ∃ pm : ProgressManager,
    progress_manager
      (run (analyze_memory_dump scenario [1; 0; 2; 0; 0]%nat two_minutes
              (py "/data/mem.img") (Some (py "Win10x64_19041")) false None)
         (boot first_files)).2 = Some pm
    ∧ bar_closed pm = true
    ∧ bar_n pm = completed_tasks pm
    ∧ completed_tasks pm
      = length (Dict.keys (build_tasks (py "/data/mem.img")
                             (Some (py "Win10x64_19041"))
                             [py "pslist"; py "netscan"]))
    ∧ (completed_tasks pm ≤ total pm)%nat
    ∧ (completed_tasks pm = total pm
       ↔ NoDup ([py "pslist"; py "netscan"]
                ++ (filescan_name <$> task_filescanlist))).
Proof.
  apply (progress_counts_the_tasks scenario [1; 0; 2; 0; 0]%nat two_minutes
           (py "/data/mem.img") (Some (py "Win10x64_19041")) false None
           (boot first_files) (boot first_files) (Some (py "Win10x64_19041"))
           [py "pslist"; py "netscan"]
           [py "Process list" ++ nl; py "Network scan" ++ nl]).
  - reflexivity.
  - reflexivity.
  - reflexivity.
  - vm_compute. reflexivity.
Defined.

(** ** The paths of the output directory *)

Lemma join_snoc (sep : pystr) (ps : list pystr) (x : pystr) :
  Str.join sep (ps ++ [x]) = (ps ≫= λ p, p ++ sep) ++ x.
Proof.
  induction ps as [| p ps IH]; [done |].
  rewrite bind_cons, <- !app_assoc, <- IH. cbn [app Str.join].
  by destruct (ps ++ [x]) eqn:E; [destruct ps |].
Qed.

Lemma render_snoc (root : pystr) (ps : list pystr) (x : pystr) :
  Path.render root (ps ++ [x]) = root ++ (ps ≫= λ p, p ++ [47]) ++ x.
Proof.
  unfold Path.render. rewrite join_snoc.
  destruct root; [| done]. by destruct (ps ++ [x]) eqn:E; [destruct ps |].
Qed.

(** The last piece of a text that ends in [b] ends in [b], when [b] has
    no separator. *)
Lemma split_snoc (sep : N) (a b : pystr) :
  sep ∉ b →
  ∃ (ps : list pystr) (p : pystr), Str.split sep (a ++ b) = ps ++ [p ++ b].
Proof.
  intros Hb. induction a as [| c a (ps & p & IH)]; cbn [app].
  - exists [], []. by apply split_without.
  - cbn [Str.split]. rewrite IH. destruct (c =? sep).
    + by exists ([] :: ps), p.
    + destruct ps as [| q ps]; cbn [app].
      * by exists [], (c :: p).
      * by exists ((c :: q) :: ps), p.
Qed.

Lemma parts_snoc (a b : pystr) :
  47 ∉ b → (2 ≤ length b)%nat →
  ∃ (ps : list pystr) (p : pystr), Path.parts (a ++ b) = ps ++ [p ++ b].
Proof.
  intros Hb Hlen. destruct (split_snoc 47 a b Hb) as (ps & p & Hsplit).
  exists (filter (λ piece, piece ≠ [] ∧ piece ≠ [46]) ps), p.
  unfold Path.parts. rewrite Hsplit, filter_app, filter_cons, filter_nil.
  rewrite decide_True; [done |].
  split; intros Heq; apply (f_equal length) in Heq;
    rewrite length_app in Heq; simpl in Heq; lia.
Qed.

(** A path ends as its last component does. *)
Lemma last_div (base a b : pystr) (c : N) :
  47 ∉ b → (2 ≤ length b)%nat → last b = Some c →
  last (Path.div base (a ++ b)) = Some c.
Proof.
  intros Hb Hlen Hc. destruct (parts_snoc a b Hb Hlen) as (ps & p & Hparts).
  unfold Path.div, Path.path. rewrite Hparts.
  destruct (Str.startswith [47] (a ++ b)).
  - by rewrite render_snoc, !last_app, Hc.
  - by rewrite app_assoc, render_snoc, !last_app, Hc.
Qed.

Lemma task_file_not_summary (output_path task_name : pystr) :
  task_file output_path task_name ≠ Path.div output_path (py "summary.md").
Proof.
  intros Heq. apply (f_equal last) in Heq. unfold task_file in Heq.
  rewrite (last_div _ task_name (py ".txt") 116) in Heq;
    [| | vm_compute; lia | by vm_compute].
  - rewrite (last_div _ [] (py "summary.md") 100) in Heq;
      [done | | vm_compute; lia | by vm_compute].
    apply (bool_decide_unpack _). by vm_compute.
  - apply (bool_decide_unpack _). by vm_compute.
Qed.

(** The file of a task whose name has no slash lies in the output
    directory under the name of the task. *)
Lemma task_file_plain (output_path task_name : pystr) :
  47 ∉ task_name →
  task_file output_path task_name
  = Path.root output_path ++ (Path.parts output_path ≫= λ p, p ++ [47])
    ++ task_name ++ py ".txt".
Proof.
  intros Hname. unfold task_file, Path.div.
  assert (Hchild : 47 ∉ task_name ++ py ".txt").
  { rewrite elem_of_app. intros [? | Hin]; [done |].
    revert Hin. apply (bool_decide_unpack _). by vm_compute. }
  assert (Hstart : Str.startswith [47] (task_name ++ py ".txt") = false).
  { destruct task_name as [| c t]; [by vm_compute |].
    cbn [app Str.startswith]. apply not_elem_of_cons in Hname as [Hc _].
    rewrite (proj2 (N.eqb_neq 47 c)) by done. done. }
  rewrite Hstart. unfold Path.parts. rewrite (split_without _ _ Hchild).
  rewrite filter_cons, filter_nil, decide_True; [by rewrite render_snoc |].
  assert (Hlen : length (py ".txt") = 4%nat) by reflexivity.
  split; intros Heq; apply (f_equal length) in Heq;
    rewrite length_app, Hlen in Heq; simpl in Heq; lia.
Qed.

Lemma task_file_inj (output_path name1 name2 : pystr) :
  47 ∉ name1 → 47 ∉ name2 →
  task_file output_path name1 = task_file output_path name2 → name1 = name2.
Proof.
  intros H1 H2. rewrite !task_file_plain by done.
  intros Heq. do 2 apply app_inv_head in Heq. by apply app_inv_tail in Heq.
Qed.

(** Tasks whose names are distinct and have no slash have distinct
    files. *)
Lemma task_files_distinct (output_path : pystr) (names : list pystr) :
  NoDup names → Forall (λ name, 47 ∉ name) names →
  NoDup (task_file output_path <$> names).
Proof.
  intros Hnodup Hplain. apply NoDup_fmap_2_strong; [| done].
  intros name1 name2 H1 H2.
  apply task_file_inj; by apply (proj1 (Forall_forall _ _) Hplain).
Qed.

Lemma filescan_names_plain :
  Forall (λ name, 47 ∉ name) (filescan_name <$> task_filescanlist).
Proof.
  apply Forall_forall. intros name Hin. revert name Hin.
  apply Forall_forall. repeat constructor; apply (bool_decide_unpack _); by vm_compute.
Qed.

Lemma build_tasks_files_distinct (output_path memorydump_path : pystr)
    (profile : option pystr) (tasklist : list pystr) :
  Forall (λ name, 47 ∉ name) tasklist →
  NoDup (task_file output_path
           <$> Dict.keys (build_tasks memorydump_path profile tasklist)).
Proof.
  intros Hplain. rewrite keys_build_tasks_all.
  apply task_files_distinct; [apply first_occurrences_NoDup |].
  apply Forall_forall.
  intros name [Hin | Hin]%first_occurrences_elem_of%elem_of_app.
  - by apply (proj1 (Forall_forall _ _) Hplain).
  - by apply (proj1 (Forall_forall _ _) filescan_names_plain).
Qed.

(** ** What a run leaves to do *)

Lemma NoDup_fmap_eq {A B} (g : A → B) (l : list A) (x y : A) :
  NoDup (g <$> l) → x ∈ l → y ∈ l → g x = g y → x = y.
Proof.
  induction l as [| z l IH]; [by intros _ ?%elem_of_nil |].
  rewrite fmap_cons, NoDup_cons.
  intros [Hz Hl] [-> | Hx]%elem_of_cons [-> | Hy]%elem_of_cons Hg; [done | | |].
  - destruct Hz. rewrite Hg. by apply list_elem_of_fmap_2.
  - destruct Hz. rewrite <- Hg. by apply list_elem_of_fmap_2.
  - by apply IH.
Qed.

Lemma task_files_of_items {V} (output_path : pystr) (tasks : Dict.t V) :
  task_file output_path <$> Dict.keys tasks
  = (λ item, task_file output_path item.1) <$> Dict.items tasks.
Proof. unfold Dict.keys, Dict.items. by rewrite <- list_fmap_compose. Qed.

(** Under every schedule the pool leaves, in every file, what the task
    of that file left there, and what was there when the file is of no
    task or its task did not open it. *)
Lemma execute_tasks_files (env : Env) (sched : list nat)
    (self : VolatilityAnalyzer) (output_path : pystr)
    (tasks : Dict.t (list pystr)) (s : St) (path : pystr) :
  NoDup (task_file output_path <$> Dict.keys tasks) →
  files (run (execute_tasks env sched self output_path tasks) s).2 !! path
  = match list_find (λ item, task_file output_path item.1 = path)
            (Dict.items tasks) with
    | Some (_, item) =>
        match task_write env self ([volatility_path self] ++ item.2) path with
        | Some b => Some b
        | None => files s !! path
        end
    | None => files s !! path
    end.
Proof.
  intros Hfiles. rewrite task_files_of_items in Hfiles.
  destruct (list_find _ _) as [[i [name command]] |] eqn:Hfind.
  - apply list_find_Some in Hfind as (Hi & Hpath & _). cbn in Hpath. subst path.
    apply list_elem_of_lookup_2 in Hi.
    apply (execute_tasks_persists env sched self output_path tasks s name command);
      [done |].
    intros name' command' Hin' Hsame.
    by apply (NoDup_fmap_eq _ _ _ _ Hfiles Hin' Hi).
  - apply execute_tasks_keeps. intros name command Hin Hpath.
    apply list_find_None in Hfind. rewrite Forall_forall in Hfind.
    by apply (Hfind _ Hin).
Qed.

Lemma filter_fmap_fst {A B} (P : A → Prop) `{∀ x, Decision (P x)}
    (l : list (A * B)) :
  filter P (fst <$> l) = fst <$> filter (λ item, P item.1) l.
Proof.
  induction l as [| [a b] l IH]; [done |].
  rewrite fmap_cons, !filter_cons. cbn [fst].
  destruct (decide (P a)); by rewrite IH.
Qed.

Lemma filter_iff_in {A} (P Q : A → Prop) `{∀ x, Decision (P x)}
    `{∀ x, Decision (Q x)} (l : list A) :
  (∀ x, x ∈ l → P x ↔ Q x) → filter P l = filter Q l.
Proof.
  induction l as [| x l IH]; intros Hl; [done |].
  rewrite !filter_cons, IH by (intros y Hy; apply Hl; by right).
  assert (Hx : P x ↔ Q x) by (apply Hl; by left).
  destruct (decide (P x)) as [Hp | Hp], (decide (Q x)) as [Hq | Hq];
    [done | tauto | tauto | done].
Qed.

(** X4.  When no task name has a slash and [exists] can examine the
    file of every task, what [get_remaining_tasks] returns after the pool
    is, under every schedule, the names of the tasks that had no file
    before and did not open one, in the order of the dictionary.  A task
    whose write failed has left a file and is not among them. *)
Theorem remaining_after_the_pool (env : Env) (sched : list nat)
    (self : VolatilityAnalyzer) (output_path : pystr)
    (tasks : Dict.t (list pystr)) (s : St) :
  NoDup (Dict.keys tasks) →
  Forall (λ task_name, 47 ∉ task_name) (Dict.keys tasks) →
  Forall (λ task_name, stat_error env (task_file output_path task_name) = false)
    (Dict.keys tasks) →
  (run (get_remaining_tasks env output_path tasks)
     (run (execute_tasks env sched self output_path tasks) s).2).1
  = Ok (filter
          (λ item,
             files s !! task_file output_path item.1 = None
             ∧ task_write env self ([volatility_path self] ++ item.2)
                 (task_file output_path item.1) = None)
          (Dict.items tasks)).*1.
Proof.
  intros Hkeys Hplain Hstat.
  pose proof (task_files_distinct output_path _ Hkeys Hplain) as Hfiles.
  unfold get_remaining_tasks. rewrite remaining_run by done. cbn [fst].
  f_equal. unfold Dict.keys. rewrite filter_fmap_fst. f_equal.
  apply filter_iff_in. intros [name command] Hin. cbn [fst snd].
  rewrite (execute_tasks_files env sched self output_path tasks s _ Hfiles).
  destruct (list_find _ _) as [[i [name' command']] |] eqn:Hfind.
  - apply list_find_Some in Hfind as (Hi & Hpath & _). cbn in Hpath.
    apply list_elem_of_lookup_2 in Hi.
    rewrite task_files_of_items in Hfiles.
    pose proof (NoDup_fmap_eq _ _ _ _ Hfiles Hi Hin Hpath) as Heq.
    injection Heq as -> ->. cbn [snd].
    destruct (task_write _ _ _ _); [| tauto].
    split; [done | by intros [_ ?]].
  - apply list_find_None in Hfind. rewrite Forall_forall in Hfind.
    by destruct (Hfind _ Hin).
Qed.

Lemma remaining_after_the_pool_witness :
  (run (get_remaining_tasks scenario (py "/data/output")
          (build_tasks (py "/data/mem.img") (Some (py "Win10x64_19041"))
             [py "pslist"; py "netscan"]))
     (run (execute_tasks scenario [2; 0; 1; 1]%nat two_minutes (py "/data/output")
             (build_tasks (py "/data/mem.img") (Some (py "Win10x64_19041"))
                [py "pslist"; py "netscan"]))
        (boot first_files)).2).1
  = Ok (filter
          (λ item,
             files (boot first_files) !! task_file (py "/data/output") item.1 = None
             ∧ task_write scenario two_minutes
                 ([volatility_path two_minutes] ++ item.2)
                 (task_file (py "/data/output") item.1) = None)
          (Dict.items
             (build_tasks (py "/data/mem.img") (Some (py "Win10x64_19041"))
                [py "pslist"; py "netscan"]))).*1.
Proof.
  apply (remaining_after_the_pool scenario [2; 0; 1; 1]%nat two_minutes
           (py "/data/output")
           (build_tasks (py "/data/mem.img") (Some (py "Win10x64_19041"))
              [py "pslist"; py "netscan"])
           (boot first_files)).
  - apply (bool_decide_unpack _). vm_compute. exact I.
  - apply (bool_decide_unpack _). vm_compute. exact I.
  - apply Forall_forall. intros task_name _. reflexivity.
Defined.

(** ** The schedule of the pool *)

Lemma get_profile_files (env : Env) (self : VolatilityAnalyzer)
    (memorydump_path : pystr) (profile : option pystr) (s : St) :
  ∃ (detected : flow (option pystr)) (s1 : St),
    run (get_profile env self memorydump_path profile) s = (Ok detected, s1)
    ∧ files s1 = files s.
Proof.
  unfold get_profile. destruct (negb _); [apply detect_profile_run |].
  by eexists _, _.
Qed.

(** X5.  When no configured name has a slash, the files a run leaves,
    the report among them, do not depend on the schedule of the threads
    of the pool, and neither does the way the run ends. *)
Theorem files_do_not_depend_on_schedule (env : Env) (sched1 sched2 : list nat)
    (self : VolatilityAnalyzer) (memorydump_path : pystr)
    (profile : option pystr) (dumpfiles : bool)
    (dumpfiles_location : option pystr) (s : St) :
  (∀ tasklist tasklist_help,
     load_config s = Ok (tasklist, tasklist_help) →
     Forall (λ name, 47 ∉ name) tasklist) →
  let after sched :=
    run (analyze_memory_dump env sched self memorydump_path profile dumpfiles
           dumpfiles_location) s in
  (after sched1).1 = (after sched2).1
  ∧ files (after sched1).2 = files (after sched2).2.
Proof.
  intros Hrel after. subst after. cbv beta.
  destruct (mkdir_error env) as [e |] eqn:Hmk.
  { by rewrite !(mkdir_failure_propagates env _ self memorydump_path profile
                   dumpfiles dumpfiles_location s e Hmk). }
  destruct (dumpfiles && truthy profile && truthy dumpfiles_location) eqn:Hdump.
  { unfold analyze_memory_dump. rewrite !run_mbind. cbn [mkdir atomic run].
    by rewrite Hmk, Hdump. }
  destruct (get_profile_files env self memorydump_path profile s)
    as ([detected |] & s1 & Hdet & Hfiles1).
  - destruct (load_config s1) as [[tasklist tasklist_help] | e] eqn:Hcfg.
    + destruct (analyze_memory_dump_dispatches env sched1 self memorydump_path
                  profile dumpfiles dumpfiles_location s s1 detected tasklist
                  tasklist_help Hmk Hdump Hdet Hcfg) as (s' & -> & _ & Hf1).
      destruct (analyze_memory_dump_dispatches env sched2 self memorydump_path
                  profile dumpfiles dumpfiles_location s s1 detected tasklist
                  tasklist_help Hmk Hdump Hdet Hcfg) as (s'' & -> & _ & Hf2).
      split; [done |]. cbn [snd]. rewrite Hf1, Hf2.
      assert (Hpool : ∀ sched sched',
        files (run (execute_tasks env sched self
                      (Path.div (Path.dirname memorydump_path) (py "output"))
                      (build_tasks memorydump_path detected tasklist))
                 (set_progress_manager
                    (λ _, Some (ProgressManager_init
                                  (length tasklist + length task_filescanlist)))
                    (add_log (INFO, TasksBuilt
                                (length tasklist + length task_filescanlist)) s1))).2
        = files (run (execute_tasks env sched' self
                      (Path.div (Path.dirname memorydump_path) (py "output"))
                      (build_tasks memorydump_path detected tasklist))
                 (set_progress_manager
                    (λ _, Some (ProgressManager_init
                                  (length tasklist + length task_filescanlist)))
                    (add_log (INFO, TasksBuilt
                                (length tasklist + length task_filescanlist)) s1))).2).
      { intros sched sched'. apply map_eq. intros path.
        rewrite !execute_tasks_files; [done | |];
          apply build_tasks_files_distinct, (Hrel tasklist tasklist_help);
          rewrite <- Hcfg; apply load_config_files; by rewrite Hfiles1. }
      by rewrite (Hpool sched1 sched2).
    + unfold analyze_memory_dump. rewrite !run_mbind. cbn [mkdir atomic run].
      by rewrite Hmk, Hdump, !run_mbind, Hdet, !run_mbind, read_config_run, Hcfg.
  - unfold analyze_memory_dump. rewrite !run_mbind. cbn [mkdir atomic run].
    by rewrite Hmk, Hdump, !run_mbind, Hdet.
Qed.

Lemma files_do_not_depend_on_schedule_witness :
  let after sched :=
    run (analyze_memory_dump scenario sched two_minutes (py "/data/mem.img")
           (Some (py "Win10x64_19041")) false None) (boot first_files) in
  (after [3; 1; 0; 0; 2]%nat).1 = (after [6; 6; 5; 4]%nat).1
  ∧ files (after [3; 1; 0; 0; 2]%nat).2 = files (after [6; 6; 5; 4]%nat).2.
Proof.
  apply (files_do_not_depend_on_schedule scenario [3; 1; 0; 0; 2]%nat
           [6; 6; 5; 4]%nat two_minutes (py "/data/mem.img")
           (Some (py "Win10x64_19041")) false None (boot first_files)).
  intros tasklist tasklist_help Hcfg. vm_compute in Hcfg.
  injection Hcfg as <- <-.
  repeat constructor; apply (bool_decide_unpack _); vm_compute; exact I.
Defined.

(** ** The report and the outputs *)

Lemma write_files_other (env : Env) (path data : pystr) (fs : gmap pystr bytes)
    (other : pystr) :
  other ≠ path → write_files env path data fs !! other = fs !! other.
Proof.
  intros Hother. unfold write_files.
  destruct (writable env path); [| done].
  destruct (Codec.utf8_encode _); by rewrite lookup_insert_ne.
Qed.

(** X6.  [generate_markdown] returns without raising, whatever the
    tasks and the files are; it runs no command, changes no file other
    than [summary.md] in the output directory, and this is the file of no
    task: the output of every task is as it was, so
    [get_remaining_tasks] returns after the report what it returned
    before. *)
Theorem report_keeps_the_outputs (env : Env) (tasks : Dict.t (list pystr))
    (output_path : pystr)
    (tasklist tasklist_help filescanlist filescanlist_help : list pystr)
    (s : St) :
  ∃ s' : St,
    run (generate_markdown env tasks output_path tasklist tasklist_help
           filescanlist filescanlist_help) s = (Ok (), s')
    ∧ invoked s' = invoked s
    ∧ (∀ path, path ≠ Path.div output_path (py "summary.md") →
         files s' !! path = files s !! path)
    ∧ (∀ task_name,
         files s' !! task_file output_path task_name
         = files s !! task_file output_path task_name)
    ∧ (run (get_remaining_tasks env output_path tasks) s').1
      = (run (get_remaining_tasks env output_path tasks) s).1.
Proof.
  destruct (generate_markdown_run env tasks output_path tasklist tasklist_help
              filescanlist filescanlist_help s) as (s' & Hrun & Hfiles & _ & Hinv).
  assert (Htask : ∀ task_name,
    files s' !! task_file output_path task_name
    = files s !! task_file output_path task_name).
  { intros task_name. rewrite Hfiles.
    apply write_files_other, task_file_not_summary. }
  exists s'. split; [done |]. split; [done |]. split; [| split; [done |]].
  - intros path Hpath. rewrite Hfiles. by apply write_files_other.
  - unfold get_remaining_tasks. by apply remaining_ext.
Qed.

(** ** The export of files *)

(** With [errors="ignore"] the Windows-1252 decoder returns for every
    input: the text of the bytes that have a character. *)
Lemma cp1252_decode_ignore (bs : bytes) :
  Codec.cp1252_decode Codec.ignore bs
  = Ok (omap (λ b, Codec.cp1252_char (Byte.to_N b)) bs).
Proof.
  induction bs as [| b bs IH]; [done |].
  cbn [Codec.cp1252_decode omap list_omap]. rewrite IH.
  by destruct (Codec.cp1252_char (Byte.to_N b)).
Qed.

(** X7.  With [dumpfiles], a profile and a location, the run is the
    export alone: one command is run, [dumpfiles] with the profile and
    the location, without a time limit; what it prints is printed,
    decoded as Windows-1252 with the undefined bytes left out; a tool
    that cannot be started is logged.  The run returns without raising,
    runs no task, makes no progress manager and logs nothing but the
    start and the end of the export. *)
Theorem dump_mode_runs_the_export_alone (env : Env) (sched : list nat)
    (self : VolatilityAnalyzer) (memorydump_path : pystr)
    (profile dumpfiles_location : option pystr) (s : St) :
  mkdir_error env = None →
  truthy profile = true →
  truthy dumpfiles_location = true →
  let command := [volatility_path self; py "-f"; memorydump_path;
                  py "--profile=" ++ format profile; py "dumpfiles";
                  py "-Q"; format dumpfiles_location; py "-D"; py "./"] in
  ∃ s' : St,
    run (analyze_memory_dump env sched self memorydump_path profile true
           dumpfiles_location) s = (Ok (), s')
    ∧ invoked s' = invoked s ++ [command]
    ∧ progress_manager s' = progress_manager s
    ∧ match tool env command with
      | Runs seconds stdout =>
          printed s'
          = printed s ++ [omap (λ b, Codec.cp1252_char (Byte.to_N b)) stdout]
          ∧ log s' = log s ++ [(INFO, DumpStarted); (INFO, DumpDone)]
      | CannotStart =>
          printed s' = printed s
          ∧ log s' = log s ++ [(INFO, DumpStarted); (ERROR, DumpFailed OSError)]
      end.
Proof.
  intros Hmk Hprofile Hlocation command.
  unfold analyze_memory_dump. rewrite run_mbind. cbn [mkdir atomic run].
  rewrite Hmk, Hprofile, Hlocation. cbn [andb].
  unfold dump_files. fold command. rewrite run_mbind. cbn [logger atomic run].
  rewrite run_try_except, run_mbind. cbn [subprocess_run atomic run].
  destruct (tool env command) as [seconds stdout |].
  - rewrite run_mbind. cbn [lift run]. rewrite cp1252_decode_ignore.
    rewrite run_mbind. cbn [print logger atomic run].
    eexists. split; [done |].
    cbn [invoked files progress_manager printed log add_log add_printed
           add_invoked].
    by rewrite <- app_assoc.
  - cbn [except_Exception is_Exception logger atomic run].
    eexists. split; [done |].
    cbn [invoked files progress_manager printed log add_log add_printed
           add_invoked].
    by rewrite <- app_assoc.
Qed.

Lemma dump_mode_runs_the_export_alone_witness :
  let command := [volatility_path two_minutes; py "-f"; py "/data/mem.img";
                  py "--profile=" ++ format (Some (py "Win7SP1x64"));
                  py "dumpfiles"; py "-Q"; format (Some (py "0x3e8a9f20"));
                  py "-D"; py "./"] in
  ∃ s' : St,
    run (analyze_memory_dump scenario [1; 0]%nat two_minutes (py "/data/mem.img")
           (Some (py "Win7SP1x64")) true (Some (py "0x3e8a9f20")))
      (boot first_files) = (Ok (), s')
    ∧ invoked s' = invoked (boot first_files) ++ [command]
    ∧ progress_manager s' = progress_manager (boot first_files)
    ∧ match tool scenario command with
      | Runs seconds stdout =>
          printed s'
          = printed (boot first_files)
            ++ [omap (λ b, Codec.cp1252_char (Byte.to_N b)) stdout]
          ∧ log s' = log (boot first_files)
                     ++ [(INFO, DumpStarted); (INFO, DumpDone)]
      | CannotStart =>
          printed s' = printed (boot first_files)
          ∧ log s' = log (boot first_files)
                     ++ [(INFO, DumpStarted); (ERROR, DumpFailed OSError)]
      end.
Proof.
  apply (dump_mode_runs_the_export_alone scenario [1; 0]%nat two_minutes
           (py "/data/mem.img") (Some (py "Win7SP1x64"))
           (Some (py "0x3e8a9f20")) (boot first_files)).
  - reflexivity.
  - reflexivity.
  - reflexivity.
Defined.

(** ** The detection of the profile *)

Lemma lstrip_idemp (s : pystr) : Str.lstrip (Str.lstrip s) = Str.lstrip s.
Proof.
  induction s as [| c s IH]; [done |]. simpl.
  destruct (Str.isspace c) eqn:Hc; [done |]. simpl. by rewrite Hc.
Qed.

Lemma lstrip_app (a b : pystr) (c : N) :
  Str.isspace c = false → Str.lstrip (a ++ c :: b) = Str.lstrip a ++ c :: b.
Proof.
  intros Hc. induction a as [| x a IH]; simpl; [by rewrite Hc |].
  by destruct (Str.isspace x).
Qed.

Lemma rstrip_app (a b : pystr) (c : N) :
  Str.isspace c = false → Str.rstrip (a ++ c :: b) = a ++ c :: Str.rstrip b.
Proof.
  intros Hc. unfold Str.rstrip.
  rewrite reverse_app, reverse_cons, <- app_assoc. cbn [app].
  rewrite (lstrip_app _ _ _ Hc), reverse_app, reverse_cons, reverse_involutive.
  by rewrite <- app_assoc.
Qed.

Lemma rstrip_cons (b : pystr) (c : N) :
  Str.isspace c = false → Str.rstrip (c :: b) = c :: Str.rstrip b.
Proof. apply (rstrip_app [] b c). Qed.

Lemma rstrip_idemp (s : pystr) : Str.rstrip (Str.rstrip s) = Str.rstrip s.
Proof. unfold Str.rstrip. by rewrite reverse_involutive, lstrip_idemp. Qed.

Lemma lstrip_stripped (s : pystr) :
  Str.lstrip s = [] ∨ ∃ c t, Str.lstrip s = c :: t ∧ Str.isspace c = false.
Proof.
  induction s as [| c s IH]; [by left |]. simpl.
  destruct (Str.isspace c) eqn:Hc; [done |]. right. by eexists _, _.
Qed.

Lemma strip_lstrip (s : pystr) : Str.strip (Str.lstrip s) = Str.strip s.
Proof. unfold Str.strip. by rewrite lstrip_idemp. Qed.

Lemma strip_idemp (s : pystr) : Str.strip (Str.strip s) = Str.strip s.
Proof.
  unfold Str.strip.
  destruct (lstrip_stripped s) as [-> | (c & t & -> & Hc)]; [done |].
  rewrite (rstrip_cons t c Hc). cbn [Str.lstrip]. rewrite Hc.
  by rewrite (rstrip_cons _ c Hc), rstrip_idemp.
Qed.

Lemma lstrip_suffix (s : pystr) (x : N) : x ∈ Str.lstrip s → x ∈ s.
Proof.
  induction s as [| c s IH]; [done |]. simpl.
  destruct (Str.isspace c); [| done]. intros ?. right. by apply IH.
Qed.

Lemma split_app (sep : N) (a b : pystr) :
  sep ∉ a →
  ∃ p ps, Str.split sep b = p :: ps ∧ Str.split sep (a ++ b) = (a ++ p) :: ps.
Proof.
  intros Ha. induction a as [| c a IH]; cbn [app].
  - destruct (split_nonempty sep b) as (p & ps & ->). by eexists _, _.
  - apply not_elem_of_cons in Ha as [Hc Ha].
    destruct (IH Ha) as (p & ps & Hb & Hab). exists p, ps. split; [done |].
    cbn [Str.split]. rewrite (proj2 (N.eqb_neq c sep)) by done. by rewrite Hab.
Qed.

(** The text [split(",")[0]] leaves of a stripped field that ends at a
    comma, at a colon or with the line. *)
Lemma first_name (field tail : pystr) (piece : pystr) (pieces : list pystr) :
  58 ∉ field → 44 ∉ field →
  tail = [] ∨ head tail = Some 44 ∨ head tail = Some 58 →
  Str.split 58 (field ++ tail) = piece :: pieces →
  ∃ first,
    PyList.get (Str.split 44 (Str.strip piece)) 0 = Ok first
    ∧ Str.strip first = Str.strip field.
Proof.
  intros Hcolon Hcomma Htail Hsplit.
  assert (Hwhole : piece = field →
    ∃ first, PyList.get (Str.split 44 (Str.strip piece)) 0 = Ok first
             ∧ Str.strip first = Str.strip field).
  { intros ->. exists (Str.strip field). split; [| apply strip_idemp].
    rewrite split_without; [done |].
    unfold Str.strip, Str.rstrip. intros Hin.
    apply elem_of_reverse, lstrip_suffix, elem_of_reverse, lstrip_suffix in Hin.
    done. }
  destruct Htail as [-> | [Htail | Htail]].
  - rewrite app_nil_r, split_without in Hsplit by done.
    injection Hsplit as <- _. by apply Hwhole.
  - destruct tail as [| c rest]; [done |]. injection Htail as ->.
    destruct (split_app 58 (field ++ [44]) rest) as (p & ps & _ & Hall).
    { rewrite elem_of_app, list_elem_of_singleton. by intros [? | ?]. }
    rewrite <- app_assoc in Hall. cbn [app] in Hall.
    rewrite Hall in Hsplit. injection Hsplit as <- _.
    exists (Str.lstrip field). split; [| apply strip_lstrip].
    unfold Str.strip. rewrite <- app_assoc. cbn [app].
    rewrite (lstrip_app field p 44), (rstrip_app _ _ 44) by done.
    rewrite split_at_first; [done |]. by intros Hin%lstrip_suffix.
  - destruct tail as [| c rest]; [done |]. injection Htail as ->.
    rewrite split_at_first in Hsplit by done.
    injection Hsplit as <- _. by apply Hwhole.
Qed.

(** The loop stops at the first line that has the marker. *)
Lemma suggested_profile_first (before after : list pystr) (line : pystr) :
  Forall (λ l, Str.contains (py "Suggested Profile(s)") l = false) before →
  Str.contains (py "Suggested Profile(s)") line = true →
  suggested_profile (before ++ line :: after)
  = field ← PyList.get (Str.split 58 line) 1;
    first ← PyList.get (Str.split 44 (Str.strip field)) 0;
    Ok (Some (Str.strip first)).
Proof.
  intros Hbefore Hline. induction Hbefore as [| l before Hl _ IH]; cbn [app].
  - cbn [suggested_profile]. by rewrite Hline.
  - cbn [suggested_profile]. by rewrite Hl.
Qed.

Lemma suggested_profile_found (before after : list pystr)
    (label field tail : pystr) :
  Forall (λ l, Str.contains (py "Suggested Profile(s)") l = false) before →
  Str.contains (py "Suggested Profile(s)") (label ++ [58] ++ field ++ tail) = true →
  58 ∉ label → 58 ∉ field → 44 ∉ field →
  tail = [] ∨ head tail = Some 44 ∨ head tail = Some 58 →
  suggested_profile (before ++ (label ++ [58] ++ field ++ tail) :: after)
  = Ok (Some (Str.strip field)).
Proof.
  intros Hbefore Hline Hlabel Hcolon Hcomma Htail.
  rewrite (suggested_profile_first _ _ _ Hbefore Hline).
  cbn [app]. rewrite split_at_first by done.
  destruct (split_nonempty 58 (field ++ tail)) as (piece & pieces & Hsplit).
  rewrite Hsplit. cbn [PyList.get lookup list_lookup].
  destruct (first_name field tail piece pieces Hcolon Hcomma Htail Hsplit)
    as (first & Hfirst & Hstrip).
  unfold mbind, result_bind. by rewrite Hfirst, Hstrip.
Qed.

Lemma suggested_profile_unseparated (before after : list pystr) (line : pystr) :
  Forall (λ l, Str.contains (py "Suggested Profile(s)") l = false) before →
  Str.contains (py "Suggested Profile(s)") line = true →
  58 ∉ line →
  suggested_profile (before ++ line :: after) = Raise IndexError.
Proof.
  intros Hbefore Hline Hcolon.
  rewrite (suggested_profile_first _ _ _ Hbefore Hline).
  by rewrite split_without.
Qed.

Section Detection.

Context (env : Env) (self : VolatilityAnalyzer) (memorydump_path : pystr).

(** What the detection of the profile does, from what the tool does. *)
Lemma detect_profile_outcome (profile : option pystr) (s : St) :
  run (detect_profile env self memorydump_path profile) s
  = let s0 := add_invoked (imageinfo_command self memorydump_path)
                (add_log (INFO, ProfileMissing) s) in
    match tool env (imageinfo_command self memorydump_path) with
    | CannotStart => (Ok Return, add_log (ERROR, ProfileFailed OSError) s0)
    | Runs _ stdout =>
        match suggested_profile
                (Str.split 10
                   (omap (λ b, Codec.cp1252_char (Byte.to_N b)) stdout)) with
        | Ok (Some p) =>
            (Ok (Continue (Some p)), add_log (INFO, ProfileSelected p) s0)
        | Ok None => (Ok (Continue profile), s0)
        | Raise e => (Ok Return, add_log (ERROR, ProfileFailed e) s0)
        end
    end.
Proof.
  unfold detect_profile. fold (imageinfo_command self memorydump_path).
  rewrite run_mbind. cbn [logger atomic run].
  rewrite run_try_except, run_mbind. cbn [subprocess_run atomic run].
  destruct (tool env _) as [seconds stdout |];
    [| cbn [except_Exception is_Exception]; rewrite run_mbind; done].
  rewrite run_mbind. cbn [lift run]. rewrite cp1252_decode_ignore.
  rewrite run_mbind. cbn [lift run].
  destruct (suggested_profile _) as [[p |] | e] eqn:Hp.
  - by rewrite run_mbind.
  - done.
  - unfold except_Exception. rewrite (suggested_profile_raises _ _ Hp).
    by rewrite run_mbind.
Qed.

End Detection.

(** X8.  Without a profile on the command line the profile is the
    first one the tool suggests: in the first line of the [imageinfo]
    output that has the marker, the text between the first colon and the
    comma, the colon or the end of the line that follows, without the
    blanks around it.  The detection has no time limit, runs one
    command and changes no file. *)
Theorem first_suggested_profile_is_chosen (env : Env) (self : VolatilityAnalyzer)
    (memorydump_path : pystr) (profile : option pystr) (s : St)
    (seconds : Z) (stdout : bytes) (before after : list pystr)
    (label field tail : pystr) :
  truthy profile = false →
  tool env (imageinfo_command self memorydump_path) = Runs seconds stdout →
  Str.split 10 (omap (λ b, Codec.cp1252_char (Byte.to_N b)) stdout)
  = before ++ (label ++ [58] ++ field ++ tail) :: after →
  Forall (λ l, Str.contains (py "Suggested Profile(s)") l = false) before →
  Str.contains (py "Suggested Profile(s)") (label ++ [58] ++ field ++ tail) = true →
  58 ∉ label → 58 ∉ field → 44 ∉ field →
  tail = [] ∨ head tail = Some 44 ∨ head tail = Some 58 →
  ∃ s1 : St,
    run (get_profile env self memorydump_path profile) s
    = (Ok (Continue (Some (Str.strip field))), s1)
    ∧ invoked s1 = invoked s ++ [imageinfo_command self memorydump_path]
    ∧ files s1 = files s.
Proof.
  intros Hprofile Htool Hlines Hbefore Hline Hlabel Hcolon Hcomma Htail.
  unfold get_profile. rewrite Hprofile. cbn [negb].
  rewrite detect_profile_outcome, Htool, Hlines.
  rewrite (suggested_profile_found _ _ _ _ _ Hbefore Hline Hlabel Hcolon Hcomma Htail).
  by eexists.
Qed.

Lemma first_suggested_profile_is_chosen_witness :
  ∃ s1 : St,
    run (get_profile suggesting two_minutes (py "/data/mem.img") None)
      (boot first_files)
    = (Ok (Continue (Some (Str.strip (py " Win7SP1x64")))), s1)
    ∧ invoked s1
      = invoked (boot first_files)
        ++ [imageinfo_command two_minutes (py "/data/mem.img")]
    ∧ files s1 = files (boot first_files).
Proof.
  apply (first_suggested_profile_is_chosen suggesting two_minutes
           (py "/data/mem.img") None (boot first_files) 9
           (String.list_byte_of_string "Determining profile
          Suggested Profile(s) : Win7SP1x64, Win7SP0x64
                     AS Layer1 : WindowsAMD64PagedMemory (Kernel AS)
")
           [py "Determining profile"]
           [py "                     AS Layer1 : WindowsAMD64PagedMemory (Kernel AS)";
            []]
           (py "          Suggested Profile(s) ") (py " Win7SP1x64")
           (py ", Win7SP0x64")).
  - reflexivity.
  - reflexivity.
  - vm_compute. reflexivity.
  - repeat constructor.
  - vm_compute. reflexivity.
  - apply (bool_decide_unpack _). vm_compute. exact I.
  - apply (bool_decide_unpack _). vm_compute. exact I.
  - apply (bool_decide_unpack _). vm_compute. exact I.
  - right. left. reflexivity.
Defined.

(** X9.  Without a profile on the command line, a tool that cannot be
    started, or whose first line with the marker has no colon, stops the
    run: the failure is logged and the run returns without raising,
    having run the detection alone: no configuration is read, no task is
    run, no progress manager is made and no file is changed. *)
Theorem failed_detection_stops_the_run (env : Env) (sched : list nat)
    (self : VolatilityAnalyzer) (memorydump_path : pystr)
    (profile : option pystr) (dumpfiles : bool)
    (dumpfiles_location : option pystr) (s : St) :
  mkdir_error env = None →
  truthy profile = false →
  tool env (imageinfo_command self memorydump_path) = CannotStart
  ∨ (∃ seconds stdout before line after,
       tool env (imageinfo_command self memorydump_path) = Runs seconds stdout
       ∧ Str.split 10 (omap (λ b, Codec.cp1252_char (Byte.to_N b)) stdout)
         = before ++ line :: after
       ∧ Forall (λ l, Str.contains (py "Suggested Profile(s)") l = false) before
       ∧ Str.contains (py "Suggested Profile(s)") line = true
       ∧ 58 ∉ line) →
  ∃ (s' : St) (e : exn),
    run (analyze_memory_dump env sched self memorydump_path profile dumpfiles
           dumpfiles_location) s = (Ok (), s')
    ∧ invoked s' = invoked s ++ [imageinfo_command self memorydump_path]
    ∧ log s' = log s ++ [(INFO, ProfileMissing); (ERROR, ProfileFailed e)]
    ∧ files s' = files s
    ∧ progress_manager s' = progress_manager s.
Proof.
  intros Hmk Hprofile Hfail.
  unfold analyze_memory_dump. rewrite run_mbind. cbn [mkdir atomic run].
  rewrite Hmk, Hprofile, andb_false_r. cbn [andb].
  rewrite run_mbind. unfold get_profile. rewrite Hprofile. cbn [negb].
  rewrite detect_profile_outcome.
  destruct Hfail as [-> | (seconds & stdout & before & line & after & -> & -> &
                           Hbefore & Hline & Hcolon)].
  - eexists _, OSError. split; [done |].
    cbn [invoked log files progress_manager add_log add_invoked].
    by rewrite <- app_assoc.
  - rewrite (suggested_profile_unseparated _ _ _ Hbefore Hline Hcolon).
    eexists _, IndexError. split; [done |].
    cbn [invoked log files progress_manager add_log add_invoked].
    by rewrite <- app_assoc.
Qed.

Lemma failed_detection_stops_the_run_witness :
  ∃ (s' : St) (e : exn),
    run (analyze_memory_dump unseparated [0; 1]%nat two_minutes (py "/data/mem.img")
           None false None) (boot first_files) = (Ok (), s')
    ∧ invoked s'
      = invoked (boot first_files)
        ++ [imageinfo_command two_minutes (py "/data/mem.img")]
    ∧ log s' = log (boot first_files)
               ++ [(INFO, ProfileMissing); (ERROR, ProfileFailed e)]
    ∧ files s' = files (boot first_files)
    ∧ progress_manager s' = progress_manager (boot first_files).
Proof.
  apply (failed_detection_stops_the_run unseparated [0; 1]%nat two_minutes
           (py "/data/mem.img") None false None (boot first_files)).
  - reflexivity.
  - reflexivity.
  - right.
    exists 9%Z, (String.list_byte_of_string "Determining profile
Suggested Profile(s) Win7SP1x64
"), [py "Determining profile"], (py "Suggested Profile(s) Win7SP1x64"), [[]].
    split; [reflexivity |]. split; [vm_compute; reflexivity |].
    split; [repeat constructor |]. split; [vm_compute; reflexivity |].
    apply (bool_decide_unpack _). vm_compute. exact I.
Defined.

(** ** The commands of the tasks *)

Section Assignments.

Context {V : Type}.

Lemma NoDup_keys_set (k : pystr) (v : V) (d : Dict.t V) :
  NoDup (Dict.keys d) → NoDup (Dict.keys (Dict.set k v d)).
Proof.
  intros Hd. rewrite keys_set. destruct (decide (k ∈ Dict.keys d)); [done |].
  apply NoDup_app. split; [done |]. split; [| apply NoDup_singleton].
  intros x Hx ->%list_elem_of_singleton. done.
Qed.

(** [d[k] = v] leaves [k] with [v] and every other key as it was. *)
Lemma items_set (k : pystr) (v : V) (d : Dict.t V) (k' : pystr) (v' : V) :
  NoDup (Dict.keys d) →
  (k', v') ∈ Dict.items (Dict.set k v d)
  ↔ (k' = k ∧ v' = v) ∨ (k' ≠ k ∧ (k', v') ∈ Dict.items d).
Proof.
  unfold Dict.keys, Dict.items.
  induction d as [| [k0 v0] d IH]; cbn [Dict.set fmap list_fmap fst]; intros Hd.
  - rewrite list_elem_of_singleton, elem_of_nil. split; [| intros [? | [_ []]]].
    + intros [= -> ->]. by left.
    + by destruct H as [-> ->].
  - apply NoDup_cons in Hd as [Hk0 Hd]. case_bool_decide as Hk.
    + subst k0. rewrite !elem_of_cons. split.
      * intros [[= -> ->] | Hin]; [by left |]. right. split; [| by right].
        intros ->. apply Hk0. by apply (list_elem_of_fmap_2 fst) in Hin.
      * intros [[-> ->] | [Hne [[= -> ->] | Hin]]]; [by left | done | by right].
    + rewrite !elem_of_cons, (IH Hd). split.
      * intros [[= -> ->] | [[-> ->] | [Hne Hin]]].
        -- right. split; [done | by left].
        -- by left.
        -- right. split; [done | by right].
      * intros [[-> ->] | [Hne [[= -> ->] | Hin]]].
        -- right. by left.
        -- by left.
        -- right. right. by split.
Qed.

Lemma NoDup_keys_foldl_set {A} (key : A → pystr) (val : A → V) (l : list A) :
  ∀ d : Dict.t V,
    NoDup (Dict.keys d) →
    NoDup (Dict.keys (foldl (λ d x, Dict.set (key x) (val x) d) d l)).
Proof.
  induction l as [| x l IH]; intros d Hd; [done |].
  cbn [foldl]. by apply IH, NoDup_keys_set.
Qed.

(** A loop of assignments whose values are given by the keys leaves
    every key it assigns with its value, and the other keys as they
    were. *)
Lemma items_foldl_set {A} (key : A → pystr) (val : A → V) (l : list A) :
  (∀ x y, x ∈ l → y ∈ l → key x = key y → val x = val y) →
  ∀ (d : Dict.t V) (k : pystr) (v : V),
    NoDup (Dict.keys d) →
    (k, v) ∈ Dict.items (foldl (λ d x, Dict.set (key x) (val x) d) d l)
    ↔ (∃ x, x ∈ l ∧ key x = k ∧ val x = v)
      ∨ ((k ∉ key <$> l) ∧ (k, v) ∈ Dict.items d).
Proof.
  induction l as [| x l IH]; intros Hval d k v Hd.
  - cbn [foldl fmap list_fmap]. split; [intros Hin; right; split; [|done] |].
    + apply not_elem_of_nil.
    + intros [(x & []%elem_of_nil & _) | [_ Hin]]. done.
  - cbn [foldl]. rewrite IH; [| | by apply NoDup_keys_set].
    2:{ intros y z Hy Hz. apply Hval; by right. }
    rewrite (items_set _ _ _ _ _ Hd), fmap_cons, not_elem_of_cons. split.
    + intros [(y & Hy & Hk & Hv) | [Hnot [[-> ->] | [Hne Hin]]]].
      * left. exists y. split; [by right | done].
      * left. exists x. split; [by left | done].
      * right. done.
    + intros [(y & [-> | Hy]%elem_of_cons & Hk & Hv) | [[Hne Hnot] Hin]].
      * destruct (decide (k ∈ key <$> l)) as [Hin | Hnot].
        -- apply list_elem_of_fmap in Hin as (z & Hz & Hzl). left. exists z.
           split; [done |]. split; [done |]. rewrite <- Hv.
           apply Hval; [by right | by left | congruence].
        -- right. split; [done |]. left. by split.
      * left. by exists y.
      * right. split; [done |]. right. by split.
Qed.

End Assignments.

Lemma filescan_name_inj (term1 term2 : pystr) :
  filescan_name term1 = filescan_name term2 → term1 = term2.
Proof.
  unfold filescan_name. intros Heq%app_inv_head. by apply app_inv_tail in Heq.
Qed.

(** X10.  The tasks are the configured names, each with the command
    [--profile=<profile> -f <dump> <name>], and the five filter tasks
    [filescan(<term>)], each with the command that pipes [filescan] into
    [findstr <term>]; a configured name that is the name of a filter
    task gets the command of the filter task, not its own. *)
Theorem task_commands (memorydump_path : pystr) (profile : option pystr)
    (tasklist : list pystr) (task_name : pystr) (command : list pystr) :
  (task_name, command) ∈ Dict.items (build_tasks memorydump_path profile tasklist)
  ↔ (∃ term, term ∈ task_filescanlist
             ∧ task_name = filescan_name term
             ∧ command = filescan_command memorydump_path profile term)
    ∨ (task_name ∈ tasklist
       ∧ (task_name ∉ filescan_name <$> task_filescanlist)
       ∧ command = plain_command memorydump_path profile task_name).
Proof.
  unfold build_tasks.
  rewrite (items_foldl_set filescan_name (filescan_command memorydump_path profile)).
  - rewrite (items_foldl_set id (plain_command memorydump_path profile));
      [| intros x y _ _ Heq; cbn in Heq; by rewrite Heq | apply NoDup_nil_2].
    split.
    + intros [(term & Hterm & <- & <-) | [Hnot [(x & Hx & <- & <-) | [_ []%elem_of_nil]]]].
      * left. by exists term.
      * right. done.
    + intros [(term & Hterm & -> & ->) | (Hin & Hnot & ->)].
      * left. by exists term.
      * right. split; [done |]. left. by exists task_name.
  - intros x y _ _ Heq. by rewrite (filescan_name_inj _ _ Heq).
  - apply (NoDup_keys_foldl_set id). apply NoDup_nil_2.
Qed.

(** ** Reading back what a task wrote *)

Lemma to_N_byte_of (n : N) : n < 256 → Byte.to_N (Codec.byte_of n) = n.
Proof.
  intros Hn. unfold Codec.byte_of.
  destruct (Byte.of_N n) as [b |] eqn:Hb.
  - by apply Byte.to_of_N in Hb.
  - apply Byte.of_N_None_iff in Hb. lia.
Qed.

Ltac lia_div := zify; Z.to_euclidean_division_equations; lia.

Ltac decide_tests :=
  repeat match goal with
         | |- context [?a <? ?b] =>
             first [rewrite (proj2 (N.ltb_lt a b)) by lia_div
                   | rewrite (proj2 (N.ltb_ge a b)) by lia_div]
         | |- context [?a <=? ?b] =>
             first [rewrite (proj2 (N.leb_le a b)) by lia_div
                   | rewrite (proj2 (N.leb_gt a b)) by lia_div]
         | |- context [?a =? ?b] =>
             first [rewrite (proj2 (N.eqb_eq a b)) by lia_div
                   | rewrite (proj2 (N.eqb_neq a b)) by lia_div]
         end.

(** The decoder reads back the bytes of a character as the character. *)
Lemma utf8_from_char (e : Codec.errors) (c : N) (bs : bytes) :
  Codec.scalar c = true →
  Codec.utf8_from e Codec.Start (Codec.utf8_char c ++ bs)
  = result_map (cons c) (Codec.utf8_from e Codec.Start bs).
Proof.
  intros Hc%scalar_true. unfold Codec.utf8_char.
  destruct (c <? 0x80) eqn:H1; [apply N.ltb_lt in H1 | apply N.ltb_ge in H1].
  { cbn [app Codec.utf8_from]. rewrite to_N_byte_of by lia_div.
    unfold Codec.utf8_lead. by decide_tests. }
  destruct (c <? 0x800) eqn:H2; [apply N.ltb_lt in H2 | apply N.ltb_ge in H2].
  { cbn [app Codec.utf8_from]. rewrite !to_N_byte_of by lia_div.
    unfold Codec.utf8_lead. decide_tests. cbn [andb].
    do 2 f_equal. lia_div. }
  destruct (c <? 0x10000) eqn:H3; [apply N.ltb_lt in H3 | apply N.ltb_ge in H3].
  { cbn [app Codec.utf8_from]. rewrite !to_N_byte_of by lia_div.
    unfold Codec.utf8_lead.
    destruct (decide (c / 4096 = 0)) as [Hz | Hz];
      [| destruct (decide (c / 4096 = 0xD)) as [Hd | Hd]];
      decide_tests; cbn [andb]; decide_tests; cbn [andb];
      do 2 f_equal; lia_div. }
  cbn [app Codec.utf8_from]. rewrite !to_N_byte_of by lia_div.
  unfold Codec.utf8_lead.
  destruct (decide (c / 262144 = 0)) as [Hz | Hz];
    [| destruct (decide (c / 262144 = 4)) as [Hd | Hd]];
    decide_tests; cbn [andb]; decide_tests; cbn [andb]; decide_tests; cbn [andb];
    do 2 f_equal; lia_div.
Qed.

(** What is encoded is decoded as it was. *)
Lemma utf8_decode_encode (e : Codec.errors) (t : pystr) (b : bytes) :
  Codec.utf8_encode t = Ok b → Codec.utf8_decode e b = Ok t.
Proof.
  unfold Codec.utf8_decode. revert b.
  induction t as [| c t IH]; intros b; cbn [Codec.utf8_encode].
  - by intros [= <-].
  - destruct (Codec.scalar c) eqn:Hc; [| done].
    intros (b' & Hb' & ->)%result_map_Ok.
    by rewrite (utf8_from_char e c b' Hc), (IH b' Hb').
Qed.

Lemma universal_newlines_cons (c : N) (t : pystr) :
  c ≠ 13 → Str.universal_newlines (c :: t) = c :: Str.universal_newlines t.
Proof.
  intros Hc. destruct c as [| p]; [done |].
  do 4 (try destruct p as [p | p |]); done.
Qed.

(** Reading in text mode undoes what writing in text mode does to a text
    without carriage returns. *)
Lemma universal_translate (n : newline) (t : pystr) :
  13 ∉ t → Str.universal_newlines (translate_newlines n t) = t.
Proof.
  unfold translate_newlines.
  induction t as [| c t IH]; [done |].
  intros [Hc Ht]%not_elem_of_cons. rewrite bind_cons.
  specialize (IH Ht). set (rest := t ≫= _) in *.
  destruct (c =? 10) eqn:Hnl.
  - apply N.eqb_eq in Hnl as ->. destruct n; cbn [linesep app].
    + by rewrite universal_newlines_cons, IH.
    + cbn [Str.universal_newlines]. fold Str.universal_newlines.
      by rewrite ?universal_newlines_cons, IH by done.
  - cbn [app]. rewrite universal_newlines_cons by done. by rewrite IH.
Qed.

(** X11.  The file of a task that succeeds reads back as the text of
    the task: what [read_text] returns right after the task is the text
    written and read in text mode, which is the text itself when it has
    no carriage return. *)
Theorem saved_output_reads_back (env : Env) (self : VolatilityAnalyzer)
    (command : list pystr) (task_name output_path : pystr)
    (tasks : Dict.t (list pystr)) (s : St) (text : pystr) :
  task_outcome env self command (task_file output_path task_name) = Success text →
  let s' := (run (run_command env self command task_name output_path tasks) s).2 in
  read_file s' (task_file output_path task_name)
  = Ok (Str.universal_newlines (translate_newlines (os_linesep env) text))
  ∧ ((13 ∉ text) → read_file s' (task_file output_path task_name) = Ok text).
Proof.
  intros Ho s'. subst s'. rewrite run_command_settles. cbn [snd].
  assert (Hread :
    read_file (settled env self command task_name output_path s)
      (task_file output_path task_name)
    = Ok (Str.universal_newlines (translate_newlines (os_linesep env) text))).
  { unfold settled, read_file, task_files.
    rewrite (task_write_success env self command _ text Ho), Ho.
    cbn [files set_progress_manager set_files]. rewrite lookup_insert_eq.
    assert (Hdec : ∃ stdout, Codec.utf8_decode Codec.ignore stdout = Ok text).
    { unfold task_outcome in Ho. destruct (tool env command) as [seconds stdout |];
        [| done].
      destruct (timeout_max env <? timeout self)%Z; [done |].
      destruct (timeout self <? seconds)%Z; [done |].
      destruct (Codec.utf8_decode Codec.ignore stdout) as [[| c t] | e] eqn:Hdec;
        [done | | done].
      destruct (writable env _); [| done].
      destruct (write_error env _ _); [done |].
      injection Ho as <-. by exists stdout. }
    destruct Hdec as [stdout Hdec].
    by rewrite (utf8_decode_encode _ _ _ (stored_encodes env stdout text Hdec)). }
  split; [done |]. intros Hcr. by rewrite Hread, universal_translate.
Qed.

Lemma saved_output_reads_back_witness :
  let s' := (run (run_command scenario two_minutes
                    (pslist_command (py "Win10x64_19041")) (py "pslist")
                    (py "/data/output") []) (boot first_files)).2 in
  read_file s' (task_file (py "/data/output") (py "pslist"))
  = Ok (Str.universal_newlines
          (translate_newlines (os_linesep scenario) (py "PID 1 init")))
  ∧ ((13 ∉ py "PID 1 init") →
     read_file s' (task_file (py "/data/output") (py "pslist"))
     = Ok (py "PID 1 init")).
Proof.
  apply (saved_output_reads_back scenario two_minutes
           (pslist_command (py "Win10x64_19041")) (py "pslist")
           (py "/data/output") [] (boot first_files) (py "PID 1 init")).
  vm_compute. reflexivity.
Defined.

(** ** When the configuration loads *)

Lemma help_texts_parse (config_lines : list pystr) :
  Forall (λ line, 45 ∈ line) config_lines →
  ∃ tasklist_help,
    comprehension (λ line, PyList.get (Str.split 45 line) 1) config_lines
    = Ok tasklist_help.
Proof.
  induction 1 as [| line lines Hline _ [th IH]]; simpl; [by eexists |].
  apply list_elem_of_split in Hline as (a & rest & ->).
  assert (Hsecond : ∃ field, PyList.get (Str.split 45 (a ++ 45 :: rest)) 1 = Ok field).
  { destruct (split_app 45 [] (a ++ 45 :: rest)) as (p & ps & Hsplit & _);
      [apply not_elem_of_nil |].
    clear IH. revert p ps Hsplit. induction a as [| c a IHa]; intros p ps; simpl.
    - destruct (split_nonempty 45 rest) as (q & qs & ->). by eexists.
    - destruct (c =? 45).
      + destruct (split_nonempty 45 (a ++ 45 :: rest)) as (q & qs & ->). by eexists.
      + destruct (split_nonempty 45 (a ++ 45 :: rest)) as (q & qs & Hq).
        destruct (IHa q qs Hq) as [field Hfield]. rewrite Hq in Hfield |- *.
        intros _. by exists field. }
  destruct Hsecond as [field ->]. unfold mbind, result_bind. cbn.
  rewrite IH. by eexists.
Qed.

(** The two comprehensions return exactly when every line has a
    ['-']. *)
Lemma parse_config_returns (config_lines : list pystr) :
  (∃ parsed, parse_config config_lines = Ok parsed)
  ↔ Forall (λ line, 45 ∈ line) config_lines.
Proof.
  split.
  - intros [parsed Hparsed]. apply Forall_forall. intros line Hin.
    destruct (decide (45 ∈ line)) as [| Hnot]; [done |].
    by rewrite (parse_config_malformed _ _ Hin Hnot) in Hparsed.
  - intros Hall. unfold parse_config.
    destruct (names_always_parse config_lines) as [tl ->].
    destruct (help_texts_parse config_lines Hall) as [th ->].
    by eexists.
Qed.

Lemma comprehension_lookup {A B} (f : A → result B) (l : list A) :
  ∀ (ys : list B) (i : nat) (x : A),
    comprehension f l = Ok ys → l !! i = Some x →
    ∃ y, f x = Ok y ∧ ys !! i = Some y.
Proof.
  induction l as [| x0 l IH]; intros ys i x; [done |].
  cbn [comprehension]. unfold mbind, result_bind.
  destruct (f x0) as [y0 |] eqn:Hx0; [| done].
  destruct (comprehension f l) as [ys' |] eqn:Hl; [| done].
  intros [= <-]. destruct i as [| i]; cbn [lookup list_lookup].
  - intros [= <-]. by exists y0.
  - by apply IH.
Qed.

(** The fields the two comprehensions take of the line at any place of
    the configuration. *)
Lemma parse_config_fields (config_lines tasklist tasklist_help : list pystr)
    (i : nat) (line : pystr) :
  parse_config config_lines = Ok (tasklist, tasklist_help) →
  config_lines !! i = Some line →
  ∃ name help,
    PyList.get (Str.split 45 line) 0 = Ok name
    ∧ PyList.get (Str.split 45 line) 1 = Ok help
    ∧ tasklist !! i = Some name ∧ tasklist_help !! i = Some help.
Proof.
  unfold parse_config, mbind, result_bind.
  destruct (comprehension (λ line, PyList.get (Str.split 45 line) 0) config_lines)
    as [tl |] eqn:E1; [| done].
  destruct (comprehension (λ line, PyList.get (Str.split 45 line) 1) config_lines)
    as [th |] eqn:E2; [| done].
  intros Heq Hline. injection Heq as <- <-.
  destruct (comprehension_lookup _ _ _ _ _ E1 Hline) as (name & Hname & Hi1).
  destruct (comprehension_lookup _ _ _ _ _ E2 Hline) as (help & Hhelp & Hi2).
  by exists name, help.
Qed.

(** C10.  In a configuration whose lines all have a ['-'], the names and
    the help texts are as many as the lines, and at every place a line
    with more than one ['-'] gives the text before the first one as the
    task name and the text between the first and the second as the help
    text, whatever follows; the help text of a line with one ['-'] is all
    that follows it, with the newline that ends the line. *)
Theorem config_line_fields (s : St) (text : pystr) :
  read_file s (py "tasklist.cfg") = Ok text →
  Forall (λ line, 45 ∈ line) (Str.lines text) →
  ∃ tasklist tasklist_help : list pystr,
    load_config s = Ok (tasklist, tasklist_help)
    ∧ length tasklist = length (Str.lines text)
    ∧ length tasklist_help = length (Str.lines text)
    ∧ ∀ (i : nat) (name help rest : pystr),
        45 ∉ name → 45 ∉ help →
        (Str.lines text !! i = Some (name ++ py "-" ++ help ++ py "-" ++ rest) →
         tasklist !! i = Some name ∧ tasklist_help !! i = Some help)
        ∧ (Str.lines text !! i = Some (name ++ py "-" ++ help ++ nl) →
           tasklist !! i = Some name ∧ tasklist_help !! i = Some (help ++ nl)).
Proof.
  intros Hread Hall. unfold load_config. rewrite Hread.
  destruct (proj2 (parse_config_returns (Str.lines text)) Hall)
    as [[tasklist tasklist_help] Hparse].
  exists tasklist, tasklist_help. split; [done |].
  assert (Hlen : length tasklist = length (Str.lines text)
                 ∧ length tasklist_help = length (Str.lines text)).
  { revert Hparse. unfold parse_config, mbind, result_bind.
    destruct (comprehension (λ line, PyList.get (Str.split 45 line) 0) _)
      as [tl |] eqn:E1; [| done].
    destruct (comprehension (λ line, PyList.get (Str.split 45 line) 1) _)
      as [th |] eqn:E2; [| done].
    apply comprehension_length in E1. apply comprehension_length in E2.
    intros ?; simplify_eq. done. }
  split; [apply Hlen |]. split; [apply Hlen |].
  intros i name help rest Hname Hhelp. change (py "-") with [45]. unfold nl.
  split; intros Hline;
    destruct (parse_config_fields _ _ _ _ _ Hparse Hline)
      as (name' & help' & Hname' & Hhelp' & -> & ->);
    revert Hname' Hhelp'; cbn [app].
  - rewrite !split_at_first by done. by intros [= <-] [= <-].
  - rewrite split_at_first by done. rewrite (split_without 45 (help ++ [10])).
    + by intros [= <-] [= <-].
    + rewrite elem_of_app, list_elem_of_singleton. intros [? | ?]; done.
Qed.

Lemma config_line_fields_witness :
  ∃ tasklist tasklist_help : list pystr,
    load_config (boot {[ py "tasklist.cfg" := three_lines ]})
    = Ok (tasklist, tasklist_help)
    ∧ length tasklist = length (Str.lines (py three_lines_text))
    ∧ length tasklist_help = length (Str.lines (py three_lines_text))
    ∧ ∀ (i : nat) (name help rest : pystr),
        45 ∉ name → 45 ∉ help →
        (Str.lines (py three_lines_text) !! i
         = Some (name ++ py "-" ++ help ++ py "-" ++ rest) →
         tasklist !! i = Some name ∧ tasklist_help !! i = Some help)
        ∧ (Str.lines (py three_lines_text) !! i
           = Some (name ++ py "-" ++ help ++ nl) →
           tasklist !! i = Some name ∧ tasklist_help !! i = Some (help ++ nl)).
Proof.
  apply (config_line_fields (boot {[ py "tasklist.cfg" := three_lines ]})
           (py three_lines_text)).
  - vm_compute. reflexivity.
  - apply (bool_decide_unpack _). vm_compute. exact I.
Defined.

(** In the configuration of three lines the second line, which has three
    ['-'], gives [netscan] and [Network]. *)
Example three_lines_fields :
  load_config (boot {[ py "tasklist.cfg" := three_lines ]})
  = Ok ([py "pslist"; py "netscan"; py "cmdline"],
        [py "Process list" ++ nl; py "Network"; py "Command line" ++ nl]).
Proof. by vm_compute. Qed.

(** X12.  The configuration loads exactly when [tasklist.cfg] exists,
    is valid UTF-8 and has a ['-'] in every line, a blank line included;
    the names and the help texts are then as many as the lines, and a
    file that is empty gives no configured task. *)
Theorem config_loads_iff (s : St) :
  ((∃ tasklist tasklist_help, load_config s = Ok (tasklist, tasklist_help))
   ↔ ∃ b text,
       files s !! py "tasklist.cfg" = Some b
       ∧ Codec.utf8_decode Codec.strict b = Ok text
       ∧ Forall (λ line, 45 ∈ line) (Str.lines (Str.universal_newlines text)))
  ∧ (∀ tasklist tasklist_help text,
       load_config s = Ok (tasklist, tasklist_help) →
       read_file s (py "tasklist.cfg") = Ok text →
       length tasklist = length (Str.lines text)
       ∧ length tasklist_help = length (Str.lines text))
  ∧ (files s !! py "tasklist.cfg" = Some [] → load_config s = Ok ([], [])).
Proof.
  split; [| split].
  - unfold load_config, read_file. split.
    + intros (tl & th & Hload).
      destruct (files s !! py "tasklist.cfg") as [b |] eqn:Hfile; [| done].
      destruct (Codec.utf8_decode Codec.strict b) as [text |] eqn:Hdec; [| done].
      exists b, text. split; [done |]. split; [done |].
      apply parse_config_returns. by exists (tl, th).
    + intros (b & text & -> & -> & Hall). cbn [result_map].
      apply parse_config_returns in Hall as [[tl th] ->]. by eexists _, _.
  - intros tl th text Hload Hread. unfold load_config in Hload.
    rewrite Hread in Hload. revert Hload.
    unfold parse_config, mbind, result_bind.
    destruct (comprehension (λ line, PyList.get (Str.split 45 line) 0) _)
      as [tl' |] eqn:E1; [| done].
    destruct (comprehension (λ line, PyList.get (Str.split 45 line) 1) _)
      as [th' |] eqn:E2; [| done].
    apply comprehension_length in E1. apply comprehension_length in E2.
    intros ?; simplify_eq. done.
  - intros Hempty. unfold load_config, read_file. by rewrite Hempty.
Qed.

(** ** Writing the report again *)

Lemma section_entries_ext (env : Env) (fs fs' : gmap pystr bytes)
    (output_path : pystr) (tl th fl fh : list pystr) (task_name : pystr) :
  fs' !! task_file output_path task_name = fs !! task_file output_path task_name →
  section_entries env fs' output_path tl th fl fh task_name
  = section_entries env fs output_path tl th fl fh task_name.
Proof. intros Hfile. unfold section_entries, report_section. by rewrite Hfile. Qed.

Lemma write_files_twice (env : Env) (path data : pystr) (fs : gmap pystr bytes) :
  write_files env path data (write_files env path data fs)
  = write_files env path data fs.
Proof.
  unfold write_files. destruct (writable env path); [| done].
  destruct (Codec.utf8_encode _); apply insert_insert_eq.
Qed.

(** X13.  Writing the report again changes nothing: the report is made
    from the files of the tasks alone, which the report leaves as they
    are, so a second [generate_markdown] leaves the files of the
    first. *)
Theorem report_twice_is_report_once (env : Env) (tasks : Dict.t (list pystr))
    (output_path : pystr)
    (tasklist tasklist_help filescanlist filescanlist_help : list pystr)
    (s : St) :
  let report := generate_markdown env tasks output_path tasklist tasklist_help
                  filescanlist filescanlist_help in
  files (run report (run report s).2).2 = files (run report s).2.
Proof.
  intros report. subst report.
  destruct (generate_markdown_run env tasks output_path tasklist tasklist_help
              filescanlist filescanlist_help s) as (s1 & -> & Hfiles1 & _).
  cbn [snd].
  destruct (generate_markdown_run env tasks output_path tasklist tasklist_help
              filescanlist filescanlist_help s1) as (s2 & -> & Hfiles2 & _).
  cbn [snd]. rewrite Hfiles2.
  assert (Hsame : ∀ name,
    section_entries env (files s1) output_path tasklist tasklist_help filescanlist
      filescanlist_help name
    = section_entries env (files s) output_path tasklist tasklist_help filescanlist
        filescanlist_help name).
  { intros name. apply section_entries_ext. rewrite Hfiles1.
    apply write_files_other, task_file_not_summary. }
  rewrite (list_bind_ext _ (λ name,
             (section_entries env (files s) output_path tasklist tasklist_help
                filescanlist filescanlist_help name).1) _ (Dict.keys tasks));
    [| intros name; by rewrite Hsame | done].
  rewrite Hfiles1. apply write_files_twice.
Qed.
